(** * Engine.js: on-demand rendering, watch handlers and the build loop

    A shallow embedding of [packages/engine/src/Engine.js].  The engine is
    an orchestrator: it calls the render worker, the page tree, the watcher
    and Node's [fs] and [path] modules.  Its own control flow (guards, loops,
    [try]/[catch]) is embedded function by function; the collaborators whose
    bodies live in other files are the fields of the class [Collaborators];
    Node's [path] and [fs] are modelled in the modules [Path] and [Fs]. *)

From Stdlib Require Import Ascii DecimalString.
From stdpp Require Import gmap strings list sorting.

Local Open Scope string_scope.

(** ** Node's [path] module (POSIX flavour) *)

Module Path.

Definition slash : ascii := "/"%char.

Definition is_slash (c : ascii) : bool := Ascii.eqb c slash.

(** [s.split('/')]: the segments between separators, empty ones kept. *)
Fixpoint split (s : string) : list string :=
  match s with
  | EmptyString => [""]
  | String c rest =>
      if is_slash c then "" :: split rest
      else match split rest with
           | seg :: segs => String c seg :: segs
           | [] => [String c ""]
           end
  end.

(** [segs.join('/')] *)
Fixpoint join_segments (segs : list string) : string :=
  match segs with
  | [] => ""
  | [x] => x
  | x :: rest => x ++ "/" ++ join_segments rest
  end.

Definition isAbsolute (p : string) : bool := String.prefix "/" p.

Definition ends_with_slash (p : string) : bool :=
  match String.rev p with
  | String c _ => is_slash c
  | EmptyString => false
  end.

(** One step of [normalizeString]: [res] is the stack of kept segments,
    most recent first. *)
Definition normalize_step (allowAboveRoot : bool) (res : list string) (seg : string)
  : list string :=
  if String.eqb seg "" || String.eqb seg "." then res
  else if String.eqb seg ".." then
    match res with
    | last :: before =>
        if String.eqb last ".." then
          (if allowAboveRoot then ".." :: res else res)
        else before
    | [] => if allowAboveRoot then [".."] else []
    end
  else seg :: res.

(** [normalizeString(path, allowAboveRoot, '/')], as a list of segments. *)
Definition normalizeSegments (p : string) (allowAboveRoot : bool) : list string :=
  reverse (foldl (normalize_step allowAboveRoot) [] (split p)).

Definition normalizeString (p : string) (allowAboveRoot : bool) : string :=
  join_segments (normalizeSegments p allowAboveRoot).

(** [path.normalize(path)] *)
Definition normalize (p : string) : string :=
  if String.eqb p "" then "."
  else
    let abs := isAbsolute p in
    let trailing := ends_with_slash p in
    let body := normalizeString p (negb abs) in
    if String.eqb body "" then
      (if abs then "/" else if trailing then "./" else ".")
    else
      let body' := if trailing then body ++ "/" else body in
      if abs then "/" ++ body' else body'.

(** [path.join(a, b)]: empty arguments are dropped, the rest is joined
    with '/' and normalised. *)
Definition join (a b : string) : string :=
  if String.eqb a "" then (if String.eqb b "" then "." else normalize b)
  else if String.eqb b "" then normalize a
  else normalize (a ++ "/" ++ b).

Fixpoint drop_slashes (s : string) : string :=
  match s with
  | String c rest => if is_slash c then drop_slashes rest else s
  | EmptyString => EmptyString
  end.

Fixpoint drop_non_slashes (s : string) : string :=
  match s with
  | String c rest => if is_slash c then s else drop_non_slashes rest
  | EmptyString => EmptyString
  end.

(** [path.dirname(path)]: the scan runs from the end of the string down
    to index 1; it skips trailing separators, then the last segment, and
    cuts at the separator before it. *)
Definition dirname (p : string) : string :=
  match p with
  | EmptyString => "."
  | String c0 rest =>
      let hasRoot := is_slash c0 in
      match drop_non_slashes (drop_slashes (String.rev rest)) with
      | EmptyString => if hasRoot then "/" else "."
      | String _ before =>
          match before with
          | EmptyString => if hasRoot then "//" else String c0 EmptyString
          | _ => String c0 (String.rev before)
          end
      end
  end.

(** [path.resolve(p)] for one argument; [cwd] is [process.cwd()]. *)
Definition resolveSegments (cwd p : string) : list string :=
  if isAbsolute p then normalizeSegments p false
  else normalizeSegments (cwd ++ "/" ++ p) false.

(** [path.resolve(p)] as a string: "/" and the segments. *)
Definition resolve (cwd p : string) : string :=
  "/" ++ join_segments (resolveSegments cwd p).

Fixpoint strip_common (from to : list string) : list string * list string :=
  match from, to with
  | f :: from', t :: to' =>
      if String.eqb f t then strip_common from' to' else (from, to)
  | _, _ => (from, to)
  end.

(** [path.relative(from, to)]: both paths are resolved, the common
    leading segments are dropped, every remaining segment of [from]
    becomes one "..", and the rest of [to] follows. *)
Definition relative (cwd from to : string) : string :=
  if String.eqb from to then ""
  else
    let '(up, down) := strip_common (resolveSegments cwd from) (resolveSegments cwd to) in
    join_segments (replicate (length up) ".." ++ down).

End Path.

(** ** [devServerAdjustAssetUrls]: the [adjustAssetUrl] callback *)

(** The template literal [`${count}`] prints a number in decimal. *)
Definition number_to_string (n : nat) : string :=
  NilEmpty.string_of_uint (Nat.to_uint n).

(** The loop
[[
  while (relPath.startsWith('../')) { relPath = relPath.substring(3); count += 1; }
]]
    returning the final [(count, relPath)]. *)
Fixpoint strip_parent_prefixes (count : nat) (relPath : string) : nat * string :=
  match relPath with
  | String "." (String "." (String "/" rest)) => strip_parent_prefixes (S count) rest
  | _ => (count, relPath)
  end.

Definition outside_root_prefix : string := "/__wds-outside-root__/".

Definition is_relative_url (url : string) : bool :=
  String.prefix "./" url || String.prefix "../" url.

(** [adjustAssetUrl({ url, outputFilePath })]; [cwd] is [process.cwd()]
    and [outputDir] is [this.outputDir]. *)
Definition adjustAssetUrl (cwd outputDir url outputFilePath : string) : string :=
  if is_relative_url url then
    let assetFilePath := Path.join (Path.dirname outputFilePath) url in
    let relPath := Path.relative cwd outputDir assetFilePath in
    let '(count, relPath') := strip_parent_prefixes 0 relPath in
    outside_root_prefix ++ number_to_string count ++ "/" ++ relPath'
  else url.

(** Where the asset of [url] lies, seen from the output root: the
    directories of the root to climb out of, and the path down from there.
    The asset is inside the root when there is nothing to climb. *)
Definition asset_location (cwd outputDir url outputFilePath : string)
  : list string * list string :=
  Path.strip_common
    (Path.resolveSegments cwd outputDir)
    (Path.resolveSegments cwd (Path.join (Path.dirname outputFilePath) url)).

(** [n] copies of "../". *)
Fixpoint parents (n : nat) : string :=
  match n with
  | 0 => ""
  | S n => "../" ++ parents n
  end.

Fixpoint has_slash (s : string) : bool :=
  match s with
  | EmptyString => false
  | String c rest => Path.is_slash c || has_slash rest
  end.

(** A segment that survives normalisation below the root. *)
Definition plain (seg : string) : Prop :=
  seg ≠ ".." ∧ has_slash seg = false.

(** ** Node's [fs] module

    The disk is the set of the paths that exist, each written the way
    [path.resolve] writes it.  File contents are not modelled: the engine
    never reads them, it only tests, creates and removes paths.  A path
    given to a function of [fs] names the entry it resolves to, as the
    operating system has it: relative paths start at [process.cwd()], and
    ".", "..", repeated and trailing separators make no difference.

    [existsSync] and [rm] are modelled here.  Both forms of [rm] are
    called with [force: true] and are taken to succeed: a missing path is
    no error, and the disk has no permissions that could refuse a removal.
    [mkdir] and [fse.copy] can be refused for reasons the set of paths does
    not show (a regular file where a directory is needed, a copy onto
    itself); they are collaborators, see below. *)

Module Fs.

Definition existsSync (cwd p : string) (d : gset string) : bool :=
  bool_decide (Path.resolve cwd p ∈ d).

(** The segments [segs] begin with the segments [pre]. *)
Fixpoint starts_with (pre segs : list string) : bool :=
  match pre, segs with
  | [], _ => true
  | p :: pre', s :: segs' => String.eqb p s && starts_with pre' segs'
  | _ :: _, [] => false
  end.

(** [q] is the directory [dir] or lies below it. *)
Definition within (cwd dir q : string) : bool :=
  starts_with (Path.resolveSegments cwd dir) (Path.resolveSegments cwd q).

(** [q] lies below the directory [dir]. *)
Definition below (cwd dir q : string) : bool :=
  within cwd dir q
  && Nat.ltb (length (Path.resolveSegments cwd dir)) (length (Path.resolveSegments cwd q)).

(** [rm(p, { force: true })] *)
Definition rm_force (cwd p : string) (d : gset string) : gset string :=
  d ∖ {[ Path.resolve cwd p ]}.

(** [rm(dir, { recursive: true, force: true })] *)
Definition rm_recursive_force (cwd dir : string) (d : gset string) : gset string :=
  filter (λ q, within cwd dir q = false) d.

End Fs.

(** ** Data *)

Definition Error : Type := string.

(** The result of running a step: it completes with a value, or it throws;
    either way the state reached is kept. *)
Inductive Outcome (S A : Type) : Type :=
| Ok (a : A) (s : S)
| Throw (e : Error) (s : S).
Arguments Ok {S A} a s.
Arguments Throw {S A} e s.

(** The argument of [renderViaWorker]. *)
Record RenderRequest := {
  req_filePath : string;
  req_inputDir : string;
  req_outputDir : string;
  req_renderMode : string;
}.

(** What a render resolves to; the engine reads [sourceRelativeFilePath]. *)
Record RenderResult := {
  sourceRelativeFilePath : string;
}.

(** A plugin instance, seen through [plugin.constructor]: the class name
    and the static [publicFolder], which a class may leave undefined. *)
Record Plugin := {
  constructor_name : string;
  publicFolder : option string;
}.

(** An entry of [watcher.pages]; [webSockets] is the set of open tabs. *)
Record Page := {
  webSockets : option (list nat);
}.

Record Watcher := {
  pages : list (string * Page);
}.

(** The [koa] context, as far as the plugins read it. *)
Record Context := {
  path : string;
}.

(** Every call that leaves the engine, in the order it is issued. *)
Inductive Event :=
| EvApplyPlugins
| EvGatherFiles (dir : string)
| EvUpdateRocketHeader (sourceFilePath : string)
| EvRenderViaWorker (filePath : string)
| EvPageTreeAdd (rel : string)
| EvPageTreeSave
| EvMkdir (p : string)
| EvRm (p : string) (recursive : bool)
| EvCopy (src dst : string)
| EvConsoleLog (msg : string)
| EvLogRendering (msg : string)
| EvWatcherCleanup
| EvDevServerStop
| EvCleanupWorker.

#[global] Instance Event_eq_dec : EqDecision Event.
Proof. solve_decision. Defined.

(** JavaScript truthiness of a string that may be [undefined]. *)
Definition truthy (s : option string) : bool :=
  match s with
  | Some s => negb (String.eqb s "")
  | None => false
  end.

(** A string that may be [undefined], inside a template literal. *)
Definition template (s : option string) : string :=
  match s with
  | Some s => s
  | None => "undefined"
  end.

(** The [PageTree] object: the two flags the engine reads (and, for the
    first, resets), and the tree itself, which only the page tree's own
    methods touch. *)
Record PageTree (T : Type) := {
  needsAnotherRenderingPass : bool;
  pageTreeChangedOnSave : bool;
  treeModel : T;
}.
Arguments needsAnotherRenderingPass {T} _.
Arguments pageTreeChangedOnSave {T} _.
Arguments treeModel {T} _.

(** [this.options], as far as [prepare] and [renderFile] read it. *)
Record EngineOptions (MP : Type) := {
  defaultPlugins : option (list MP);
  plugins : option (list Plugin);
  renderMode : option string;
}.
Arguments defaultPlugins {MP} _.
Arguments plugins {MP} _.
Arguments renderMode {MP} _.

(** ** The collaborators

    Functions the engine imports from other files.  Each one is given the
    part of the state it can reach: the render worker, [updateRocketHeader],
    [gatherFiles], [mkdir] and [fse.copy] work on the disk; the page tree's
    methods work on the page tree object and the disk; URL resolution and
    the path converter only read.  Any of the effectful ones may throw, and
    leaves the disk it had reached when it did. *)
Class Collaborators := {
  TreeModel : Type;
  MetaPlugin : Type;
  (** [process.cwd()] *)
  process_cwd : string;
  (** fs/promises: [mkdir(p, { recursive: true })] *)
  fsPromises_mkdir : string → gset string → Outcome (gset string) unit;
  (** fs-extra: [fse.copy(src, dst)] *)
  fsExtra_copy : string → string → gset string → Outcome (gset string) unit;
  (** urlPathConverter.js *)
  sourceRelativeFilePathToOutputRelativeFilePath : string → string;
  urlToSourceFilePath : string → string → gset string → option string;
  (** gatherFiles.js *)
  gatherFiles : string → gset string → Outcome (gset string) (list string);
  (** updateRocketHeader.js *)
  updateRocketHeader : string → string → gset string → Outcome (gset string) unit;
  (** renderViaWorker.js *)
  renderViaWorker : RenderRequest → gset string → Outcome (gset string) RenderResult;
  (** plugins-manager *)
  applyPlugins : EngineOptions MetaPlugin → list MetaPlugin → EngineOptions MetaPlugin;
  (** web-menu/PageTree.js *)
  PageTree_new : string → string → PageTree TreeModel;
  PageTree_add : string → PageTree TreeModel * gset string →
                 Outcome (PageTree TreeModel * gset string) unit;
  PageTree_save : PageTree TreeModel * gset string →
                  Outcome (PageTree TreeModel * gset string) unit;
}.

Section Engine.
Context `{Collaborators}.

(** The fields of the [Engine] instance. *)
Record Engine := {
  options : EngineOptions MetaPlugin;
  docsDir : string;
  outputDir : string;
  watchDir : string;
  watcher : option Watcher;
  devServer : bool;
}.

(** Everything a handler can read or change: the engine instance, the
    disk, the [pageTree] in scope, and the log of outgoing calls. *)
Record World := {
  engine : Engine;
  disk : gset string;
  pageTree : PageTree TreeModel;
  trace : list Event;
}.

Definition set_options (o : EngineOptions MetaPlugin) (w : World) : World :=
  {| engine := {| options := o;
                  docsDir := docsDir (engine w);
                  outputDir := outputDir (engine w);
                  watchDir := watchDir (engine w);
                  watcher := watcher (engine w);
                  devServer := devServer (engine w) |};
     disk := disk w; pageTree := pageTree w; trace := trace w |}.

Definition set_disk (d : gset string) (w : World) : World :=
  {| engine := engine w; disk := d; pageTree := pageTree w; trace := trace w |}.

Definition set_pageTree (t : PageTree TreeModel) (w : World) : World :=
  {| engine := engine w; disk := disk w; pageTree := t; trace := trace w |}.

Definition set_trace (t : list Event) (w : World) : World :=
  {| engine := engine w; disk := disk w; pageTree := pageTree w; trace := t |}.

(** ** The monad of handlers: state and exceptions *)

Definition M (A : Type) : Type := World → Outcome World A.

Definition ret {A} (a : A) : M A := λ w, Ok a w.

Definition bind {A B} (m : M A) (k : A → M B) : M B :=
  λ w, match m w with
       | Ok a w' => k a w'
       | Throw e w' => Throw e w'
       end.

(** [try { m } catch (error) { h error }] *)
Definition try_catch {A} (m : M A) (h : Error → M A) : M A :=
  λ w, match m w with
       | Ok a w' => Ok a w'
       | Throw e w' => h e w'
       end.

Notation "x <- m ;; k" := (bind m (λ x, k))
  (at level 100, m at next level, k at level 200, right associativity).
Notation "m ;;; k" := (bind m (λ _, k))
  (at level 100, k at level 200, right associativity).

Definition get : M World := λ w, Ok w w.

Definition emit (ev : Event) : M unit :=
  λ w, Ok tt (set_trace (trace w ++ [ev]) w).

(** A call into a collaborator that works on the disk. *)
Definition on_disk {A} (f : gset string → Outcome (gset string) A) : M A :=
  λ w, match f (disk w) with
       | Ok a d => Ok a (set_disk d w)
       | Throw e d => Throw e (set_disk d w)
       end.

(** A call of a page tree method. *)
Definition on_pageTree {A}
    (f : PageTree TreeModel * gset string → Outcome (PageTree TreeModel * gset string) A)
  : M A :=
  λ w, match f (pageTree w, disk w) with
       | Ok a (t, d) => Ok a (set_pageTree t (set_disk d w))
       | Throw e (t, d) => Throw e (set_pageTree t (set_disk d w))
       end.

(** [for (const x of xs) { await body(x) }] *)
Fixpoint for_of {A} (xs : list A) (body : A → M unit) : M unit :=
  match xs with
  | [] => ret tt
  | x :: rest => body x ;;; for_of rest body
  end.

(** *** Outgoing calls *)

Definition existsSync (p : string) : M bool :=
  w <- get ;; ret (Fs.existsSync process_cwd p (disk w)).

Definition rm (p : string) (recursive : bool) : M unit :=
  emit (EvRm p recursive) ;;;
  λ w, Ok tt (set_disk ((if recursive then Fs.rm_recursive_force else Fs.rm_force)
                          process_cwd p (disk w)) w).

Definition mkdir (p : string) : M unit :=
  emit (EvMkdir p) ;;;
  on_disk (fsPromises_mkdir p).

Definition fse_copy (src dst : string) : M unit :=
  emit (EvCopy src dst) ;;;
  on_disk (fsExtra_copy src dst).

Definition console_log (msg : string) : M unit := emit (EvConsoleLog msg).

Definition logRendering (msg : string) : M unit := emit (EvLogRendering msg).

Definition call_updateRocketHeader (sourceFilePath docsDir : string) : M unit :=
  emit (EvUpdateRocketHeader sourceFilePath) ;;;
  on_disk (updateRocketHeader sourceFilePath docsDir).

Definition call_gatherFiles (dir : string) : M (list string) :=
  emit (EvGatherFiles dir) ;;;
  on_disk (gatherFiles dir).

Definition pageTree_add (rel : string) : M unit :=
  emit (EvPageTreeAdd rel) ;;;
  on_pageTree (PageTree_add rel).

Definition pageTree_save : M unit :=
  emit EvPageTreeSave ;;;
  on_pageTree PageTree_save.

Definition set_needsAnotherRenderingPass (b : bool) : M unit :=
  λ w, Ok tt (set_pageTree {| needsAnotherRenderingPass := b;
                              pageTreeChangedOnSave := pageTreeChangedOnSave (pageTree w);
                              treeModel := treeModel (pageTree w) |} w).

(** ** The methods of [Engine] *)

Definition clearOutputDir : M unit :=
  w <- get ;; rm (outputDir (engine w)) true.

Definition plugin_missing_message (plugin : Plugin) : string :=
  "Plugin " ++ constructor_name plugin ++ " defined a public folder "
  ++ template (publicFolder plugin) ++ " but it does not exist.".

(** The body of the loop over [this.options.plugins] in [prepare]. *)
Definition prepare_plugin (plugin : Plugin) : M unit :=
  w <- get ;;
  let publicFolder := publicFolder plugin in
  if truthy publicFolder && Fs.existsSync process_cwd (template publicFolder) (disk w) then
    fse_copy (template publicFolder) (outputDir (engine w))
  else
    console_log (plugin_missing_message plugin).

(** [prepare({ clearOutputDir = true } = {})]; [clear] is the option. *)
Definition prepare (clear : bool) : M unit :=
  w <- get ;;
  let defaultPlugins := default [] (defaultPlugins (options (engine w))) in
  emit EvApplyPlugins ;;;
  (λ w, Ok tt (set_options (applyPlugins (options (engine w)) defaultPlugins) w)) ;;;
  (* prepare outputDir *)
  present <- existsSync (outputDir (engine w)) ;;
  (if negb present then mkdir (outputDir (engine w))
   else if clear then clearOutputDir
   else ret tt) ;;;
  (* copy public files *)
  let publicDir := Path.join (docsDir (engine w)) "__public" in
  present <- existsSync publicDir ;;
  (if present then fse_copy publicDir (outputDir (engine w)) else ret tt) ;;;
  (* copy public files of plugins *)
  w <- get ;;
  match plugins (options (engine w)) with
  | Some ps => for_of ps prepare_plugin
  | None => ret tt
  end.

Definition stop : M unit :=
  w <- get ;;
  (match watcher (engine w) with
   | Some _ => emit EvWatcherCleanup
   | None => ret tt
   end) ;;;
  (if devServer (engine w) then emit EvDevServerStop else ret tt) ;;;
  emit EvCleanupWorker.

Definition getOutputFilePath (e : Engine) (sourceFilePath : string) : string :=
  let sourceRelativeFilePath := Path.relative process_cwd (docsDir e) sourceFilePath in
  let outputRelativeFilePath :=
    sourceRelativeFilePathToOutputRelativeFilePath sourceRelativeFilePath in
  Path.join (outputDir e) outputRelativeFilePath.

Definition deleteOutputOf (sourceFilePath : string) : M unit :=
  w <- get ;; rm (getOutputFilePath (engine w) sourceFilePath) false.

Definition getSourceFilePathFromUrl (url : string) : M (option string) :=
  w <- get ;; ret (urlToSourceFilePath url (docsDir (engine w)) (disk w)).

(** The object [renderFile] passes to [renderViaWorker]. *)
Definition render_request (e : Engine) (filePath : string) : RenderRequest :=
  {| req_filePath := filePath;
     req_inputDir := docsDir e;
     req_outputDir := outputDir e;
     req_renderMode :=
       if truthy (renderMode (options e)) then template (renderMode (options e))
       else "development" |}.

Definition renderFile (filePath : string) : M RenderResult :=
  w <- get ;;
  emit (EvRenderViaWorker filePath) ;;;
  on_disk (renderViaWorker (render_request (engine w) filePath)).

(** [!!page.webSockets?.size ?? false] *)
Definition isOpenedInBrowser (page : Page) : bool :=
  match webSockets page with
  | Some sockets => negb (Nat.eqb (length sockets) 0)
  | None => false
  end.

(** [triggerSourceFilePath && triggerSourceFilePath === sourceFilePath] *)
Definition is_trigger (triggerSourceFilePath sourceFilePath : string) : bool :=
  negb (String.eqb triggerSourceFilePath "")
  && String.eqb triggerSourceFilePath sourceFilePath.

Definition opened_message (e : Engine) (sourceFilePath : string) : string :=
  Path.relative process_cwd (docsDir e) sourceFilePath
  ++ " because it is opened in a browser tab and the page tree has changed.".

(** The body of the loop over [this.watcher.pages.entries()]. *)
Definition renderAllOpenedFiles_entry (deleteOtherFiles : bool)
    (triggerSourceFilePath : string) (entry : string * Page) : M unit :=
  let '(sourceFilePath, page) := entry in
  if is_trigger triggerSourceFilePath sourceFilePath then
    (* no need to rerender the file that triggered it *)
    ret tt
  else if isOpenedInBrowser page then
    w <- get ;;
    logRendering (opened_message (engine w) sourceFilePath) ;;;
    try_catch (renderFile sourceFilePath ;;; ret tt) (λ _, ret tt)
  else if deleteOtherFiles then deleteOutputOf sourceFilePath
  else ret tt.

(** [renderAllOpenedFiles({ deleteOtherFiles = true, triggerSourceFilePath = '' } = {})] *)
Definition renderAllOpenedFiles (deleteOtherFiles : bool)
    (triggerSourceFilePath : string) : M unit :=
  w <- get ;;
  match watcher (engine w) with
  | Some wa => for_of (pages wa)
                 (renderAllOpenedFiles_entry deleteOtherFiles triggerSourceFilePath)
  | None => ret tt
  end.

Definition again_message (sourceRelativeFilePath : string) : string :=
  sourceRelativeFilePath ++ " again as the pageTree was modified.".

(** The statements inside [try { ... }], the same in the [serve] hook and
    in the watch handler: render, add, save, and the second pass. *)
Definition render_and_register (sourceFilePath sourceRelativeFilePath : string) : M unit :=
  renderFile sourceFilePath ;;;
  pageTree_add sourceRelativeFilePath ;;;
  pageTree_save ;;;
  w <- get ;;
  if needsAnotherRenderingPass (pageTree w) then
    logRendering (again_message sourceRelativeFilePath) ;;;
    renderFile sourceFilePath ;;;
    renderAllOpenedFiles true sourceFilePath ;;;
    set_needsAnotherRenderingPass false
  else ret tt.

(** ** [build] *)

(** The body of the first loop of [build]. *)
Definition build_file (sourceFilePath : string) : M unit :=
  w <- get ;;
  call_updateRocketHeader sourceFilePath (docsDir (engine w)) ;;;
  result <- renderFile sourceFilePath ;;
  pageTree_add (sourceRelativeFilePath result).

(** The block guarded by [sourceFiles.length > 0]: the first loop, the
    save, and the second loop when the save changed the tree. *)
Definition build_passes (sourceFiles : list string) : M unit :=
  for_of sourceFiles build_file ;;;
  pageTree_save ;;;
  w <- get ;;
  if pageTreeChangedOnSave (pageTree w) then
    for_of sourceFiles (λ sourceFilePath, renderFile sourceFilePath ;;; ret tt)
  else ret tt.

Definition build : M unit :=
  prepare true ;;;
  w <- get ;;
  (λ w', Ok tt (set_pageTree (PageTree_new (docsDir (engine w)) (outputDir (engine w))) w')) ;;;
  (* write files *)
  sourceFiles <- call_gatherFiles (docsDir (engine w)) ;;
  (if Nat.ltb 0 (length sourceFiles) then build_passes sourceFiles else ret tt) ;;;
  stop.

(** ** [start]: the dev server plugin and the watcher callbacks *)

Definition register_tab_module : string :=
  "import { sendMessage } from '/__web-dev-server__web-socket.js';"
  ++ String (ascii_of_nat 10) ""
  ++ " export default () => { sendMessage({ type: 'register-tab', pathname: document.location.pathname }); }".

Definition requested_message (sourceRelativeFilePath : string) : string :=
  sourceRelativeFilePath ++ " because it got requested by a browser tab.".

(** [registerTabPlugin().serve]; the result is the served body, if any. *)
Definition serve (context : Context) : M (option string) :=
  if String.eqb (path context) "/ws-register-tab.js" then
    ret (Some register_tab_module)
  else
    (* generating files on demand *)
    sourceFilePath <- getSourceFilePathFromUrl (path context) ;;
    if truthy sourceFilePath then
      let sourceFilePath := template sourceFilePath in
      w <- get ;;
      let outputFilePath := getOutputFilePath (engine w) sourceFilePath in
      present <- existsSync outputFilePath ;;
      if negb present then
        let sourceRelativeFilePath :=
          Path.relative process_cwd (docsDir (engine w)) sourceFilePath in
        call_updateRocketHeader sourceFilePath (docsDir (engine w)) ;;;
        logRendering (requested_message sourceRelativeFilePath) ;;;
        try_catch (render_and_register sourceFilePath sourceRelativeFilePath)
                  (λ _, (* nothing as error already rendered to file *) ret tt) ;;;
        ret None
      else ret None
    else ret None.

Definition onPageSavedOrOpenedTabAndServerDependencyChanged (sourceFilePath : string)
  : M unit :=
  w <- get ;;
  call_updateRocketHeader sourceFilePath (docsDir (engine w)) ;;;
  try_catch
    (render_and_register sourceFilePath
       (Path.relative process_cwd (docsDir (engine w)) sourceFilePath))
    (λ _, (* nothing as we show the error in the browser *) ret tt).

Definition onPageServerDependencySaved (sourceFilePath : string) : M unit :=
  w <- get ;;
  call_updateRocketHeader sourceFilePath (docsDir (engine w)) ;;;
  (* no need to render as the page itself is not saved nor is the page open
     in any browser tab; the current output file is cleared *)
  deleteOutputOf sourceFilePath.

Definition onPageDeleted (sourceFilePath : string) : M unit :=
  deleteOutputOf sourceFilePath.

(** ** Vocabulary of the statements *)

(** The state a run ends in, whether it completed or threw. *)
Definition state_of {A} (o : Outcome World A) : World :=
  match o with
  | Ok _ w => w
  | Throw _ w => w
  end.

(** The disk a collaborator leaves, whether it completed or threw. *)
Definition left_by {A} (o : Outcome (gset string) A) : gset string :=
  match o with
  | Ok _ d => d
  | Throw _ d => d
  end.

(** Whether a run completed rather than threw. *)
Definition completes {A} (o : Outcome World A) : bool :=
  match o with
  | Ok _ _ => true
  | Throw _ _ => false
  end.

(** The state reached from [w] with the disk [d], the page tree [t] and
    the further calls [evs]. *)
Definition reached (w : World) (d : gset string) (t : PageTree TreeModel)
    (evs : list Event) : World :=
  {| engine := engine w; disk := d; pageTree := t; trace := trace w ++ evs |}.

(** The calls a run issued: what it appended to the log of [w]. *)
Definition events_of {A} (m : M A) (w : World) : list Event :=
  drop (length (trace w)) (trace (state_of (m w))).

(** The entries of [this.watcher.pages]; none while there is no watcher. *)
Definition tracked_pages (e : Engine) : list (string * Page) :=
  match watcher e with
  | Some wa => pages wa
  | None => []
  end.

(** The calls one entry of the sweep accounts for. *)
Definition entry_events (e : Engine) (deleteOtherFiles : bool)
    (triggerSourceFilePath : string) (entry : string * Page) : list Event :=
  if is_trigger triggerSourceFilePath entry.1 then []
  else if isOpenedInBrowser entry.2 then
    [EvLogRendering (opened_message e entry.1); EvRenderViaWorker entry.1]
  else if deleteOtherFiles then [EvRm (getOutputFilePath e entry.1) false]
  else [].

Definition sweep_events (e : Engine) (deleteOtherFiles : bool)
    (triggerSourceFilePath : string) (entries : list (string * Page)) : list Event :=
  flat_map (entry_events e deleteOtherFiles triggerSourceFilePath) entries.

(** The calls of the first pass over one requested or saved page. *)
Definition first_pass_events (sourceFilePath sourceRelativeFilePath : string) : list Event :=
  [EvRenderViaWorker sourceFilePath; EvPageTreeAdd sourceRelativeFilePath; EvPageTreeSave].

(** The calls of the second pass: the page again, then the sweep. *)
Definition second_pass_events (e : Engine) (sourceFilePath sourceRelativeFilePath : string)
  : list Event :=
  [EvLogRendering (again_message sourceRelativeFilePath); EvRenderViaWorker sourceFilePath]
  ++ sweep_events e true sourceFilePath (tracked_pages e).

Definition is_render (ev : Event) : bool :=
  match ev with EvRenderViaWorker _ => true | _ => false end.

Definition is_add (ev : Event) : bool :=
  match ev with EvPageTreeAdd _ => true | _ => false end.

Definition is_save (ev : Event) : bool :=
  match ev with EvPageTreeSave => true | _ => false end.

(** How often [sourceFilePath] was handed to the render worker. *)
Definition renders_of (sourceFilePath : string) (evs : list Event) : nat :=
  count_occ Event_eq_dec evs (EvRenderViaWorker sourceFilePath).

Definition saves_of (evs : list Event) : nat :=
  count_occ Event_eq_dec evs EvPageTreeSave.

(** How many calls of [pageTree.add] there were. *)
Definition adds_of (evs : list Event) : nat := length (filter (λ ev, is_add ev = true) evs).

(** A call that is neither a render nor a page tree method. *)
Definition quiet (ev : Event) : Prop :=
  is_render ev = false ∧ is_add ev = false ∧ is_save ev = false.

(** A call [prepare] can make when the output directory is [out]: of
    all the calls of [rm], only the recursive one on [out]. *)
Definition prepare_call (out : string) (ev : Event) : Prop :=
  match ev with
  | EvApplyPlugins | EvMkdir _ | EvCopy _ _ | EvConsoleLog _ => True
  | EvRm p recursive => p = out ∧ recursive = true
  | _ => False
  end.

(** [w'] differs from [w] at most in the options, the disk and the log. *)
Definition same_site (w w' : World) : Prop :=
  docsDir (engine w') = docsDir (engine w)
  ∧ outputDir (engine w') = outputDir (engine w)
  ∧ watcher (engine w') = watcher (engine w)
  ∧ devServer (engine w') = devServer (engine w)
  ∧ pageTree w' = pageTree w.

(** Run from [w], the step [m] only appends calls that satisfy [P] to the
    log, stays on the same site, and leaves a disk related by [R] to the
    one it found, whether it completes or throws. *)
Definition framed {A} (P : Event → Prop) (R : relation (gset string)) (m : M A)
    (w : World) : Prop :=
  ∃ evs, trace (state_of (m w)) = (trace w ++ evs)%list
         ∧ Forall P evs
         ∧ same_site w (state_of (m w))
         ∧ R (disk w) (disk (state_of (m w))).

(** Any two disks. *)
Definition any_disk : relation (gset string) := λ _ _, True.

(** Every path of [d] that is neither [out] nor below it is in [d']. *)
Definition keeps_outside (cwd out : string) : relation (gset string) :=
  λ d d', ∀ q, q ∈ d → Fs.within cwd out q = false → q ∈ d'.

(** The same outcome, in a state changed by [f]. *)
Definition outcome_map {A} (f : World → World) (o : Outcome World A) : Outcome World A :=
  match o with
  | Ok a w => Ok a (f w)
  | Throw err w => Throw err (f w)
  end.


End Engine.

(** ** A concrete set of collaborators

    Used to run the engine on concrete inputs.  The page tree follows the
    component contract of the specification; the other collaborators are
    the simplest functions of the right shape. *)

Module Sample.

(** The tree: the docs directory it was made for, the nodes in memory and
    the nodes last persisted. *)
Record Tree := {
  inputDir : string;
  nodes : list string;
  persisted : list string;
}.

(** Modelled from the spec: [PageTree.add] of web-menu/PageTree.js, whose
    body is not part of the sources at hand.  "Inserts or updates the node
    for this path"; "cheap and purely updates in-memory structure".  A
    node is identified by its source-relative path. *)
Definition add (rel : string) (s : PageTree Tree * gset string)
  : Outcome (PageTree Tree * gset string) unit :=
  let '(t, d) := s in
  let ns := nodes (treeModel t) in
  Ok tt ({| needsAnotherRenderingPass := needsAnotherRenderingPass t;
            pageTreeChangedOnSave := pageTreeChangedOnSave t;
            treeModel := {| inputDir := inputDir (treeModel t);
                            nodes := if bool_decide (rel ∈ ns) then ns else ns ++ [rel];
                            persisted := persisted (treeModel t) |} |}, d).

(** Modelled from the spec: [PageTree.save] of web-menu/PageTree.js, whose
    body is not part of the sources at hand.  "Persists the tree.  Sets
    needsAnotherRenderingPass = true if the persisted structure differs
    from the previously persisted structure"; the
    pageTreeChangedOnSave flag is set "only once save() is called";
    "deleting a page's source file [...] removes it from the page tree on
    next save": the nodes whose source file is gone are dropped. *)
Definition save (cwd : string) (s : PageTree Tree * gset string)
  : Outcome (PageTree Tree * gset string) unit :=
  let '(t, d) := s in
  let dir := inputDir (treeModel t) in
  let ns := filter (λ rel, Fs.existsSync cwd (Path.join dir rel) d = true)
              (nodes (treeModel t)) in
  let changed := negb (bool_decide (ns = persisted (treeModel t))) in
  Ok tt ({| needsAnotherRenderingPass := needsAnotherRenderingPass t || changed;
            pageTreeChangedOnSave := changed;
            treeModel := {| inputDir := dir; nodes := ns; persisted := ns |} |}, d).

(** Modelled from the spec: [new PageTree({ inputDir, outputDir })]
    followed by nothing ("starts empty otherwise"). *)
Definition new (inputDir outputDir : string) : PageTree Tree :=
  {| needsAnotherRenderingPass := false;
     pageTreeChangedOnSave := false;
     treeModel := {| inputDir := inputDir; nodes := []; persisted := [] |} |}.

Definition cwd : string := "/work".

Definition ends_with (suffix s : string) : bool :=
  String.prefix (String.rev suffix) (String.rev s).

Fixpoint has_dot (s : string) : bool :=
  match s with
  | EmptyString => false
  | String c rest => Ascii.eqb c "."%char || has_dot rest
  end.

(** On the sample disk the regular files are the entries whose name has
    an extension; the others are directories. *)
Definition regular (q : string) : bool :=
  has_dot (default "" (last (Path.split q))).

Fixpoint inits (segs : list string) : list (list string) :=
  match segs with
  | [] => []
  | x :: rest => [x] :: map (cons x) (inits rest)
  end.

(** [mkdir(p, { recursive: true })]: the directory and its missing
    ancestors are created, unless a regular file is in the way. *)
Definition mkdir (p : string) (d : gset string) : Outcome (gset string) unit :=
  let ancestors := map (λ segs, "/" ++ Path.join_segments segs)
                       (inits (Path.resolveSegments cwd p)) in
  if existsb (λ a, bool_decide (a ∈ d) && regular a) ancestors
  then Throw ("ENOTDIR: not a directory, mkdir '" ++ p ++ "'") d
  else Ok tt (list_to_set ancestors ∪ d).

(** The path of [q] (below [src]) once moved below [dst]. *)
Definition rebase (src dst q : string) : string :=
  "/" ++ Path.join_segments
           (Path.resolveSegments cwd dst
            ++ drop (length (Path.resolveSegments cwd src)) (Path.resolveSegments cwd q)).

(** [fse.copy(src, dst)]: every path below [src] appears below [dst] and
    nothing is removed; the copy is refused when source and destination
    are the same or the destination lies inside the source. *)
Definition copy (src dst : string) (d : gset string) : Outcome (gset string) unit :=
  if String.eqb (Path.resolve cwd src) (Path.resolve cwd dst)
  then Throw "Source and destination must not be the same." d
  else if Fs.below cwd src dst
  then Throw ("Cannot copy '" ++ src ++ "' to a subdirectory of itself, '" ++ dst ++ "'.") d
  else Ok tt (d ∪ {[ Path.resolve cwd dst ]}
              ∪ set_map (rebase src dst) (filter (λ q, Fs.below cwd src q = true) d)).

(** "guides/intro.md" becomes "guides/intro.html". *)
Definition toOutput (rel : string) : string :=
  if ends_with ".md" rel
  then String.substring 0 (String.length rel - 3) rel ++ ".html"
  else rel.

(** "/guides/intro.html" is the page of "<docsDir>/guides/intro.md", when
    that file exists. *)
Definition toSource (url docsDir : string) (d : gset string) : option string :=
  if ends_with ".html" url then
    let src := docsDir ++ String.substring 0 (String.length url - 5) url ++ ".md" in
    if Fs.existsSync cwd src d then Some src else None
  else None.

(** The markdown files below [dir], in the order of their names. *)
Definition gather (dir : string) (d : gset string)
  : Outcome (gset string) (list string) :=
  Ok (merge_sort (λ a b, String.leb a b)
        (filter (λ q, Fs.below cwd dir q && ends_with ".md" q) (elements d))) d.

Definition header (sourceFilePath docsDir : string) (d : gset string)
  : Outcome (gset string) unit := Ok tt d.

(** The render writes the output file; for the files listed in [broken]
    it then rejects, the error being what was written. *)
Definition render (broken : list string) (req : RenderRequest) (d : gset string)
  : Outcome (gset string) RenderResult :=
  let rel := Path.relative cwd (req_inputDir req) (req_filePath req) in
  let d' := {[ Path.resolve cwd (Path.join (req_outputDir req) (toOutput rel)) ]} ∪ d in
  if bool_decide (req_filePath req ∈ broken)
  then Throw ("File " ++ rel ++ " could not be rendered") d'
  else Ok {| sourceRelativeFilePath := rel |} d'.

(** Every default plugin contributes one plugin instance. *)
Definition apply (o : EngineOptions Plugin) (defaults : list Plugin)
  : EngineOptions Plugin :=
  {| defaultPlugins := defaultPlugins o;
     plugins := Some defaults;
     renderMode := renderMode o |}.

(** Any collaborators, with the page tree of the specification. *)
Definition with_page_tree (cwd : string)
    (mkdir : string → gset string → Outcome (gset string) unit)
    (copy : string → string → gset string → Outcome (gset string) unit)
    (toOutput : string → string)
    (toSource : string → string → gset string → option string)
    (gather : string → gset string → Outcome (gset string) (list string))
    (header : string → string → gset string → Outcome (gset string) unit)
    (render : RenderRequest → gset string → Outcome (gset string) RenderResult)
    (MetaPlugin : Type)
    (apply : EngineOptions MetaPlugin → list MetaPlugin → EngineOptions MetaPlugin)
  : Collaborators :=
  {| TreeModel := Tree;
     MetaPlugin := MetaPlugin;
     process_cwd := cwd;
     fsPromises_mkdir := mkdir;
     fsExtra_copy := copy;
     sourceRelativeFilePathToOutputRelativeFilePath := toOutput;
     urlToSourceFilePath := toSource;
     gatherFiles := gather;
     updateRocketHeader := header;
     renderViaWorker := render;
     applyPlugins := apply;
     PageTree_new := new;
     PageTree_add := add;
     PageTree_save := save cwd |}.

Definition collaborators (broken : list string) : Collaborators :=
  with_page_tree cwd mkdir copy toOutput toSource gather header (render broken) Plugin apply.

(** Two pages [a] and [b]; [b] is open in one tab, [a] in none. *)
Definition two_pages : Watcher :=
  {| pages := [("/docs/a.md", {| webSockets := Some [] |});
               ("/docs/b.md", {| webSockets := Some [7] |})] |}.

Definition an_engine (C : Collaborators) (ps : list (@MetaPlugin C)) (wa : option Watcher)
  : @Engine C :=
  {| options := {| defaultPlugins := Some ps; plugins := None; renderMode := None |};
     docsDir := "/docs";
     outputDir := "/site";
     watchDir := "/work";
     watcher := wa;
     devServer := false |}.

(** A dev session over [files], nothing rendered so far. *)
Definition a_world (broken : list string) (files : list string) (wa : option Watcher)
  : @World (collaborators broken) :=
  {| engine := an_engine (collaborators broken) [] wa;
     disk := list_to_set ("/site" :: "/docs" :: files);
     pageTree := new "/docs" "/site";
     trace := [] |}.

Definition docs : list string := ["/docs/a.md"; "/docs/b.md"].

(** The dev session over [docs], tracked by the watcher. *)
Definition dev_world : @World (collaborators []) :=
  a_world [] docs (Some two_pages).

(** The same session where "/docs/b.md" cannot be rendered. *)
Definition broken_world : @World (collaborators ["/docs/b.md"]) :=
  a_world ["/docs/b.md"] docs (Some two_pages).

(** A project to build, one without any source file, and one whose
    first file cannot be rendered. *)
Definition build_world : @World (collaborators []) := a_world [] docs None.



(** A project with one plugin, whose class declares no public folder. *)
Definition plugin_world : @World (collaborators []) :=
  {| engine := an_engine (collaborators [])
                 [{| constructor_name := "Search"; publicFolder := None |}] None;
     disk := list_to_set ["/site"; "/docs"];
     pageTree := new "/docs" "/site";
     trace := [] |}.

Definition broken_build_world : @World (collaborators ["/docs/a.md"]) :=
  a_world ["/docs/a.md"] docs None.

(** The dev session once both pages are rendered and in the tree. *)
Definition rendered_world : @World (collaborators []) :=
  {| engine := an_engine (collaborators []) [] (Some two_pages);
     disk := list_to_set ("/site/a.html" :: "/site/b.html" :: "/site" :: "/docs" :: docs);
     pageTree := {| needsAnotherRenderingPass := false;
                    pageTreeChangedOnSave := false;
                    treeModel := {| inputDir := "/docs";
                                    nodes := ["a.md"; "b.md"];
                                    persisted := ["a.md"; "b.md"] |} |};
     trace := [] |}.


End Sample.

(** ** The constructor and [setOptions] *)

Module Setup.

Definition resolve (cwd p : string) : string := Path.resolve cwd p.

(** [path.join(a, b, c)]: the non-empty arguments joined with '/', then
    normalised. *)
Definition join3 (a b c : string) : string :=
  match filter (λ s, s ≠ "") [a; b; c] with
  | [] => "."
  | parts => Path.normalize (Path.join_segments parts)
  end.

(** [Partial<EngineOptions>]: every key may be missing.  [MP] are the
    entries of [defaultPlugins], [SP] those of [setupPlugins]. *)
Record Options (MP SP : Type) := {
  defaultPlugins : option (list MP);
  setupPlugins : option (list SP);
  renderMode : option string;
  open : option bool;
  docsDir : option string;
  outputDir : option string;
  watchDir : option string;
}.
Arguments defaultPlugins {MP SP} _.
Arguments setupPlugins {MP SP} _.
Arguments renderMode {MP SP} _.
Arguments open {MP SP} _.
Arguments docsDir {MP SP} _.
Arguments outputDir {MP SP} _.
Arguments watchDir {MP SP} _.

(** One key of [{ ...a, ...b }]: the value of [b] when [b] has the key. *)
Definition pick {A} (a b : option A) : option A :=
  match b with
  | Some x => Some x
  | None => a
  end.

(** [{ ...a, ...b }] *)
Definition spread {MP SP} (a b : Options MP SP) : Options MP SP :=
  {| defaultPlugins := pick (defaultPlugins a) (defaultPlugins b);
     setupPlugins := pick (setupPlugins a) (setupPlugins b);
     renderMode := pick (renderMode a) (renderMode b);
     open := pick (open a) (open b);
     docsDir := pick (docsDir a) (docsDir b);
     outputDir := pick (outputDir a) (outputDir b);
     watchDir := pick (watchDir a) (watchDir b) |}.

(** [{}] *)
Definition no_options {MP SP} : Options MP SP :=
  {| defaultPlugins := None; setupPlugins := None; renderMode := None; open := None;
     docsDir := None; outputDir := None; watchDir := None |}.

(** The fields [setOptions] writes. *)
Record Fields (MP SP : Type) := {
  this_options : Options MP SP;
  this_docsDir : string;
  this_outputDir : string;
  this_watchDir : string;
}.
Arguments this_options {MP SP} _.
Arguments this_docsDir {MP SP} _.
Arguments this_outputDir {MP SP} _.
Arguments this_watchDir {MP SP} _.

(** The field initialisers of the class. *)
Definition initial {MP SP} (cwd : string) : Fields MP SP :=
  {| this_options := {| defaultPlugins := Some []; setupPlugins := Some [];
                        renderMode := Some "development"; open := Some false;
                        docsDir := None; outputDir := None; watchDir := None |};
     this_docsDir := Path.join cwd "docs";
     this_outputDir := Path.join cwd "_site-dev";
     this_watchDir := cwd |}.

(** The three directories, computed from the merged options. *)
Definition directories {MP SP} (cwd : string) (options : Options MP SP)
  : string * string * string :=
  let docs :=
    if truthy (docsDir options) then resolve cwd (template (docsDir options))
    else Path.join cwd "docs" in
  let output :=
    if truthy (outputDir options) then resolve cwd (template (outputDir options))
    else join3 docs ".." "_site-dev" in
  let watch :=
    if truthy (watchDir options) then resolve cwd (template (watchDir options))
    else cwd in
  (docs, output, watch).

(** [setOptions(newOptions)]; [None] is a falsy argument. *)
Definition setOptions {MP SP} (cwd : string) (this : Fields MP SP)
    (newOptions : option (Options MP SP)) : Fields MP SP :=
  match newOptions with
  | None => this
  | Some newOptions =>
      let setupPlugins' :=
        (default [] (setupPlugins newOptions)
         ++ default [] (setupPlugins (this_options this)))%list in
      let merged := spread (this_options this) newOptions in
      let options :=
        {| defaultPlugins := defaultPlugins merged;
           setupPlugins := Some setupPlugins';
           renderMode := renderMode merged;
           open := open merged;
           docsDir := docsDir merged;
           outputDir := outputDir merged;
           watchDir := watchDir merged |} in
      let '(docs, output, watch) := directories cwd options in
      {| this_options := options;
         this_docsDir := docs;
         this_outputDir := output;
         this_watchDir := watch |}
  end.

(** [constructor(options = {})] *)
Definition constructor {MP SP} (cwd : string) (options : Options MP SP) : Fields MP SP :=
  setOptions cwd (initial cwd) (Some (spread (this_options (initial cwd)) options)).

End Setup.

(** ** Collaborators that fail

    The header update throws for the files listed; the render throws when
    the output file is there already, so that the first render of a page
    succeeds and the next one fails. *)

Module Faulty.

Definition header (bad : list string) (sourceFilePath docsDir : string) (d : gset string)
  : Outcome (gset string) unit :=
  if bool_decide (sourceFilePath ∈ bad) then Throw "header could not be updated" d
  else Ok tt d.

Definition render_once (req : RenderRequest) (d : gset string)
  : Outcome (gset string) RenderResult :=
  let rel := Path.relative Sample.cwd (req_inputDir req) (req_filePath req) in
  let out := Path.join (req_outputDir req) (Sample.toOutput rel) in
  if Fs.existsSync Sample.cwd out d
  then Throw ("File " ++ rel ++ " could not be rendered") d
  else Ok {| sourceRelativeFilePath := rel |} ({[ Path.resolve Sample.cwd out ]} ∪ d).

Definition collaborators (bad : list string) : Collaborators :=
  Sample.with_page_tree Sample.cwd Sample.mkdir Sample.copy Sample.toOutput Sample.toSource
    Sample.gather (header bad) render_once Plugin Sample.apply.

(** A dev session over [Sample.docs], nothing rendered so far. *)
Definition dev_world (bad : list string) : @World (collaborators bad) :=
  {| engine := Sample.an_engine (collaborators bad) [] (Some Sample.two_pages);
     disk := list_to_set ("/site" :: "/docs" :: Sample.docs);
     pageTree := Sample.new "/docs" "/site";
     trace := [] |}.

(** The same session with the output of "/docs/a.md" on the disk. *)
Definition stale_world (bad : list string) : @World (collaborators bad) :=
  {| engine := Sample.an_engine (collaborators bad) [] (Some Sample.two_pages);
     disk := list_to_set ("/site/a.html" :: "/site" :: "/docs" :: Sample.docs);
     pageTree := Sample.new "/docs" "/site";
     trace := [] |}.

(** A project to build. *)
Definition build_world (bad : list string) : @World (collaborators bad) :=
  {| engine := Sample.an_engine (collaborators bad) [] None;
     disk := list_to_set ("/site" :: "/docs" :: Sample.docs);
     pageTree := Sample.new "/docs" "/site";
     trace := [] |}.

End Faulty.

(** A segment of a resolved path: a name, neither empty nor "." nor "..". *)
Definition tidy (seg : string) : Prop :=
  seg ≠ "" ∧ seg ≠ "." ∧ seg ≠ ".." ∧ has_slash seg = false.

(** A call of [fse.copy]. *)
Definition is_copy (ev : Event) : bool :=
  match ev with EvCopy _ _ => true | _ => false end.

(** A call of [rm]. *)
Definition is_rm (ev : Event) : bool :=
  match ev with EvRm _ _ => true | _ => false end.

(** Closes a goal that equates two spellings of one state. *)
Ltac same_state :=
  repeat f_equal; unfold reached;
  cbn [engine disk pageTree trace set_disk set_trace set_pageTree first_pass_events];
  rewrite <- ?app_assoc; reflexivity.

(** Closes a goal that counts calls in an explicit list of events. *)
Ltac count_events :=
  unfold renders_of, saves_of; cbn [count_occ app];
  repeat match goal with
         | |- context [Event_eq_dec ?a ?b] => destruct (Event_eq_dec a b)
         end;
  try case_bool_decide; simpl; first [congruence | lia].

(** * Properties *)

(** ** Asset URLs *)

Section AssetUrls.

Local Arguments String.append !_ _ / : simpl nomatch.

Lemma split_no_slash (s : string) :
  Forall (λ seg, has_slash seg = false) (Path.split s).
Proof.
  induction s as [|c rest IH]; simpl.
  - by constructor.
  - destruct (Path.is_slash c) eqn:Hc.
    + by constructor.
    + destruct (Path.split rest) as [|seg segs].
      * constructor; [simpl; by rewrite Hc | constructor].
      * inversion IH; subst. constructor; [|done].
        simpl. by rewrite Hc.
Qed.

Lemma normalize_step_plain (res : list string) (seg : string) :
  Forall plain res → has_slash seg = false →
  Forall plain (Path.normalize_step false res seg).
Proof.
  intros Hres Hseg. unfold Path.normalize_step.
  destruct (String.eqb seg "" || String.eqb seg "."); [done|].
  destruct (String.eqb seg "..") eqn:Hdd.
  - destruct res as [|l before]; [done|].
    destruct (String.eqb l ".."); [done|]. by inversion Hres.
  - constructor; [|done]. split; [|done].
    intros ->. by rewrite String.eqb_refl in Hdd.
Qed.

Lemma foldl_normalize_plain (segs res : list string) :
  Forall plain res → Forall (λ seg, has_slash seg = false) segs →
  Forall plain (foldl (Path.normalize_step false) res segs).
Proof.
  revert res. induction segs as [|seg segs IH]; intros res Hres Hsegs; simpl.
  - done.
  - inversion Hsegs; subst. apply IH; [|done].
    by apply normalize_step_plain.
Qed.

Lemma resolveSegments_plain (cwd p : string) :
  Forall plain (Path.resolveSegments cwd p).
Proof.
  unfold Path.resolveSegments, Path.normalizeSegments.
  destruct (Path.isAbsolute p); apply Forall_reverse, foldl_normalize_plain;
    auto using split_no_slash.
Qed.

Lemma strip_common_plain (from to up down : list string) :
  Forall plain to → Path.strip_common from to = (up, down) → Forall plain down.
Proof.
  revert to. induction from as [|f from IH]; intros to Hto Heq; simpl in Heq.
  - by inversion Heq; subst.
  - destruct to as [|t to]; [by inversion Heq; subst|].
    destruct (String.eqb f t).
    + inversion Hto; subst. by eapply IH.
    + by inversion Heq; subst.
Qed.

Lemma strip_common_same (segs : list string) :
  Path.strip_common segs segs = ([], []).
Proof.
  induction segs as [|x segs IH]; simpl; [done|].
  by rewrite String.eqb_refl.
Qed.

(** Some ".." segments followed by a non-empty path print as that many
    "../" followed by the path. *)
Lemma join_parents (n : nat) (down : list string) :
  down ≠ [] →
  Path.join_segments (replicate n ".." ++ down) = parents n ++ Path.join_segments down.
Proof.
  intros Hdown. induction n as [|n IH]; simpl; [done|].
  rewrite <- IH.
  destruct (replicate n ".." ++ down)%list eqn:Heq; [|done].
  apply app_eq_nil in Heq as [_ ?]. done.
Qed.

Lemma prefix_empty (s : string) : String.prefix "" s = true.
Proof. by destruct s. Qed.

Lemma prefix_parent_inv (s : string) :
  String.prefix "../" s = true ↔ ∃ rest, s = String "." (String "." (String "/" rest)).
Proof.
  split.
  - intros Hp. destruct s as [|c1 [|c2 [|c3 rest]]]; cbn [String.prefix] in Hp;
      repeat match type of Hp with
             | context [Ascii.ascii_dec ?a ?b] => destruct (Ascii.ascii_dec a b); subst
             end; try discriminate.
    by eexists.
  - intros [rest ->]. cbn [String.prefix].
    repeat (destruct (Ascii.ascii_dec _ _); [|done]). apply prefix_empty.
Qed.

(** A path of plain segments does not begin with "../". *)
Lemma join_plain_no_parent (down : list string) :
  Forall plain down → String.prefix "../" (Path.join_segments down) = false.
Proof.
  intros Hdown. destruct down as [|seg rest]; [done|].
  inversion Hdown as [|? ? [Hdd Hslash] _]; subst.
  destruct (String.prefix "../" (Path.join_segments (seg :: rest))) eqn:Hp; [|done].
  exfalso. apply prefix_parent_inv in Hp as [tail Htail].
  assert (∃ more, Path.join_segments (seg :: rest) = seg ++ more
                  ∧ (more = "" ∨ ∃ more', more = String "/" more')) as (more & Hj & Hmore).
  { destruct rest as [|seg' rest].
    - exists "". split; [|by left]. simpl. clear. induction seg; simpl; [done|]. by f_equal.
    - eexists. split; [reflexivity|]. right. by eexists. }
  rewrite Hj in Htail. clear Hj Hdown.
  destruct seg as [|c1 [|c2 [|c3 seg]]]; simpl in *.
  - destruct Hmore as [->|[? ->]]; discriminate.
  - destruct Hmore as [->|[? ->]]; [discriminate|]. by inversion Htail.
  - by inversion Htail; subst.
  - inversion Htail; subst. discriminate.
Qed.

Lemma strip_parent_prefixes_stop (count : nat) (s : string) :
  String.prefix "../" s = false → strip_parent_prefixes count s = (count, s).
Proof.
  intros Hp.
  destruct s as [|c1 [|c2 [|c3 rest]]]; try reflexivity.
  - by destruct c1 as [[] [] [] [] [] [] [] []].
  - destruct c1 as [[] [] [] [] [] [] [] []]; try reflexivity.
    by destruct c2 as [[] [] [] [] [] [] [] []].
  - destruct c1 as [[] [] [] [] [] [] [] []]; try reflexivity.
    destruct c2 as [[] [] [] [] [] [] [] []]; try reflexivity.
    destruct c3 as [[] [] [] [] [] [] [] []]; try reflexivity.
    assert (String.prefix "../" (String "." (String "." (String "/" rest))) = true) as Ht
      by (apply prefix_parent_inv; by eexists).
    congruence.
Qed.

(** The counting loop: [n] leading "../" are removed and counted. *)
Lemma strip_parent_prefixes_parents (n count : nat) (rest : string) :
  String.prefix "../" rest = false →
  strip_parent_prefixes count (parents n ++ rest) = (count + n, rest).
Proof.
  intros Hrest. revert count. induction n as [|n IH]; intros count.
  - rewrite Nat.add_0_r. by apply strip_parent_prefixes_stop.
  - change (parents (S n) ++ rest) with (String "." (String "." (String "/" (parents n ++ rest)))).
    change (strip_parent_prefixes (S count) (parents n ++ rest) = (count + S n, rest)).
    rewrite IH. f_equal. lia.
Qed.

Lemma adjustAssetUrl_located (cwd outputDir url outputFilePath : string)
    (up down : list string) :
  is_relative_url url = true →
  asset_location cwd outputDir url outputFilePath = (up, down) →
  down ≠ [] →
  adjustAssetUrl cwd outputDir url outputFilePath
  = outside_root_prefix ++ number_to_string (length up) ++ "/" ++ Path.join_segments down.
Proof.
  intros Hrel Hloc Hdown. unfold adjustAssetUrl, asset_location in *.
  rewrite Hrel. cbv zeta. unfold Path.relative.
  destruct (String.eqb outputDir _) eqn:Heq.
  - apply String.eqb_eq in Heq. rewrite <- Heq in Hloc.
    rewrite strip_common_same in Hloc. inversion Hloc; subst. done.
  - rewrite Hloc. rewrite join_parents by done.
    rewrite (strip_parent_prefixes_parents _ 0); [done|].
    apply join_plain_no_parent.
    eapply strip_common_plain; [|exact Hloc]. apply resolveSegments_plain.
Qed.

(** C7 (as amended): a URL that is not relative is returned unchanged.
    A relative URL whose asset is neither the output root itself nor a
    directory above it is rewritten into the "/__wds-outside-root__/"
    namespace, whether the asset lies outside the output root or inside
    it.  The number in the rewritten URL is the number of directories of
    the output root that have to be left to reach the asset (0 for an
    asset inside the root), and the path after it leads from there down to
    the asset. *)
Theorem adjustAssetUrl_rewrites (cwd outputDir url outputFilePath : string)
    (up down : list string) :
  (is_relative_url url = false →
   adjustAssetUrl cwd outputDir url outputFilePath = url)
  ∧ (is_relative_url url = true →
     asset_location cwd outputDir url outputFilePath = (up, down) →
     down ≠ [] →
     adjustAssetUrl cwd outputDir url outputFilePath
     = outside_root_prefix ++ number_to_string (length up) ++ "/"
       ++ Path.join_segments down).
Proof.
  split.
  - intros Hrel. unfold adjustAssetUrl. by rewrite Hrel.
  - apply adjustAssetUrl_located.
Qed.

Lemma adjustAssetUrl_rewrites_witness :
  adjustAssetUrl "/work" "/site" "../../x.png" "/site/guides/index.html"
  = "/__wds-outside-root__/1/x.png".
Proof.
  exact (proj2 (adjustAssetUrl_rewrites "/work" "/site" "../../x.png"
                  "/site/guides/index.html" ["site"] ["x.png"])
               eq_refl eq_refl ltac:(discriminate)).
Defined.

(** C7 (as stated) fails: "./a.png" next to "/site/index.html" resolves
    to "/site/a.png", inside the output root "/site", and is rewritten
    all the same. *)
Lemma adjustAssetUrl_inside_root_is_rewritten :
  (asset_location "/work" "/site" "./a.png" "/site/index.html").1 = []
  ∧ adjustAssetUrl "/work" "/site" "./a.png" "/site/index.html"
    = "/__wds-outside-root__/0/a.png"
  ∧ adjustAssetUrl "/work" "/site" "./a.png" "/site/index.html" ≠ "./a.png".
Proof. split; [reflexivity|]. split; [reflexivity|discriminate]. Qed.

End AssetUrls.

(** ** The engine *)

Section EngineProperties.
Context `{Collaborators}.
Local Open Scope list_scope.
Local Open Scope nat_scope.

Implicit Types (w : World) (e : Engine) (evs : list Event).

(** *** Running the outgoing calls *)

Lemma renderFile_run (filePath : string) w :
  renderFile filePath w
  = match renderViaWorker (render_request (engine w) filePath) (disk w) with
    | Ok r d =>
        Ok r (set_disk d (set_trace (trace w ++ [EvRenderViaWorker filePath]) w))
    | Throw err d =>
        Throw err (set_disk d (set_trace (trace w ++ [EvRenderViaWorker filePath]) w))
    end.
Proof. reflexivity. Qed.

Lemma deleteOutputOf_run (sourceFilePath : string) w :
  deleteOutputOf sourceFilePath w
  = Ok tt (set_disk (Fs.rm_force process_cwd (getOutputFilePath (engine w) sourceFilePath)
                       (disk w))
             (set_trace (trace w ++ [EvRm (getOutputFilePath (engine w) sourceFilePath) false])
                w)).
Proof. reflexivity. Qed.

Lemma mkdir_run (p : string) w :
  mkdir p w
  = match fsPromises_mkdir p (disk w) with
    | Ok a d => Ok a (set_disk d (set_trace (trace w ++ [EvMkdir p]) w))
    | Throw err d => Throw err (set_disk d (set_trace (trace w ++ [EvMkdir p]) w))
    end.
Proof. reflexivity. Qed.

Lemma fse_copy_run (src dst : string) w :
  fse_copy src dst w
  = match fsExtra_copy src dst (disk w) with
    | Ok a d => Ok a (set_disk d (set_trace (trace w ++ [EvCopy src dst]) w))
    | Throw err d => Throw err (set_disk d (set_trace (trace w ++ [EvCopy src dst]) w))
    end.
Proof. reflexivity. Qed.

Lemma call_updateRocketHeader_run (sourceFilePath dir : string) w :
  call_updateRocketHeader sourceFilePath dir w
  = match updateRocketHeader sourceFilePath dir (disk w) with
    | Ok a d =>
        Ok a (set_disk d (set_trace (trace w ++ [EvUpdateRocketHeader sourceFilePath]) w))
    | Throw err d =>
        Throw err (set_disk d (set_trace (trace w ++ [EvUpdateRocketHeader sourceFilePath]) w))
    end.
Proof. reflexivity. Qed.

Lemma pageTree_add_run (rel : string) w :
  pageTree_add rel w
  = match PageTree_add rel (pageTree w, disk w) with
    | Ok a (t, d) =>
        Ok a (set_pageTree t (set_disk d (set_trace (trace w ++ [EvPageTreeAdd rel]) w)))
    | Throw err (t, d) =>
        Throw err (set_pageTree t (set_disk d (set_trace (trace w ++ [EvPageTreeAdd rel]) w)))
    end.
Proof. reflexivity. Qed.

Lemma pageTree_save_run w :
  pageTree_save w
  = match PageTree_save (pageTree w, disk w) with
    | Ok a (t, d) =>
        Ok a (set_pageTree t (set_disk d (set_trace (trace w ++ [EvPageTreeSave]) w)))
    | Throw err (t, d) =>
        Throw err (set_pageTree t (set_disk d (set_trace (trace w ++ [EvPageTreeSave]) w)))
    end.
Proof. reflexivity. Qed.

Lemma bind_ok {A B} (m : M A) (k : A → M B) w (a : A) w1 :
  m w = Ok a w1 → bind m k w = k a w1.
Proof. intros Hm. unfold bind. by rewrite Hm. Qed.

Lemma bind_throw {A B} (m : M A) (k : A → M B) w (err : Error) w1 :
  m w = Throw err w1 → bind m k w = Throw err w1.
Proof. intros Hm. unfold bind. by rewrite Hm. Qed.


(** After [rm(p, { force: true })] the path does not exist, however it
    is written; every other entry of the disk is as before. *)
Lemma rm_force_gone (cwd p : string) (d : gset string) :
  Fs.existsSync cwd p (Fs.rm_force cwd p d) = false.
Proof.
  unfold Fs.existsSync, Fs.rm_force. apply bool_decide_eq_false.
  rewrite elem_of_difference, elem_of_singleton. tauto.
Qed.



(** Removing a path that does not exist changes nothing. *)
Lemma rm_force_missing (cwd p : string) (d : gset string) :
  Fs.existsSync cwd p d = false → Fs.rm_force cwd p d = d.
Proof.
  unfold Fs.existsSync, Fs.rm_force. rewrite bool_decide_eq_false. intros Hnot.
  apply leibniz_equiv. intros q. rewrite elem_of_difference, elem_of_singleton.
  split; [tauto|]. intros Hq. split; [done|]. by intros ->.
Qed.

Lemma rm_force_twice (cwd p : string) (d : gset string) :
  Fs.rm_force cwd p (Fs.rm_force cwd p d) = Fs.rm_force cwd p d.
Proof. apply rm_force_missing, rm_force_gone. Qed.

Lemma events_of_append {A} (m : M A) w evs :
  trace (state_of (m w)) = trace w ++ evs → events_of m w = evs.
Proof. intros Ht. unfold events_of. rewrite Ht. by rewrite drop_app_length. Qed.

(** *** The sweep over the tracked pages *)

(** One entry of the sweep always completes, whatever the render does; it
    changes neither the engine nor the page tree, and issues exactly the
    calls of [entry_events]. *)
Lemma renderAllOpenedFiles_entry_run (deleteOtherFiles : bool) (trigger : string)
    (entry : string * Page) w :
  ∃ w', renderAllOpenedFiles_entry deleteOtherFiles trigger entry w = Ok tt w'
        ∧ engine w' = engine w
        ∧ pageTree w' = pageTree w
        ∧ trace w' = trace w ++ entry_events (engine w) deleteOtherFiles trigger entry.
Proof.
  destruct entry as [sourceFilePath page].
  unfold renderAllOpenedFiles_entry, entry_events. simpl.
  destruct (is_trigger trigger sourceFilePath).
  { eexists. split; [reflexivity|]. by rewrite app_nil_r. }
  destruct (isOpenedInBrowser page).
  - unfold bind, get, logRendering, emit, try_catch. rewrite renderFile_run. simpl.
    destruct (renderViaWorker _ _) as [r d|err d]; simpl;
      (eexists; split; [reflexivity|]); simpl; by rewrite <- app_assoc.
  - destruct deleteOtherFiles.
    + rewrite deleteOutputOf_run. eexists. split; [reflexivity|]. done.
    + eexists. split; [reflexivity|]. by rewrite app_nil_r.
Qed.

Lemma for_of_sweep_run (deleteOtherFiles : bool) (trigger : string)
    (entries : list (string * Page)) w :
  ∃ w', for_of entries (renderAllOpenedFiles_entry deleteOtherFiles trigger) w = Ok tt w'
        ∧ engine w' = engine w
        ∧ pageTree w' = pageTree w
        ∧ trace w' = trace w ++ sweep_events (engine w) deleteOtherFiles trigger entries.
Proof.
  revert w. induction entries as [|entry entries IH]; intros w; simpl.
  - eexists. split; [reflexivity|]. by rewrite app_nil_r.
  - destruct (renderAllOpenedFiles_entry_run deleteOtherFiles trigger entry w)
      as (w1 & Hrun & He & Ht & Htr).
    destruct (IH w1) as (w2 & Hrun2 & He2 & Ht2 & Htr2).
    exists w2. split; [by rewrite (bind_ok _ _ _ _ _ Hrun)|].
    split; [congruence|]. split; [congruence|].
    rewrite Htr2, Htr, He. by rewrite <- app_assoc.
Qed.

(** [renderAllOpenedFiles] always completes, and its calls are those of
    the sweep over the tracked pages. *)
Lemma renderAllOpenedFiles_run (deleteOtherFiles : bool) (trigger : string) w :
  ∃ w', renderAllOpenedFiles deleteOtherFiles trigger w = Ok tt w'
        ∧ engine w' = engine w
        ∧ pageTree w' = pageTree w
        ∧ trace w' = trace w
                     ++ sweep_events (engine w) deleteOtherFiles trigger
                          (tracked_pages (engine w)).
Proof.
  unfold renderAllOpenedFiles, tracked_pages, bind, get.
  destruct (watcher (engine w)) as [wa|].
  - apply for_of_sweep_run.
  - eexists. split; [reflexivity|]. simpl. by rewrite app_nil_r.
Qed.

(** *** Counting the renders of a sweep *)

Lemma is_trigger_same (sourceFilePath : string) :
  sourceFilePath ≠ "" → is_trigger sourceFilePath sourceFilePath = true.
Proof.
  intros Hne. unfold is_trigger. rewrite String.eqb_refl.
  destruct (String.eqb sourceFilePath "") eqn:Heq; [|done].
  by apply String.eqb_eq in Heq.
Qed.

Lemma is_trigger_other (trigger sourceFilePath : string) :
  sourceFilePath ≠ trigger → is_trigger trigger sourceFilePath = false.
Proof.
  intros Hne. unfold is_trigger.
  destruct (String.eqb trigger sourceFilePath) eqn:Heq.
  - apply String.eqb_eq in Heq. congruence.
  - by rewrite andb_false_r.
Qed.

Lemma renders_of_app (f : string) evs1 evs2 :
  renders_of f (evs1 ++ evs2) = renders_of f evs1 + renders_of f evs2.
Proof. apply count_occ_app. Qed.

Lemma renders_of_entry e (deleteOtherFiles : bool) (trigger f : string)
    (entry : string * Page) :
  renders_of f (entry_events e deleteOtherFiles trigger entry)
  = if bool_decide (entry.1 = f) && negb (is_trigger trigger entry.1)
       && isOpenedInBrowser entry.2
    then 1 else 0.
Proof.
  unfold entry_events, renders_of.
  destruct (is_trigger trigger entry.1); simpl; [by rewrite andb_false_r|].
  destruct (isOpenedInBrowser entry.2), deleteOtherFiles; cbn [count_occ];
    rewrite ?andb_false_r, ?andb_true_r;
    repeat match goal with
           | |- context [Event_eq_dec ?a ?b] => destruct (Event_eq_dec a b)
           end;
    try case_bool_decide; simpl; congruence.
Qed.

Lemma renders_of_sweep_cons e (deleteOtherFiles : bool) (trigger f : string)
    (entry : string * Page) (entries : list (string * Page)) :
  renders_of f (sweep_events e deleteOtherFiles trigger (entry :: entries))
  = renders_of f (entry_events e deleteOtherFiles trigger entry)
    + renders_of f (sweep_events e deleteOtherFiles trigger entries).
Proof. unfold sweep_events. simpl. apply renders_of_app. Qed.

(** A page that is not tracked is not rendered by the sweep. *)
Lemma sweep_untracked e (deleteOtherFiles : bool) (trigger f : string)
    (entries : list (string * Page)) :
  f ∉ entries.*1 → renders_of f (sweep_events e deleteOtherFiles trigger entries) = 0.
Proof.
  induction entries as [|entry entries IH]; intros Hnot; [done|].
  rewrite renders_of_sweep_cons, renders_of_entry.
  rewrite fmap_cons, not_elem_of_cons in Hnot. destruct Hnot as [Hne Hnot].
  rewrite IH by done. case_bool_decide; [congruence|done].
Qed.

(** The sweep never renders the page that triggered it. *)
Lemma sweep_skips_trigger e (deleteOtherFiles : bool) (trigger : string)
    (entries : list (string * Page)) :
  trigger ≠ "" → renders_of trigger (sweep_events e deleteOtherFiles trigger entries) = 0.
Proof.
  intros Hne. induction entries as [|entry entries IH]; [done|].
  rewrite renders_of_sweep_cons, renders_of_entry, IH.
  case_bool_decide as Heq; [|done]. rewrite Heq, is_trigger_same by done. done.
Qed.

(** Every other open page is rendered exactly once by the sweep. *)
Lemma sweep_renders_open_once e (deleteOtherFiles : bool) (trigger f : string)
    (page : Page) (entries : list (string * Page)) :
  NoDup entries.*1 → (f, page) ∈ entries →
  is_trigger trigger f = false → isOpenedInBrowser page = true →
  renders_of f (sweep_events e deleteOtherFiles trigger entries) = 1.
Proof.
  intros Hnodup Hin Htrig Hopen.
  induction entries as [|entry entries IH]; [by apply elem_of_nil in Hin|].
  rewrite fmap_cons, NoDup_cons in Hnodup. destruct Hnodup as [Hfresh Hnodup].
  rewrite renders_of_sweep_cons, renders_of_entry.
  apply elem_of_cons in Hin as [<-|Hin]; simpl.
  - rewrite bool_decide_true, Htrig, Hopen by done. simpl in *.
    by rewrite sweep_untracked.
  - rewrite IH by done.
    rewrite bool_decide_false; [done|].
    intros Heq. apply Hfresh. rewrite Heq.
    apply list_elem_of_fmap. by exists (f, page).
Qed.



(** *** The two passes over a requested or saved page *)

Lemma bind_run {A B} (m : M A) (k : A → M B) w :
  bind m k w = match m w with
               | Ok a w' => k a w'
               | Throw err w' => Throw err w'
               end.
Proof. reflexivity. Qed.

Lemma reached_reached w (d d' : gset string) (t t' : PageTree TreeModel) evs evs' :
  reached (reached w d t evs) d' t' evs' = reached w d' t' (evs ++ evs').
Proof. unfold reached. simpl. by rewrite <- app_assoc. Qed.

Lemma events_of_reached {A} (m : M A) w (d : gset string) (t : PageTree TreeModel) evs :
  state_of (m w) = reached w d t evs → events_of m w = evs.
Proof. intros Hs. apply events_of_append. by rewrite Hs. Qed.

(** The sweep and the reset that end the second pass. *)
Lemma sweep_and_reset_run (sourceFilePath : string) w :
  ∃ w', bind (renderAllOpenedFiles true sourceFilePath)
          (λ _, set_needsAnotherRenderingPass false) w = Ok tt w'
        ∧ engine w' = engine w
        ∧ needsAnotherRenderingPass (pageTree w') = false
        ∧ treeModel (pageTree w') = treeModel (pageTree w)
        ∧ trace w' = trace w
                     ++ sweep_events (engine w) true sourceFilePath
                          (tracked_pages (engine w)).
Proof.
  destruct (renderAllOpenedFiles_run true sourceFilePath w) as (w1 & Hrun & He & Ht & Htr).
  rewrite bind_run, Hrun. eexists. split; [reflexivity|]. simpl.
  by rewrite Ht.
Qed.

(** The statements inside [try], by what each call answers: a call that
    throws ends them there; the second pass is made when the save went
    through and the page tree asks for it. *)
Lemma render_and_register_run_cases (sourceFilePath rel : string) w :
  render_and_register sourceFilePath rel w
  = match renderViaWorker (render_request (engine w) sourceFilePath) (disk w) with
    | Throw err d2 => Throw err (reached w d2 (pageTree w) [EvRenderViaWorker sourceFilePath])
    | Ok _ d2 =>
        match PageTree_add rel (pageTree w, d2) with
        | Throw err (t3, d3) =>
            Throw err (reached w d3 t3 [EvRenderViaWorker sourceFilePath; EvPageTreeAdd rel])
        | Ok _ (t3, d3) =>
            match PageTree_save (t3, d3) with
            | Throw err (t4, d4) =>
                Throw err (reached w d4 t4 (first_pass_events sourceFilePath rel))
            | Ok _ (t4, d4) =>
                if needsAnotherRenderingPass t4 then
                  match renderViaWorker (render_request (engine w) sourceFilePath) d4 with
                  | Throw err d5 =>
                      Throw err
                        (reached w d5 t4
                           (first_pass_events sourceFilePath rel
                            ++ [EvLogRendering (again_message rel);
                                EvRenderViaWorker sourceFilePath]))
                  | Ok _ d5 =>
                      bind (renderAllOpenedFiles true sourceFilePath)
                        (λ _, set_needsAnotherRenderingPass false)
                        (reached w d5 t4
                           (first_pass_events sourceFilePath rel
                            ++ [EvLogRendering (again_message rel);
                                EvRenderViaWorker sourceFilePath]))
                  end
                else Ok tt (reached w d4 t4 (first_pass_events sourceFilePath rel))
            end
        end
    end.
Proof.
  unfold render_and_register.
  rewrite bind_run, renderFile_run.
  destruct (renderViaWorker _ (disk w)) as [r2 d2|err d2]; [|same_state].
  rewrite bind_run, pageTree_add_run.
  cbn [engine disk pageTree trace set_disk set_trace set_pageTree].
  destruct (PageTree_add rel (pageTree w, d2)) as [[] [t3 d3]|err [t3 d3]]; [|same_state].
  rewrite bind_run, pageTree_save_run.
  cbn [engine disk pageTree trace set_disk set_trace set_pageTree].
  destruct (PageTree_save (t3, d3)) as [[] [t4 d4]|err [t4 d4]]; [|same_state].
  rewrite bind_run. cbn [get].
  cbn [engine disk pageTree trace set_disk set_trace set_pageTree].
  destruct (needsAnotherRenderingPass t4); [|same_state].
  rewrite bind_run. cbn [logRendering emit].
  rewrite bind_run, renderFile_run.
  cbn [engine disk pageTree trace set_disk set_trace set_pageTree].
  destruct (renderViaWorker _ d4) as [r5 d5|err d5]; same_state.
Qed.

(** The [serve] hook on a request for a page without output file. *)
Lemma serve_run_missing (context : Context) w (sourceFilePath : string) :
  path context ≠ "/ws-register-tab.js" →
  urlToSourceFilePath (path context) (docsDir (engine w)) (disk w) = Some sourceFilePath →
  sourceFilePath ≠ "" →
  Fs.existsSync process_cwd (getOutputFilePath (engine w) sourceFilePath) (disk w) = false →
  serve context w
  = match updateRocketHeader sourceFilePath (docsDir (engine w)) (disk w) with
    | Throw err d1 =>
        Throw err (reached w d1 (pageTree w) [EvUpdateRocketHeader sourceFilePath])
    | Ok _ d1 =>
        Ok None
          (state_of
             (render_and_register sourceFilePath
                (Path.relative process_cwd (docsDir (engine w)) sourceFilePath)
                (reached w d1 (pageTree w)
                   [EvUpdateRocketHeader sourceFilePath;
                    EvLogRendering
                      (requested_message
                         (Path.relative process_cwd (docsDir (engine w)) sourceFilePath))])))
    end.
Proof.
  intros Hpath Hurl Hne Hmissing. unfold serve.
  apply String.eqb_neq in Hpath. rewrite Hpath.
  unfold getSourceFilePathFromUrl.
  erewrite bind_ok; [|by unfold bind, get, ret; simpl; rewrite Hurl].
  assert (truthy (Some sourceFilePath) = true) as ->.
  { simpl. apply String.eqb_neq in Hne. by rewrite Hne. }
  cbn [template].
  erewrite bind_ok; [|reflexivity].
  erewrite bind_ok; [|by unfold existsSync, bind, get, ret; rewrite Hmissing].
  cbn [negb].
  rewrite bind_run, call_updateRocketHeader_run.
  destruct (updateRocketHeader _ _ _) as [[] d1|err d1]; [|same_state].
  rewrite bind_run. cbn [logRendering emit].
  rewrite bind_run. unfold try_catch.
  match goal with
  | |- context [render_and_register _ _ ?w0] =>
      replace w0 with
        (reached w d1 (pageTree w)
           [EvUpdateRocketHeader sourceFilePath;
            EvLogRendering
              (requested_message
                 (Path.relative process_cwd (docsDir (engine w)) sourceFilePath))])
        by same_state
  end.
  by destruct (render_and_register _ _ _) as [[] w'|err w'].
Qed.

(** The handler of a saved page. *)
Lemma watch_run (sourceFilePath : string) w :
  onPageSavedOrOpenedTabAndServerDependencyChanged sourceFilePath w
  = match updateRocketHeader sourceFilePath (docsDir (engine w)) (disk w) with
    | Throw err d1 =>
        Throw err (reached w d1 (pageTree w) [EvUpdateRocketHeader sourceFilePath])
    | Ok _ d1 =>
        Ok tt
          (state_of
             (render_and_register sourceFilePath
                (Path.relative process_cwd (docsDir (engine w)) sourceFilePath)
                (reached w d1 (pageTree w) [EvUpdateRocketHeader sourceFilePath])))
    end.
Proof.
  unfold onPageSavedOrOpenedTabAndServerDependencyChanged.
  erewrite bind_ok; [|reflexivity].
  rewrite bind_run, call_updateRocketHeader_run.
  destruct (updateRocketHeader _ _ _) as [[] d1|err d1]; [|same_state].
  unfold try_catch.
  match goal with
  | |- context [render_and_register _ _ ?w0] =>
      replace w0 with (reached w d1 (pageTree w) [EvUpdateRocketHeader sourceFilePath])
        by same_state
  end.
  by destruct (render_and_register _ _ _) as [[] w'|err w'].
Qed.

(** A run that went from [w0], itself reached from [w], to a state
    reached from [w0]. *)
Lemma events_of_two_steps {A} (m : M A) w w0 (d0 d : gset string)
    (t0 t : PageTree TreeModel) evs0 evs :
  w0 = reached w d0 t0 evs0 →
  state_of (m w) = reached w0 d t evs →
  events_of m w = evs0 ++ evs.
Proof.
  intros -> Hs. rewrite reached_reached in Hs. by eapply events_of_reached.
Qed.

Lemma renders_of_again (f sourceFilePath rel : string) :
  renders_of f [EvLogRendering (again_message rel); EvRenderViaWorker sourceFilePath]
  = if bool_decide (sourceFilePath = f) then 1 else 0.
Proof. count_events. Qed.

Lemma renders_of_first_pass (f sourceFilePath rel : string) :
  renders_of f (first_pass_events sourceFilePath rel)
  = if bool_decide (sourceFilePath = f) then 1 else 0.
Proof. unfold first_pass_events. count_events. Qed.

Lemma renders_of_second_pass e (f sourceFilePath rel : string) :
  renders_of f (second_pass_events e sourceFilePath rel)
  = (if bool_decide (sourceFilePath = f) then 1 else 0)
    + renders_of f (sweep_events e true sourceFilePath (tracked_pages e)).
Proof.
  unfold second_pass_events. rewrite renders_of_app. f_equal. count_events.
Qed.

(** The renders of the two passes: the page twice, the sweep's share for
    every other page. *)
Lemma renders_of_two_passes e (f sourceFilePath rel : string) evs :
  renders_of f evs = 0 →
  renders_of f (evs ++ first_pass_events sourceFilePath rel
                ++ second_pass_events e sourceFilePath rel)
  = (if bool_decide (sourceFilePath = f) then 2 else 0)
    + renders_of f (sweep_events e true sourceFilePath (tracked_pages e)).
Proof.
  intros Hevs.
  rewrite !renders_of_app, Hevs, renders_of_first_pass, renders_of_second_pass.
  case_bool_decide; lia.
Qed.

(** C1 (as amended): a request, other than for the registration module,
    whose URL resolves to a source file without output file makes the
    [serve] hook update the file's header and then render the file, add it
    to the page tree and save the tree, in this order.  If the tree then
    asks for another rendering pass, the file is rendered exactly once more
    and the sweep over the tracked pages follows, which renders every other
    open page once and skips the requested file; the flag is false
    afterwards.  A render, an add or a save that throws is caught: the
    steps after it are skipped, so the flag is not reset, and the request
    completes all the same.  Only the header update is outside the [try]:
    when it throws, the request rejects and nothing is rendered. *)
Theorem serve_renders_missing_output (context : Context) w (sourceFilePath : string) :
  path context ≠ "/ws-register-tab.js" →
  urlToSourceFilePath (path context) (docsDir (engine w)) (disk w) = Some sourceFilePath →
  sourceFilePath ≠ "" →
  Fs.existsSync process_cwd (getOutputFilePath (engine w) sourceFilePath) (disk w) = false →
  let rel := Path.relative process_cwd (docsDir (engine w)) sourceFilePath in
  let request := render_request (engine w) sourceFilePath in
  let run := serve context w in
  let calls := events_of (serve context) w in
  let announced := [EvUpdateRocketHeader sourceFilePath;
                    EvLogRendering (requested_message rel)] in
  (∀ err d1,
     updateRocketHeader sourceFilePath (docsDir (engine w)) (disk w) = Throw err d1 →
     completes run = false
     ∧ calls = [EvUpdateRocketHeader sourceFilePath]
     ∧ pageTree (state_of run) = pageTree w)
  ∧ (∀ d1,
       updateRocketHeader sourceFilePath (docsDir (engine w)) (disk w) = Ok tt d1 →
       run = Ok None (state_of run)
       ∧ (∀ err d2,
            renderViaWorker request d1 = Throw err d2 →
            calls = announced ++ [EvRenderViaWorker sourceFilePath]
            ∧ pageTree (state_of run) = pageTree w)
       ∧ (∀ r2 d2,
            renderViaWorker request d1 = Ok r2 d2 →
            (∀ err t3 d3,
               PageTree_add rel (pageTree w, d2) = Throw err (t3, d3) →
               calls = announced ++ [EvRenderViaWorker sourceFilePath; EvPageTreeAdd rel])
            ∧ (∀ t3 d3,
                 PageTree_add rel (pageTree w, d2) = Ok tt (t3, d3) →
                 (∀ err t4 d4,
                    PageTree_save (t3, d3) = Throw err (t4, d4) →
                    calls = announced ++ first_pass_events sourceFilePath rel
                    ∧ pageTree (state_of run) = t4)
                 ∧ (∀ t4 d4,
                      PageTree_save (t3, d3) = Ok tt (t4, d4) →
                      (needsAnotherRenderingPass t4 = false →
                       calls = announced ++ first_pass_events sourceFilePath rel
                       ∧ pageTree (state_of run) = t4)
                      ∧ (needsAnotherRenderingPass t4 = true →
                         (∀ err d5,
                            renderViaWorker request d4 = Throw err d5 →
                            calls = announced ++ first_pass_events sourceFilePath rel
                                    ++ [EvLogRendering (again_message rel);
                                        EvRenderViaWorker sourceFilePath]
                            ∧ pageTree (state_of run) = t4)
                         ∧ (∀ r5 d5,
                              renderViaWorker request d4 = Ok r5 d5 →
                              calls = announced ++ first_pass_events sourceFilePath rel
                                      ++ second_pass_events (engine w) sourceFilePath rel
                              ∧ needsAnotherRenderingPass (pageTree (state_of run)) = false
                              ∧ treeModel (pageTree (state_of run)) = treeModel t4
                              ∧ renders_of sourceFilePath calls = 2
                              ∧ (NoDup (tracked_pages (engine w)).*1 →
                                 ∀ f page,
                                   (f, page) ∈ tracked_pages (engine w) →
                                   f ≠ sourceFilePath →
                                   isOpenedInBrowser page = true →
                                   renders_of f calls = 1))))))).
Proof.
  intros Hpath Hurl Hne Hmissing rel request run calls announced.
  pose proof (serve_run_missing context w sourceFilePath Hpath Hurl Hne Hmissing) as Hrun.
  fold rel run in Hrun. fold announced in Hrun.
  split.
  { intros err d1 Hheader. rewrite Hheader in Hrun.
    split; [by rewrite Hrun|]. split; [|by rewrite Hrun].
    eapply events_of_reached. fold run. by rewrite Hrun. }
  intros d1 Hheader. rewrite Hheader in Hrun.
  set (w0 := reached w d1 (pageTree w) announced) in *.
  pose proof (render_and_register_run_cases sourceFilePath rel w0) as Hpass.
  cbn [w0 reached engine disk pageTree] in Hpass. fold request in Hpass.
  assert (∀ d t evs,
            state_of (render_and_register sourceFilePath rel w0) = reached w0 d t evs →
            calls = announced ++ evs ∧ pageTree (state_of run) = t) as Hend.
  { intros d t evs Hs. split.
    - eapply (events_of_two_steps (serve context) w w0); [reflexivity|].
      fold run. rewrite Hrun. exact Hs.
    - rewrite Hrun. cbn [state_of]. by rewrite Hs. }
  split; [by rewrite Hrun|]. split.
  { intros err d2 Hrender. rewrite Hrender in Hpass.
    eapply Hend. by rewrite Hpass. }
  intros r2 d2 Hrender. rewrite Hrender in Hpass. split.
  { intros err t3 d3 Hadd. rewrite Hadd in Hpass.
    eapply Hend. by rewrite Hpass. }
  intros t3 d3 Hadd. rewrite Hadd in Hpass. split.
  { intros err t4 d4 Hsave. rewrite Hsave in Hpass.
    eapply Hend. by rewrite Hpass. }
  intros t4 d4 Hsave. rewrite Hsave in Hpass. split.
  { intros Hneeds. rewrite Hneeds in Hpass.
    eapply Hend. by rewrite Hpass. }
  intros Hneeds. rewrite Hneeds in Hpass. split.
  { intros err d5 Hagain. rewrite Hagain in Hpass.
    eapply Hend. by rewrite Hpass. }
  intros r5 d5 Hagain. rewrite Hagain in Hpass.
  match type of Hpass with
  | _ = bind _ _ ?w5 =>
      destruct (sweep_and_reset_run sourceFilePath w5) as (w' & Hsweep & He & Hflag & Ht & Htr)
  end.
  rewrite Hsweep in Hpass. rewrite Hpass in Hrun. cbn [state_of] in Hrun.
  assert (calls = announced ++ first_pass_events sourceFilePath rel
                  ++ second_pass_events (engine w) sourceFilePath rel) as Hcalls.
  { apply events_of_append. fold run. rewrite Hrun. cbn [state_of]. rewrite Htr.
    unfold second_pass_events. cbn [w0 reached engine trace].
    by rewrite <- !app_assoc. }
  assert (∀ f, renders_of f calls
               = (if bool_decide (sourceFilePath = f) then 2 else 0)
                 + renders_of f (sweep_events (engine w) true sourceFilePath
                                   (tracked_pages (engine w)))) as Hcount.
  { intros f. rewrite Hcalls. apply renders_of_two_passes. unfold announced. count_events. }
  split; [done|]. rewrite Hrun. cbn [state_of].
  split; [done|]. split; [done|]. split.
  - by rewrite Hcount, bool_decide_true, sweep_skips_trigger.
  - intros Hnodup f page Hin Hother Hopen.
    rewrite Hcount, bool_decide_false by congruence.
    by erewrite sweep_renders_open_once; eauto using is_trigger_other.
Qed.

(** C2 (as amended): a watch event on a page whose header update,
    render, add and save succeed and leave the page tree asking for another
    pass makes the handler render the page a second time, its one
    re-render.  When that re-render succeeds, the sweep follows: it renders
    every other open page exactly once and does not render the page again,
    so the page is rendered twice in all, for the event and for the
    re-render, and the flag ends false.  When the re-render throws, the
    sweep is not made: no other page is rendered and the flag stays set. *)
Theorem watch_event_cascade_renders_once (sourceFilePath : string) w
    (r2 : RenderResult) (d1 d2 d3 d4 : gset string) (t3 t4 : PageTree TreeModel) :
  sourceFilePath ≠ "" →
  NoDup (tracked_pages (engine w)).*1 →
  updateRocketHeader sourceFilePath (docsDir (engine w)) (disk w) = Ok tt d1 →
  renderViaWorker (render_request (engine w) sourceFilePath) d1 = Ok r2 d2 →
  PageTree_add (Path.relative process_cwd (docsDir (engine w)) sourceFilePath)
    (pageTree w, d2) = Ok tt (t3, d3) →
  PageTree_save (t3, d3) = Ok tt (t4, d4) →
  needsAnotherRenderingPass t4 = true →
  let rel := Path.relative process_cwd (docsDir (engine w)) sourceFilePath in
  let run := onPageSavedOrOpenedTabAndServerDependencyChanged sourceFilePath w in
  let calls := events_of (onPageSavedOrOpenedTabAndServerDependencyChanged sourceFilePath) w in
  run = Ok tt (state_of run)
  ∧ (∀ r5 d5,
       renderViaWorker (render_request (engine w) sourceFilePath) d4 = Ok r5 d5 →
       calls = [EvUpdateRocketHeader sourceFilePath]
               ++ first_pass_events sourceFilePath rel
               ++ second_pass_events (engine w) sourceFilePath rel
       ∧ (∀ f page, (f, page) ∈ tracked_pages (engine w) → f ≠ sourceFilePath →
                    isOpenedInBrowser page = true →
                    renders_of f calls = 1)
       ∧ renders_of sourceFilePath
           (sweep_events (engine w) true sourceFilePath (tracked_pages (engine w))) = 0
       ∧ renders_of sourceFilePath calls = 2
       ∧ needsAnotherRenderingPass (pageTree (state_of run)) = false)
  ∧ (∀ err d5,
       renderViaWorker (render_request (engine w) sourceFilePath) d4 = Throw err d5 →
       calls = [EvUpdateRocketHeader sourceFilePath]
               ++ first_pass_events sourceFilePath rel
               ++ [EvLogRendering (again_message rel); EvRenderViaWorker sourceFilePath]
       ∧ (∀ f, f ≠ sourceFilePath → renders_of f calls = 0)
       ∧ renders_of sourceFilePath calls = 2
       ∧ needsAnotherRenderingPass (pageTree (state_of run)) = true).
Proof.
  intros Hne Hnodup Hheader Hrender Hadd Hsave Hneeds rel run calls.
  pose proof (watch_run sourceFilePath w) as Hrun. fold rel run in Hrun.
  rewrite Hheader in Hrun.
  set (w0 := reached w d1 (pageTree w) [EvUpdateRocketHeader sourceFilePath]) in *.
  pose proof (render_and_register_run_cases sourceFilePath rel w0) as Hpass.
  cbn [w0 reached engine disk pageTree] in Hpass. fold rel in Hadd.
  rewrite Hrender, Hadd, Hsave, Hneeds in Hpass.
  split; [by rewrite Hrun|]. split.
  - intros r5 d5 Hagain. rewrite Hagain in Hpass.
    match type of Hpass with
    | _ = bind _ _ ?w5 =>
        destruct (sweep_and_reset_run sourceFilePath w5)
          as (w' & Hsweep & He & Hflag & Ht & Htr)
    end.
    rewrite Hsweep in Hpass. rewrite Hpass in Hrun. cbn [state_of] in Hrun.
    assert (calls = [EvUpdateRocketHeader sourceFilePath]
                    ++ first_pass_events sourceFilePath rel
                    ++ second_pass_events (engine w) sourceFilePath rel) as Hcalls.
    { apply events_of_append. fold run. rewrite Hrun. cbn [state_of]. rewrite Htr.
      unfold second_pass_events. cbn [w0 reached engine trace].
      by rewrite <- !app_assoc. }
    assert (∀ f, renders_of f calls
                 = (if bool_decide (sourceFilePath = f) then 2 else 0)
                   + renders_of f (sweep_events (engine w) true sourceFilePath
                                     (tracked_pages (engine w)))) as Hcount.
    { intros f. rewrite Hcalls. apply renders_of_two_passes. count_events. }
    split; [done|]. split; [|split; [|split]].
    + intros f page Hin Hother Hopen.
      rewrite Hcount, bool_decide_false by congruence.
      by erewrite sweep_renders_open_once; eauto using is_trigger_other.
    + by apply sweep_skips_trigger.
    + by rewrite Hcount, bool_decide_true, sweep_skips_trigger.
    + by rewrite Hrun.
  - intros err d5 Hagain. rewrite Hagain in Hpass.
    rewrite Hpass in Hrun. cbn [state_of] in Hrun.
    assert (calls = [EvUpdateRocketHeader sourceFilePath]
                    ++ first_pass_events sourceFilePath rel
                    ++ [EvLogRendering (again_message rel);
                        EvRenderViaWorker sourceFilePath]) as Hcalls.
    { eapply (events_of_two_steps _ w w0); [reflexivity|].
      fold run. rewrite Hrun. reflexivity. }
    assert (∀ f, renders_of f calls = if bool_decide (sourceFilePath = f) then 2 else 0)
      as Hcount.
    { intros f. rewrite Hcalls, !renders_of_app, renders_of_first_pass, renders_of_again.
      replace (renders_of f [EvUpdateRocketHeader sourceFilePath]) with 0 by count_events.
      case_bool_decide; lia. }
    split; [done|]. split; [|split].
    + intros f Hf. rewrite Hcount, bool_decide_false; [done|congruence].
    + by rewrite Hcount, bool_decide_true.
    + rewrite Hrun. cbn [state_of reached pageTree]. exact Hneeds.
Qed.








(** C10: a request whose URL resolves to no source file, or to a source
    file whose output file exists, leaves everything as it was: nothing is
    rendered or logged, and disk, page tree and engine are unchanged. *)
Theorem serve_without_render_changes_nothing (context : Context) w :
  truthy (urlToSourceFilePath (path context) (docsDir (engine w)) (disk w)) = false
  ∨ Fs.existsSync process_cwd
      (getOutputFilePath (engine w)
         (template (urlToSourceFilePath (path context) (docsDir (engine w)) (disk w))))
      (disk w) = true →
  ∃ body, serve context w = Ok body w
          ∧ events_of (serve context) w = [].
Proof.
  intros Hcase.
  assert (∃ body, serve context w = Ok body w) as [body Hserve].
  { unfold serve.
    destruct (String.eqb (path context) "/ws-register-tab.js"); [by eexists|].
    unfold getSourceFilePathFromUrl.
    erewrite bind_ok; [|reflexivity].
    destruct (truthy _) eqn:Htruthy; [|by eexists].
    destruct Hcase as [Hcase|Hcase]; [discriminate|].
    erewrite bind_ok; [|reflexivity].
    erewrite bind_ok; [|by unfold existsSync, bind, get, ret; simpl; rewrite Hcase].
    by eexists. }
  exists body. split; [done|].
  apply events_of_append. rewrite Hserve. simpl. by rewrite app_nil_r.
Qed.

(** C5 (as amended): the handler of a changed dependency renders nothing
    and calls no page tree method, whatever happens, and leaves the page
    tree as it was.  It first updates the page's header: when that
    succeeds, it removes the page's output file, which does not exist
    afterwards, and that is all it does; when the header update throws, the
    handler throws with it and the output file is not removed. *)
Theorem dependency_change_only_invalidates (sourceFilePath : string) w :
  let run := onPageServerDependencySaved sourceFilePath w in
  let calls := events_of (onPageServerDependencySaved sourceFilePath) w in
  let out := getOutputFilePath (engine w) sourceFilePath in
  (pageTree (state_of run) = pageTree w
   ∧ engine (state_of run) = engine w
   ∧ Forall quiet calls)
  ∧ (∀ d1,
       updateRocketHeader sourceFilePath (docsDir (engine w)) (disk w) = Ok tt d1 →
       run = Ok tt (state_of run)
       ∧ disk (state_of run) = Fs.rm_force process_cwd out d1
       ∧ Fs.existsSync process_cwd out (disk (state_of run)) = false
       ∧ calls = [EvUpdateRocketHeader sourceFilePath; EvRm out false])
  ∧ (∀ err d1,
       updateRocketHeader sourceFilePath (docsDir (engine w)) (disk w) = Throw err d1 →
       run = Throw err (state_of run)
       ∧ disk (state_of run) = d1
       ∧ calls = [EvUpdateRocketHeader sourceFilePath]).
Proof.
  intros run calls out.
  assert (run
          = match updateRocketHeader sourceFilePath (docsDir (engine w)) (disk w) with
            | Ok _ d =>
                Ok tt (reached w (Fs.rm_force process_cwd out d) (pageTree w)
                         [EvUpdateRocketHeader sourceFilePath; EvRm out false])
            | Throw err d =>
                Throw err (reached w d (pageTree w) [EvUpdateRocketHeader sourceFilePath])
            end) as Hrun.
  { unfold run, onPageServerDependencySaved.
    erewrite bind_ok; [|reflexivity].
    rewrite bind_run, call_updateRocketHeader_run.
    destruct (updateRocketHeader _ _ _) as [[] d|err d]; [|same_state].
    rewrite deleteOutputOf_run. same_state. }
  assert (∀ d t evs, state_of run = reached w d t evs → calls = evs) as Hcalls.
  { intros d t evs Hs. by eapply events_of_reached. }
  destruct (updateRocketHeader _ _ _) as [[] d|err d];
    rewrite Hrun; cbn [state_of reached pageTree engine disk].
  - rewrite (Hcalls _ _ _ (f_equal state_of Hrun)).
    split; [split; [done|]; split; [done|]; by repeat constructor|].
    split; [|discriminate]. intros d1 [= <-].
    split; [done|]. split; [done|]. split; [apply rm_force_gone|done].
  - rewrite (Hcalls _ _ _ (f_equal state_of Hrun)).
    split; [split; [done|]; split; [done|]; by repeat constructor|].
    split; [discriminate|]. by intros err' d1 [= <- <-].
Qed.

(** The handler of a deleted page, on any collaborators: it removes the
    page's output file and nothing else. *)
Lemma onPageDeleted_run (sourceFilePath : string) w :
  onPageDeleted sourceFilePath w
  = Ok tt (reached w
             (Fs.rm_force process_cwd (getOutputFilePath (engine w) sourceFilePath) (disk w))
             (pageTree w)
             [EvRm (getOutputFilePath (engine w) sourceFilePath) false]).
Proof. unfold onPageDeleted. rewrite deleteOutputOf_run. same_state. Qed.

(** *** The build *)






Lemma render_turn_run (f : string) w :
  trace (state_of (bind (renderFile f) (λ _, ret tt) w))
  = trace w ++ [EvRenderViaWorker f]
  ∧ pageTree (state_of (bind (renderFile f) (λ _, ret tt) w)) = pageTree w.
Proof.
  unfold bind. rewrite renderFile_run.
  by destruct (renderViaWorker _ _) as [r d|err d].
Qed.


Lemma pageTree_save_trace w :
  trace (state_of (pageTree_save w)) = trace w ++ [EvPageTreeSave].
Proof.
  rewrite pageTree_save_run.
  by destruct (PageTree_save _) as [[] [t d]|err [t d]].
Qed.




(** *** Steps that only append to the log *)

Lemma same_site_refl w : same_site w w.
Proof. by repeat split. Qed.

Lemma same_site_trans w w1 w2 : same_site w w1 → same_site w1 w2 → same_site w w2.
Proof.
  intros (? & ? & ? & ? & ?) (? & ? & ? & ? & ?). repeat split; congruence.
Qed.

#[global] Instance any_disk_preorder : PreOrder any_disk.
Proof. by split. Qed.

#[global] Instance keeps_outside_preorder (cwd out : string) :
  PreOrder (keeps_outside cwd out).
Proof.
  split.
  - by intros d q.
  - intros d1 d2 d3 H12 H23 q Hq Hout. by apply H23; [apply H12|].
Qed.

Section Framed.
Context (P : Event → Prop) (R : relation (gset string)) `{!PreOrder R}.

Lemma framed_bind {A B} (m : M A) (k : A → M B) w :
  framed P R m w →
  (∀ a w1, m w = Ok a w1 → framed P R (k a) w1) →
  framed P R (bind m k) w.
Proof.
  intros (evs1 & Htr1 & HP1 & Hs1 & HR1) Hk. unfold framed. rewrite bind_run.
  destruct (m w) as [a w1|err w1]; cbn [state_of] in *.
  - destruct (Hk a w1 eq_refl) as (evs2 & Htr2 & HP2 & Hs2 & HR2).
    exists (evs1 ++ evs2). rewrite Htr2, Htr1, <- app_assoc.
    split; [done|]. split; [by apply Forall_app_2|].
    split; [by eapply same_site_trans|by etrans].
  - by exists evs1.
Qed.

Lemma framed_still {A} (m : M A) w :
  state_of (m w) = w → framed P R m w.
Proof.
  intros Hs. exists []. rewrite Hs, app_nil_r. split; [done|].
  split; [done|]. split; [apply same_site_refl|done].
Qed.

Lemma framed_emit (ev : Event) w : P ev → framed P R (emit ev) w.
Proof.
  intros HP. exists [ev]. split; [done|]. split; [by repeat constructor|].
  split; [by repeat split|]. simpl. reflexivity.
Qed.

Lemma framed_on_disk {A} (f : gset string → Outcome (gset string) A) w :
  R (disk w) (left_by (f (disk w))) → framed P R (on_disk f) w.
Proof.
  intros HR. exists []. unfold on_disk. rewrite app_nil_r.
  destruct (f (disk w)) as [a d|err d]; cbn [state_of left_by] in *;
    (split; [done|]); (split; [done|]); (split; [by repeat split|done]).
Qed.

Lemma framed_call {A} (ev : Event) (f : gset string → Outcome (gset string) A) w :
  P ev → (∀ d, R d (left_by (f d))) → framed P R (bind (emit ev) (λ _, on_disk f)) w.
Proof.
  intros HP HR. apply framed_bind; [by apply framed_emit|].
  intros [] w1 _. apply framed_on_disk, HR.
Qed.

Lemma framed_for_of {A} (body : A → M unit) (xs : list A) :
  (∀ x w, framed P R (body x) w) → ∀ w, framed P R (for_of xs body) w.
Proof.
  intros Hbody. induction xs as [|x xs IH]; intros w; cbn [for_of].
  - by apply framed_still.
  - apply framed_bind; [apply Hbody|]. intros [] w1 _. apply IH.
Qed.

Lemma framed_events {A} (m : M A) w :
  framed P R m w → Forall P (events_of m w).
Proof. intros (evs & Htr & HP & _). by rewrite (events_of_append m w evs Htr). Qed.

(** *** [prepare] *)

(** One plugin: a copy or a line on the console. *)
Lemma prepare_plugin_framed (plugin : Plugin) w :
  (∀ src dst, P (EvCopy src dst)) → (∀ msg, P (EvConsoleLog msg)) →
  (∀ src dst d, R d (left_by (fsExtra_copy src dst d))) →
  framed P R (prepare_plugin plugin) w.
Proof.
  intros Hcopy Hlog HRcopy. unfold prepare_plugin.
  apply framed_bind; [by apply framed_still|]. intros w0 w1 [= <- <-].
  destruct (truthy _ && _).
  - by apply framed_call.
  - by apply framed_emit.
Qed.

(** [prepare], whatever [mkdir] and [fse.copy] answer: it calls
    [applyPlugins], [mkdir], [fse.copy] and [console.log], and [rm] only
    to clear an existing output directory; it renders nothing, calls no
    page tree method, and touches neither the directories of the engine
    nor the page tree. *)
Lemma prepare_framed (clear : bool) w :
  P EvApplyPlugins → (∀ p, P (EvMkdir p)) →
  (∀ src dst, P (EvCopy src dst)) → (∀ msg, P (EvConsoleLog msg)) →
  (∀ p d, R d (left_by (fsPromises_mkdir p d))) →
  (∀ src dst d, R d (left_by (fsExtra_copy src dst d))) →
  (clear = true →
   Fs.existsSync process_cwd (outputDir (engine w)) (disk w) = true →
   P (EvRm (outputDir (engine w)) true)
   ∧ ∀ d, R d (Fs.rm_recursive_force process_cwd (outputDir (engine w)) d)) →
  framed P R (prepare clear) w.
Proof.
  intros Happly Hmkdir Hcopy Hlog HRmkdir HRcopy Hrm. unfold prepare.
  apply framed_bind; [by apply framed_still|]. intros w0 w1 [= <- <-].
  apply framed_bind; [by apply framed_emit|]. intros [] w1 [= <-].
  apply framed_bind.
  { exists []. rewrite app_nil_r. split; [done|]. split; [done|].
    split; [by repeat split|]. simpl. reflexivity. }
  intros [] w2 [= <-].
  apply framed_bind; [by apply framed_still|]. intros present w3 [= <- <-].
  cbn [disk set_options set_trace].
  apply framed_bind.
  { destruct (Fs.existsSync _ (outputDir _) _) eqn:Hpresent; cbn [negb].
    - destruct clear; [|by apply framed_still].
      destruct (Hrm eq_refl eq_refl) as [HPrm HRrm].
      unfold clearOutputDir. apply framed_bind; [by apply framed_still|].
      intros w0 w3 [= <- <-]. cbn [engine outputDir set_options set_trace].
      unfold rm. apply framed_bind; [by apply framed_emit|].
      intros [] w3 _. exists []. rewrite app_nil_r.
      split; [done|]. split; [done|]. split; [by repeat split|apply HRrm].
    - by apply framed_call. }
  intros [] w3 _.
  apply framed_bind; [by apply framed_still|]. intros present w4 [= <- <-].
  apply framed_bind.
  { destruct (Fs.existsSync _ (Path.join _ _) _);
      [by apply framed_call|by apply framed_still]. }
  intros [] w4 _.
  apply framed_bind; [by apply framed_still|]. intros w0 w5 [= <- <-].
  destruct (plugins _) as [ps|]; [|by apply framed_still].
  apply framed_for_of. intros plugin w5. by apply prepare_plugin_framed.
Qed.

End Framed.


Lemma prepare_plugin_run (plugin : Plugin) w :
  prepare_plugin plugin w
  = if truthy (publicFolder plugin)
       && Fs.existsSync process_cwd (template (publicFolder plugin)) (disk w)
    then fse_copy (template (publicFolder plugin)) (outputDir (engine w)) w
    else Ok tt (reached w (disk w) (pageTree w)
                  [EvConsoleLog (plugin_missing_message plugin)]).
Proof.
  unfold prepare_plugin. rewrite bind_run. cbn [get].
  destruct (truthy _ && _); [done|same_state].
Qed.


(** The calls of [prepare]: of all the calls of [rm], only the
    recursive one on the output directory. *)
Lemma prepare_calls (clear : bool) w :
  framed (prepare_call (outputDir (engine w))) any_disk (prepare clear) w.
Proof. by apply prepare_framed. Qed.



(** C8, at the plugin the defect shows on: a plugin whose class declares
    no [publicFolder] makes [prepare] log that the plugin "defined a public
    folder undefined but it does not exist". *)
Theorem prepare_reports_plugin_without_public_folder (name : string) w :
  prepare_plugin {| constructor_name := name; publicFolder := None |} w
  = Ok tt (set_trace
             (trace w
              ++ [EvConsoleLog
                    ("Plugin " ++ name
                     ++ " defined a public folder undefined but it does not exist.")%string])
             w).
Proof. by rewrite prepare_plugin_run. Qed.


(** A declared folder that does not exist is logged, and the disk stays
    as it is. *)
Lemma prepare_logs_missing_public_folder (name folder : string) w :
  Fs.existsSync process_cwd folder (disk w) = false →
  prepare_plugin {| constructor_name := name; publicFolder := Some folder |} w
  = Ok tt (set_trace
             (trace w
              ++ [EvConsoleLog
                    ("Plugin " ++ name ++ " defined a public folder " ++ folder
                     ++ " but it does not exist.")%string])
             w).
Proof.
  intros Hex. rewrite prepare_plugin_run. simpl. rewrite Hex.
  by rewrite andb_false_r.
Qed.

End EngineProperties.

(** ** The engine on concrete inputs *)

Section Runs.
Local Open Scope list_scope.

Lemma completes_unit `{Collaborators} (o : Outcome World unit) :
  completes o = true → o = Ok tt (state_of o).
Proof. by destruct o as [[] w|err w]. Qed.

Lemma two_pages_tracked_once : NoDup (pages Sample.two_pages).*1.
Proof. apply (bool_decide_unpack _). by vm_compute. Qed.


Lemma two_pages_b : ("/docs/b.md", {| webSockets := Some [7] |}) ∈ pages Sample.two_pages.
Proof. apply list_elem_of_further, list_elem_of_here. Qed.

Lemma serve_renders_missing_output_witness :
  serve {| path := "/a.html" |} Sample.dev_world
  = Ok None (state_of (serve {| path := "/a.html" |} Sample.dev_world))
  ∧ needsAnotherRenderingPass
      (pageTree (state_of (serve {| path := "/a.html" |} Sample.dev_world))) = false
  ∧ renders_of "/docs/a.md" (events_of (serve {| path := "/a.html" |}) Sample.dev_world) = 2
  ∧ renders_of "/docs/b.md" (events_of (serve {| path := "/a.html" |}) Sample.dev_world) = 1.
Proof.
  destruct (serve_renders_missing_output {| path := "/a.html" |} Sample.dev_world
              "/docs/a.md") as [_ Hok];
    [discriminate | by vm_compute | discriminate | by vm_compute |].
  edestruct Hok as (Hrun & _ & Hrender); [reflexivity|].
  edestruct Hrender as [_ Hadd]; [reflexivity|].
  edestruct Hadd as [_ Hsave]; [reflexivity|].
  edestruct Hsave as [_ Hneeds]; [reflexivity|].
  edestruct Hneeds as [_ Hagain]; [by vm_compute|].
  edestruct Hagain as (_ & Hflag & _ & Hself & Hothers); [reflexivity|].
  split; [exact Hrun|]. split; [exact Hflag|]. split; [exact Hself|].
  apply Hothers with (page := {| webSockets := Some [7] |}).
  - exact two_pages_tracked_once.
  - exact two_pages_b.
  - discriminate.
  - reflexivity.
Defined.

(** C1 (as stated) fails when the render throws: the request for
    "/b.html" resolves to "/docs/b.md", which has no output file; the
    render of the page throws, and the hook completes without adding the
    page to the tree and without saving the tree. *)
Lemma serve_failed_render_skips_tree :
  Sample.toSource "/b.html" "/docs" (disk Sample.broken_world) = Some "/docs/b.md"
  ∧ Fs.existsSync "/work" (getOutputFilePath (engine Sample.broken_world) "/docs/b.md")
      (disk Sample.broken_world) = false
  ∧ completes (serve {| path := "/b.html" |} Sample.broken_world) = true
  ∧ events_of (serve {| path := "/b.html" |}) Sample.broken_world
    = [EvUpdateRocketHeader "/docs/b.md";
       EvLogRendering "b.md because it got requested by a browser tab.";
       EvRenderViaWorker "/docs/b.md"]
  ∧ adds_of (events_of (serve {| path := "/b.html" |}) Sample.broken_world) = 0
  ∧ saves_of (events_of (serve {| path := "/b.html" |}) Sample.broken_world) = 0.
Proof. by vm_compute. Qed.

Lemma watch_event_cascade_renders_once_witness :
  onPageSavedOrOpenedTabAndServerDependencyChanged "/docs/a.md" Sample.dev_world
  = Ok tt (state_of (onPageSavedOrOpenedTabAndServerDependencyChanged "/docs/a.md"
                       Sample.dev_world))
  ∧ renders_of "/docs/b.md"
      (events_of (onPageSavedOrOpenedTabAndServerDependencyChanged "/docs/a.md")
         Sample.dev_world) = 1
  ∧ renders_of "/docs/a.md"
      (events_of (onPageSavedOrOpenedTabAndServerDependencyChanged "/docs/a.md")
         Sample.dev_world) = 2.
Proof.
  edestruct (watch_event_cascade_renders_once "/docs/a.md" Sample.dev_world)
    as (Hrun & Hok & _);
    [ discriminate | exact two_pages_tracked_once | reflexivity | reflexivity
    | reflexivity | reflexivity | by vm_compute | ].
  edestruct Hok as (_ & Hothers & _ & Hself & _); [reflexivity|].
  split; [exact Hrun|]. split; [|exact Hself].
  apply Hothers with (page := {| webSockets := Some [7] |}).
  - exact two_pages_b.
  - discriminate.
  - reflexivity.
Defined.

(** C2 (as stated) fails when the re-render throws: the event on
    "/docs/a.md" renders the page, the save asks for another pass, the
    second render of the page throws, and "/docs/b.md", tracked and open in
    a tab, is not rendered at all. *)
Lemma watch_event_failed_rerender_skips_sweep :
  completes (onPageSavedOrOpenedTabAndServerDependencyChanged "/docs/a.md"
               (Faulty.dev_world [])) = true
  ∧ saves_of (events_of (onPageSavedOrOpenedTabAndServerDependencyChanged "/docs/a.md")
                (Faulty.dev_world [])) = 1
  ∧ needsAnotherRenderingPass
      (pageTree (state_of (onPageSavedOrOpenedTabAndServerDependencyChanged "/docs/a.md"
                             (Faulty.dev_world [])))) = true
  ∧ renders_of "/docs/a.md"
      (events_of (onPageSavedOrOpenedTabAndServerDependencyChanged "/docs/a.md")
         (Faulty.dev_world [])) = 2
  ∧ tracked_pages (engine (Faulty.dev_world []))
    = [("/docs/a.md", {| webSockets := Some [] |});
       ("/docs/b.md", {| webSockets := Some [7] |})]
  ∧ isOpenedInBrowser {| webSockets := Some [7] |} = true
  ∧ renders_of "/docs/b.md"
      (events_of (onPageSavedOrOpenedTabAndServerDependencyChanged "/docs/a.md")
         (Faulty.dev_world [])) = 0.
Proof. by vm_compute. Qed.



Lemma dependency_change_only_invalidates_witness :
  onPageServerDependencySaved "/docs/a.md" Sample.rendered_world
  = Ok tt (state_of (onPageServerDependencySaved "/docs/a.md" Sample.rendered_world))
  ∧ Fs.existsSync "/work" "/site/a.html"
      (disk (state_of (onPageServerDependencySaved "/docs/a.md" Sample.rendered_world)))
    = false
  ∧ pageTree (state_of (onPageServerDependencySaved "/docs/a.md" Sample.rendered_world))
    = pageTree Sample.rendered_world.
Proof.
  destruct (dependency_change_only_invalidates "/docs/a.md" Sample.rendered_world)
    as ((Htree & _) & Hok & _).
  edestruct Hok as (Hrun & _ & Hgone & _); [reflexivity|].
  split; [exact Hrun|]. split; [exact Hgone|exact Htree].
Defined.

(** C5 (as stated) fails when the header update throws: the handler
    throws with it, it has not called [rm], and the output file of the page
    is still there. *)
Lemma dependency_change_header_failure_keeps_output :
  completes (onPageServerDependencySaved "/docs/a.md" (Faulty.stale_world ["/docs/a.md"]))
  = false
  ∧ events_of (onPageServerDependencySaved "/docs/a.md")
      (Faulty.stale_world ["/docs/a.md"])
    = [EvUpdateRocketHeader "/docs/a.md"]
  ∧ Fs.existsSync "/work"
      (getOutputFilePath (engine (Faulty.stale_world ["/docs/a.md"])) "/docs/a.md")
      (disk (state_of (onPageServerDependencySaved "/docs/a.md"
                         (Faulty.stale_world ["/docs/a.md"])))) = true.
Proof. by vm_compute. Qed.




Lemma serve_without_render_changes_nothing_witness :
  (∃ body, serve {| path := "/a.html" |} Sample.rendered_world
           = Ok body Sample.rendered_world)
  ∧ (∃ body, serve {| path := "/missing.html" |} Sample.rendered_world
             = Ok body Sample.rendered_world).
Proof.
  split.
  - destruct (serve_without_render_changes_nothing {| path := "/a.html" |}
                Sample.rendered_world) as (body & Hrun & _).
    { right. by vm_compute. }
    by exists body.
  - destruct (serve_without_render_changes_nothing {| path := "/missing.html" |}
                Sample.rendered_world) as (body & Hrun & _).
    { left. by vm_compute. }
    by exists body.
Defined.

(** On a whole [prepare]: the plugin "Search" declares no public folder;
    [prepare] completes and logs that the plugin defined a folder which
    does not exist. *)
Lemma prepare_logs_for_plugin_without_folder :
  completes (prepare true Sample.plugin_world) = true
  ∧ events_of (prepare true) Sample.plugin_world
    = [EvApplyPlugins; EvRm "/site" true;
       EvConsoleLog
         "Plugin Search defined a public folder undefined but it does not exist."].
Proof. by vm_compute. Qed.

End Runs.

(** ** More on asset URLs *)

Section AssetUrlsMore.

Lemma strip_parent_prefixes_step (count : nat) (rest : string) :
  strip_parent_prefixes count (String "." (String "." (String "/" rest)))
  = strip_parent_prefixes (S count) rest.
Proof. reflexivity. Qed.

(** The loop, on any string: it removes all the leading "../", counts
    them, and stops at the first place that does not start with one. *)
Lemma strip_parent_prefixes_spec (relPath : string) (count : nat) :
  ∃ n rest,
    strip_parent_prefixes count relPath = (count + n, rest)
    ∧ relPath = parents n ++ rest
    ∧ String.prefix "../" rest = false.
Proof.
  remember (String.length relPath) as k eqn:Hk.
  revert relPath count Hk.
  induction k as [k IH] using lt_wf_ind. intros relPath count Hk.
  destruct (String.prefix "../" relPath) eqn:Hp.
  - apply prefix_parent_inv in Hp as [tail ->].
    destruct (IH (String.length tail)) with (relPath := tail) (count := S count)
      as (n & rest & Hrun & Htail & Hstop); [simpl in Hk; lia|done|].
    exists (S n), rest. rewrite strip_parent_prefixes_step, Hrun.
    split; [f_equal; lia|]. split; [|done].
    change (parents (S n) ++ rest)
      with (String "." (String "." (String "/" (parents n ++ rest)))).
    by rewrite <- Htail.
  - exists 0, relPath. rewrite strip_parent_prefixes_stop by done.
    split; [f_equal; lia|]. done.
Qed.

(** X1: whatever the paths are, a relative URL becomes the prefix
    "/__wds-outside-root__/", the number of "../" the path from the output
    root to the asset starts with, a "/", and what follows these "../";
    that rest does not start with "../" itself. *)
Theorem adjustAssetUrl_counts_leading_parents (cwd outputDir url outputFilePath : string) :
  is_relative_url url = true →
  ∃ n rest,
    Path.relative cwd outputDir (Path.join (Path.dirname outputFilePath) url)
    = parents n ++ rest
    ∧ String.prefix "../" rest = false
    ∧ adjustAssetUrl cwd outputDir url outputFilePath
      = outside_root_prefix ++ number_to_string n ++ "/" ++ rest.
Proof.
  intros Hrel. unfold adjustAssetUrl. rewrite Hrel. cbv zeta.
  destruct (strip_parent_prefixes_spec
              (Path.relative cwd outputDir (Path.join (Path.dirname outputFilePath) url)) 0)
    as (n & rest & Hrun & Hsplit & Hstop).
  exists n, rest. rewrite Hrun. by repeat split.
Qed.

Lemma adjustAssetUrl_counts_leading_parents_witness :
  ∃ n rest,
    Path.relative "/work" "/site/docs"
      (Path.join (Path.dirname "/site/docs/guides/index.html") "../../../assets/x.png")
    = parents n ++ rest
    ∧ String.prefix "../" rest = false
    ∧ adjustAssetUrl "/work" "/site/docs" "../../../assets/x.png"
        "/site/docs/guides/index.html"
      = outside_root_prefix ++ number_to_string n ++ "/" ++ rest.
Proof.
  exact (adjustAssetUrl_counts_leading_parents "/work" "/site/docs"
           "../../../assets/x.png" "/site/docs/guides/index.html" eq_refl).
Defined.

Lemma adjustAssetUrl_relative_prefix (cwd outputDir url outputFilePath : string) :
  is_relative_url url = true →
  ∃ tail, adjustAssetUrl cwd outputDir url outputFilePath = outside_root_prefix ++ tail.
Proof.
  intros Hrel. unfold adjustAssetUrl. rewrite Hrel. cbv zeta.
  destruct (strip_parent_prefixes 0 _) as [count rest]. by eexists.
Qed.

Lemma outside_root_not_relative (tail : string) :
  is_relative_url (outside_root_prefix ++ tail) = false.
Proof. reflexivity. Qed.

(** X2: rewriting is idempotent: a URL that went through [adjustAssetUrl]
    is left alone by a second pass, for whatever page the second pass is
    made. *)
Theorem adjustAssetUrl_idempotent (cwd outputDir url outputFilePath outputFilePath' : string) :
  adjustAssetUrl cwd outputDir
    (adjustAssetUrl cwd outputDir url outputFilePath) outputFilePath'
  = adjustAssetUrl cwd outputDir url outputFilePath.
Proof.
  destruct (is_relative_url url) eqn:Hrel.
  - destruct (adjustAssetUrl_relative_prefix cwd outputDir url outputFilePath Hrel)
      as (tail & ->).
    unfold adjustAssetUrl at 1. by rewrite outside_root_not_relative.
  - assert (adjustAssetUrl cwd outputDir url outputFilePath = url) as ->.
    { unfold adjustAssetUrl. by rewrite Hrel. }
    unfold adjustAssetUrl. by rewrite Hrel.
Qed.

Lemma join_only_parents (m : nat) :
  Path.join_segments (replicate (S m) "..") = parents m ++ "..".
Proof.
  induction m as [|m IH]; [reflexivity|].
  change (Path.join_segments (replicate (S (S m)) ".."))
    with ("../" ++ Path.join_segments (replicate (S m) "..")).
  by rewrite IH.
Qed.

(** X3: the edge the counting loop does not see.  When a relative URL
    points at the output root itself or at a directory above it, the path
    from the root is "", ".." or "../.." and so on, whose last ".." is not
    followed by "/": the number in the rewritten URL is then one less than
    the number of directories left, and ".." stays in the path (for the
    root itself: 0 and an empty path). *)
Theorem adjustAssetUrl_at_or_above_root (cwd outputDir url outputFilePath : string)
    (up : list string) :
  is_relative_url url = true →
  asset_location cwd outputDir url outputFilePath = (up, []) →
  adjustAssetUrl cwd outputDir url outputFilePath
  = outside_root_prefix ++ number_to_string (length up - 1) ++ "/"
    ++ (if up is [] then "" else "..").
Proof.
  intros Hrel Hloc. unfold adjustAssetUrl, asset_location in *.
  rewrite Hrel. cbv zeta. unfold Path.relative.
  destruct (String.eqb outputDir _) eqn:Heq.
  - apply String.eqb_eq in Heq. rewrite <- Heq in Hloc.
    rewrite strip_common_same in Hloc. by injection Hloc as <-.
  - rewrite Hloc, app_nil_r. destruct up as [|seg up]; [done|].
    cbn [length]. rewrite join_only_parents.
    rewrite (strip_parent_prefixes_parents _ 0) by done.
    by replace (S (length up) - 1)%nat with (length up) by lia.
Qed.

Lemma adjustAssetUrl_at_or_above_root_witness :
  adjustAssetUrl "/work" "/site/docs" "../.." "/site/docs/index.html"
  = "/__wds-outside-root__/1/..".
Proof.
  exact (adjustAssetUrl_at_or_above_root "/work" "/site/docs" "../.."
           "/site/docs/index.html" ["site"; "docs"] eq_refl eq_refl).
Defined.

End AssetUrlsMore.

(** ** More on the dev server callbacks *)

Section CallbacksMore.
Context `{Collaborators}.
Local Open Scope list_scope.
Local Open Scope nat_scope.

Implicit Types (w : World) (e : Engine) (evs : list Event).

(** X4: the [serve] hook answers with a body for one URL only,
    "/ws-register-tab.js"; the body is the registration module and nothing
    is touched.  For every other URL it answers nothing, so that the dev
    server goes on to serve the file from the output directory. *)
Theorem serve_body_only_for_register_tab (context : Context) w :
  (path context = "/ws-register-tab.js" →
   serve context w = Ok (Some register_tab_module) w)
  ∧ (∀ body w', serve context w = Ok (Some body) w' →
                path context = "/ws-register-tab.js"
                ∧ body = register_tab_module
                ∧ w' = w).
Proof.
  split.
  - intros Hpath. unfold serve. by rewrite Hpath.
  - intros body w'. unfold serve.
    destruct (String.eqb (path context) "/ws-register-tab.js") eqn:Hpath.
    { intros [= <- <-]. by apply String.eqb_eq in Hpath. }
    unfold getSourceFilePathFromUrl.
    erewrite bind_ok; [|reflexivity].
    destruct (truthy _); [|discriminate].
    erewrite bind_ok; [|reflexivity].
    erewrite bind_ok; [|reflexivity].
    destruct (negb _); [|discriminate].
    unfold bind at 1.
    destruct (call_updateRocketHeader _ _ _) as [[] w1|err w1]; [|discriminate].
    erewrite bind_ok; [|reflexivity].
    unfold bind at 1.
    destruct (try_catch _ _ _) as [[] w2|err w2]; discriminate.
Qed.

(** X5: when the first render of a saved page throws, the watch handler
    still completes, and it has called neither [pageTree.add] nor
    [pageTree.save]: the page tree is as it was, and the only calls are the
    header update and the one render. *)
Theorem watch_event_render_failure_skips_tree (sourceFilePath : string) w
    (err : Error) (d1 d2 : gset string) :
  updateRocketHeader sourceFilePath (docsDir (engine w)) (disk w) = Ok tt d1 →
  renderViaWorker (render_request (engine w) sourceFilePath) d1 = Throw err d2 →
  ∃ w',
    onPageSavedOrOpenedTabAndServerDependencyChanged sourceFilePath w = Ok tt w'
    ∧ pageTree w' = pageTree w
    ∧ disk w' = d2
    ∧ events_of (onPageSavedOrOpenedTabAndServerDependencyChanged sourceFilePath) w
      = [EvUpdateRocketHeader sourceFilePath; EvRenderViaWorker sourceFilePath].
Proof.
  intros Hheader Hrender.
  assert (∃ w', onPageSavedOrOpenedTabAndServerDependencyChanged sourceFilePath w = Ok tt w'
                ∧ pageTree w' = pageTree w ∧ disk w' = d2
                ∧ trace w' = trace w ++ [EvUpdateRocketHeader sourceFilePath;
                                         EvRenderViaWorker sourceFilePath])
    as (w' & Hrun & Ht & Hd & Htr).
  { unfold onPageSavedOrOpenedTabAndServerDependencyChanged.
    erewrite bind_ok; [|reflexivity].
    erewrite bind_ok; [|by rewrite call_updateRocketHeader_run, Hheader].
    unfold try_catch, render_and_register.
    erewrite bind_throw; [|by rewrite renderFile_run; simpl; rewrite Hrender].
    eexists. split; [reflexivity|]. simpl. by rewrite <- app_assoc. }
  exists w'. split; [done|]. split; [done|]. split; [done|].
  apply events_of_append. by rewrite Hrun.
Qed.

(** X6: when the first pass succeeds and asks for another pass, but the
    second render of the page throws, the handler completes without the
    sweep: no other page is rendered, and [needsAnotherRenderingPass] is
    left set. *)
Theorem watch_event_second_render_failure_keeps_flag (sourceFilePath : string) w
    (r2 : RenderResult) (err : Error) (d1 d2 d3 d4 d5 : gset string)
    (t3 t4 : PageTree TreeModel) :
  updateRocketHeader sourceFilePath (docsDir (engine w)) (disk w) = Ok tt d1 →
  renderViaWorker (render_request (engine w) sourceFilePath) d1 = Ok r2 d2 →
  PageTree_add (Path.relative process_cwd (docsDir (engine w)) sourceFilePath)
    (pageTree w, d2) = Ok tt (t3, d3) →
  PageTree_save (t3, d3) = Ok tt (t4, d4) →
  needsAnotherRenderingPass t4 = true →
  renderViaWorker (render_request (engine w) sourceFilePath) d4 = Throw err d5 →
  ∃ w',
    onPageSavedOrOpenedTabAndServerDependencyChanged sourceFilePath w = Ok tt w'
    ∧ needsAnotherRenderingPass (pageTree w') = true
    ∧ events_of (onPageSavedOrOpenedTabAndServerDependencyChanged sourceFilePath) w
      = [EvUpdateRocketHeader sourceFilePath]
        ++ first_pass_events sourceFilePath
             (Path.relative process_cwd (docsDir (engine w)) sourceFilePath)
        ++ [EvLogRendering
              (again_message
                 (Path.relative process_cwd (docsDir (engine w)) sourceFilePath));
            EvRenderViaWorker sourceFilePath]
    ∧ (∀ f, f ≠ sourceFilePath →
            renders_of f
              (events_of (onPageSavedOrOpenedTabAndServerDependencyChanged sourceFilePath)
                 w) = 0).
Proof.
  intros Hheader Hrender Hadd Hsave Hneeds Hagain.
  set (rel := Path.relative process_cwd (docsDir (engine w)) sourceFilePath) in *.
  assert (∃ w', onPageSavedOrOpenedTabAndServerDependencyChanged sourceFilePath w = Ok tt w'
                ∧ needsAnotherRenderingPass (pageTree w') = true
                ∧ trace w' = trace w
                             ++ [EvUpdateRocketHeader sourceFilePath]
                             ++ first_pass_events sourceFilePath rel
                             ++ [EvLogRendering (again_message rel);
                                 EvRenderViaWorker sourceFilePath])
    as (w' & Hrun & Hflag & Htr).
  { unfold onPageSavedOrOpenedTabAndServerDependencyChanged.
    erewrite bind_ok; [|reflexivity].
    erewrite bind_ok; [|by rewrite call_updateRocketHeader_run, Hheader].
    unfold try_catch, render_and_register. fold rel.
    erewrite bind_ok; [|by rewrite renderFile_run; simpl; rewrite Hrender].
    erewrite bind_ok; [|by rewrite pageTree_add_run; simpl; rewrite Hadd].
    erewrite bind_ok; [|by rewrite pageTree_save_run; simpl; rewrite Hsave].
    erewrite bind_ok; [|reflexivity]. simpl. rewrite Hneeds.
    erewrite bind_ok; [|reflexivity].
    erewrite bind_throw; [|by rewrite renderFile_run; simpl; rewrite Hagain].
    eexists. split; [reflexivity|]. simpl. split; [done|].
    unfold first_pass_events. by rewrite <- !app_assoc. }
  exists w'. split; [done|]. split; [done|].
  assert (events_of (onPageSavedOrOpenedTabAndServerDependencyChanged sourceFilePath) w
          = [EvUpdateRocketHeader sourceFilePath]
            ++ first_pass_events sourceFilePath rel
            ++ [EvLogRendering (again_message rel); EvRenderViaWorker sourceFilePath])
    as ->.
  { apply events_of_append. by rewrite Hrun. }
  split; [done|]. intros f Hf. unfold first_pass_events. count_events.
Qed.

Lemma sweep_events_keep (e : Engine) (trigger : string) (entries : list (string * Page)) :
  Forall (λ ev, ∀ p recursive, ev ≠ EvRm p recursive)
    (sweep_events e false trigger entries).
Proof.
  unfold sweep_events. induction entries as [|entry entries IH]; simpl; [done|].
  apply Forall_app_2; [|done]. unfold entry_events.
  destruct (is_trigger _ _); [done|].
  destruct (isOpenedInBrowser _); [|done].
  by repeat constructor.
Qed.

Lemma for_of_sweep_idle (trigger : string) (entries : list (string * Page)) w :
  (∀ f page, (f, page) ∈ entries → is_trigger trigger f = false →
             isOpenedInBrowser page = false) →
  for_of entries (renderAllOpenedFiles_entry false trigger) w = Ok tt w.
Proof.
  induction entries as [|[f page] entries IH]; intros Hidle; [done|].
  cbn [for_of].
  assert (renderAllOpenedFiles_entry false trigger (f, page) w = Ok tt w) as Hentry.
  { unfold renderAllOpenedFiles_entry.
    destruct (is_trigger trigger f) eqn:Htrig; [done|].
    by rewrite (Hidle f page (list_elem_of_here _ _) Htrig). }
  erewrite bind_ok; [|exact Hentry].
  apply IH. intros g page' Hin. apply Hidle. by apply list_elem_of_further.
Qed.

(** X7: [renderAllOpenedFiles({ deleteOtherFiles: false })] removes
    nothing; and when no tracked page other than the trigger is open, it
    does nothing at all. *)
Theorem sweep_without_delete_removes_nothing (trigger : string) w :
  (∃ w', renderAllOpenedFiles false trigger w = Ok tt w'
         ∧ Forall (λ ev, ∀ p recursive, ev ≠ EvRm p recursive)
             (events_of (renderAllOpenedFiles false trigger) w))
  ∧ ((∀ f page, (f, page) ∈ tracked_pages (engine w) → is_trigger trigger f = false →
                isOpenedInBrowser page = false) →
     renderAllOpenedFiles false trigger w = Ok tt w).
Proof.
  split.
  - destruct (renderAllOpenedFiles_run false trigger w) as (w' & Hrun & _ & _ & Htr).
    exists w'. split; [done|].
    erewrite events_of_append; [|by rewrite Hrun].
    apply sweep_events_keep.
  - intros Hidle. unfold renderAllOpenedFiles.
    erewrite bind_ok; [|reflexivity].
    unfold tracked_pages in Hidle.
    destruct (watcher (engine w)) as [wa|]; [|done].
    by apply for_of_sweep_idle.
Qed.

(** X8: [updateRocketHeader] is called outside the [try] blocks.  When it
    throws, the watch handler and the handler of a changed dependency throw
    with it; nothing is rendered, and the stale output file of the
    dependent page is not removed. *)
Theorem header_errors_propagate (sourceFilePath : string) w (err : Error)
    (d1 : gset string) :
  updateRocketHeader sourceFilePath (docsDir (engine w)) (disk w) = Throw err d1 →
  ∃ w',
    onPageSavedOrOpenedTabAndServerDependencyChanged sourceFilePath w = Throw err w'
    ∧ onPageServerDependencySaved sourceFilePath w = Throw err w'
    ∧ disk w' = d1
    ∧ pageTree w' = pageTree w
    ∧ trace w' = trace w ++ [EvUpdateRocketHeader sourceFilePath].
Proof.
  intros Hheader.
  exists (set_disk d1 (set_trace (trace w ++ [EvUpdateRocketHeader sourceFilePath]) w)).
  split; [|split; [|done]].
  - unfold onPageSavedOrOpenedTabAndServerDependencyChanged.
    erewrite bind_ok; [|reflexivity].
    erewrite bind_throw; [done|]. by rewrite call_updateRocketHeader_run, Hheader.
  - unfold onPageServerDependencySaved.
    erewrite bind_ok; [|reflexivity].
    erewrite bind_throw; [done|]. by rewrite call_updateRocketHeader_run, Hheader.
Qed.

(** Whatever happens in the two passes, the first thing they do is hand
    the page to the render worker. *)
Lemma render_and_register_starts (sourceFilePath rel : string) w :
  ∃ evs,
    trace (state_of (render_and_register sourceFilePath rel w))
    = trace w ++ EvRenderViaWorker sourceFilePath :: evs.
Proof.
  unfold render_and_register.
  destruct (renderFile sourceFilePath w) as [r w1|err w1] eqn:Hrender.
  2:{ erewrite bind_throw; [|exact Hrender]. exists [].
      rewrite renderFile_run in Hrender.
      destruct (renderViaWorker _ _); [discriminate|]. by injection Hrender as _ <-. }
  assert (trace w1 = trace w ++ [EvRenderViaWorker sourceFilePath]) as Htr1.
  { rewrite renderFile_run in Hrender.
    destruct (renderViaWorker _ _); [|discriminate]. by injection Hrender as _ <-. }
  assert (engine w1 = engine w) as He1.
  { rewrite renderFile_run in Hrender.
    destruct (renderViaWorker _ _); [|discriminate]. by injection Hrender as _ <-. }
  erewrite bind_ok; [|exact Hrender].
  assert (∀ (o : Outcome World unit) evs,
            trace (state_of o) = trace w1 ++ evs →
            ∃ evs', trace (state_of o)
                    = trace w ++ EvRenderViaWorker sourceFilePath :: evs') as Hwrap.
  { intros o evs ->. exists evs. by rewrite Htr1, <- app_assoc. }
  destruct (pageTree_add rel w1) as [[] w2|err w2] eqn:Hadd.
  2:{ erewrite bind_throw; [|exact Hadd]. apply (Hwrap _ [EvPageTreeAdd rel]).
      rewrite pageTree_add_run in Hadd.
      destruct (PageTree_add _ _) as [? [? ?]|? [? ?]]; [discriminate|].
      by injection Hadd as _ <-. }
  assert (trace w2 = trace w1 ++ [EvPageTreeAdd rel]) as Htr2.
  { rewrite pageTree_add_run in Hadd.
    destruct (PageTree_add _ _) as [? [? ?]|? [? ?]]; [|discriminate].
    by injection Hadd as _ <-. }
  erewrite bind_ok; [|exact Hadd].
  pose proof (pageTree_save_trace w2) as Htr3.
  destruct (pageTree_save w2) as [[] w3|err w3] eqn:Hsave; cbn [state_of] in Htr3.
  2:{ erewrite bind_throw; [|exact Hsave].
      apply (Hwrap _ [EvPageTreeAdd rel; EvPageTreeSave]).
      cbn [state_of]. by rewrite Htr3, Htr2, <- app_assoc. }
  erewrite bind_ok; [|exact Hsave].
  erewrite bind_ok; [|reflexivity].
  destruct (needsAnotherRenderingPass (pageTree w3)).
  2:{ apply (Hwrap _ [EvPageTreeAdd rel; EvPageTreeSave]).
      cbn [state_of ret]. by rewrite Htr3, Htr2, <- app_assoc. }
  erewrite bind_ok; [|reflexivity].
  match goal with
  | |- context [bind (renderFile sourceFilePath) _ ?w0] => set (w4 := w0)
  end.
  assert (trace w4 = trace w1 ++ [EvPageTreeAdd rel; EvPageTreeSave;
                                  EvLogRendering (again_message rel)]) as Htr4.
  { unfold w4. simpl. by rewrite Htr3, Htr2, <- !app_assoc. }
  destruct (renderFile sourceFilePath w4) as [r5 w5|err w5] eqn:Hagain.
  2:{ erewrite bind_throw; [|exact Hagain].
      apply (Hwrap _ [EvPageTreeAdd rel; EvPageTreeSave;
                      EvLogRendering (again_message rel);
                      EvRenderViaWorker sourceFilePath]).
      rewrite renderFile_run in Hagain.
      destruct (renderViaWorker _ _); [discriminate|]. injection Hagain as _ <-.
      cbn [state_of trace set_disk set_trace].
      by rewrite Htr3, Htr2, <- !app_assoc. }
  assert (trace w5 = trace w4 ++ [EvRenderViaWorker sourceFilePath]) as Htr5.
  { rewrite renderFile_run in Hagain.
    destruct (renderViaWorker _ _); [|discriminate]. by injection Hagain as _ <-. }
  erewrite bind_ok; [|exact Hagain].
  destruct (renderAllOpenedFiles_run true sourceFilePath w5)
    as (w6 & Hsweep & _ & _ & Htr6).
  erewrite bind_ok; [|exact Hsweep].
  eapply Hwrap. cbn [state_of set_needsAnotherRenderingPass set_pageTree trace].
  rewrite Htr6, Htr5, Htr4, <- !app_assoc. reflexivity.
Qed.

(** X9: invalidation and on-demand rendering compose.  After the handler
    of a changed dependency has completed for a page, the page's output
    file does not exist, so the next request whose URL resolves to that
    page goes into the on-demand branch: it updates the header and, when
    that succeeds, hands the page to the render worker and completes;
    when the header update throws, the request rejects before anything is
    rendered. *)
Theorem request_after_invalidation_renders (sourceFilePath : string)
    (context : Context) w w1 :
  onPageServerDependencySaved sourceFilePath w = Ok tt w1 →
  path context ≠ "/ws-register-tab.js" →
  urlToSourceFilePath (path context) (docsDir (engine w1)) (disk w1) = Some sourceFilePath →
  sourceFilePath ≠ "" →
  Fs.existsSync process_cwd (getOutputFilePath (engine w1) sourceFilePath) (disk w1) = false
  ∧ (∀ d2,
       updateRocketHeader sourceFilePath (docsDir (engine w1)) (disk w1) = Ok tt d2 →
       completes (serve context w1) = true
       ∧ ∃ evs,
           events_of (serve context) w1
           = [EvUpdateRocketHeader sourceFilePath;
              EvLogRendering
                (requested_message
                   (Path.relative process_cwd (docsDir (engine w1)) sourceFilePath));
              EvRenderViaWorker sourceFilePath] ++ evs)
  ∧ (∀ err d2,
       updateRocketHeader sourceFilePath (docsDir (engine w1)) (disk w1) = Throw err d2 →
       completes (serve context w1) = false
       ∧ events_of (serve context) w1 = [EvUpdateRocketHeader sourceFilePath]).
Proof.
  intros Hinvalidate Hpath Hurl Hne.
  assert (Fs.existsSync process_cwd (getOutputFilePath (engine w1) sourceFilePath) (disk w1)
          = false) as Hmissing.
  { unfold onPageServerDependencySaved in Hinvalidate.
    erewrite bind_ok in Hinvalidate; [|reflexivity].
    rewrite bind_run, call_updateRocketHeader_run in Hinvalidate.
    destruct (updateRocketHeader _ _ (disk w)) as [[] d|err d]; [|discriminate].
    rewrite deleteOutputOf_run in Hinvalidate. injection Hinvalidate as <-.
    simpl. apply rm_force_gone. }
  split; [done|].
  pose proof (serve_run_missing context w1 sourceFilePath Hpath Hurl Hne Hmissing) as Hrun.
  set (rel := Path.relative process_cwd (docsDir (engine w1)) sourceFilePath) in *.
  split.
  - intros d2 Hheader. rewrite Hheader in Hrun. split; [by rewrite Hrun|].
    match type of Hrun with
    | context [render_and_register _ _ ?w0] =>
        destruct (render_and_register_starts sourceFilePath rel w0) as (evs & Htr)
    end.
    exists evs. apply events_of_append. rewrite Hrun. cbn [state_of].
    rewrite Htr. cbn [reached trace]. by rewrite <- app_assoc.
  - intros err d2 Hheader. rewrite Hheader in Hrun. split; [by rewrite Hrun|].
    eapply events_of_reached. by rewrite Hrun.
Qed.

(** X10: removing the output of a deleted page is harmless when there is
    no output file, and idempotent: handling the deletion a second time
    leaves the disk as the first time left it. *)
Theorem page_deleted_twice (sourceFilePath : string) w :
  (Fs.existsSync process_cwd (getOutputFilePath (engine w) sourceFilePath) (disk w) = false →
   disk (state_of (onPageDeleted sourceFilePath w)) = disk w)
  ∧ disk (state_of (onPageDeleted sourceFilePath
                      (state_of (onPageDeleted sourceFilePath w))))
    = disk (state_of (onPageDeleted sourceFilePath w))
  ∧ completes (onPageDeleted sourceFilePath
                 (state_of (onPageDeleted sourceFilePath w))) = true.
Proof.
  rewrite !onPageDeleted_run. cbn [state_of reached disk engine completes].
  split; [apply rm_force_missing|]. split; [apply rm_force_twice|done].
Qed.

End CallbacksMore.
(** ** The constructor and [setOptions] *)

Section SetupMore.
Context {MP SP : Type}.

Implicit Types (this : Setup.Fields MP SP) (n : Setup.Options MP SP).

Lemma isAbsolute_inv (p : string) :
  Path.isAbsolute p = true → ∃ rest, p = String "/" rest.
Proof.
  unfold Path.isAbsolute. destruct p as [|c rest]; [discriminate|].
  cbn [String.prefix]. destruct (Ascii.ascii_dec "/" c) as [<-|]; [|discriminate].
  by eexists.
Qed.

Lemma isAbsolute_slash (rest : string) : Path.isAbsolute (String "/" rest) = true.
Proof.
  unfold Path.isAbsolute. cbn [String.prefix].
  destruct (Ascii.ascii_dec "/" "/"); [|done]. apply prefix_empty.
Qed.

Lemma normalize_absolute (p : string) :
  Path.isAbsolute p = true → Path.isAbsolute (Path.normalize p) = true.
Proof.
  intros Habs. destruct (isAbsolute_inv p Habs) as [rest ->].
  unfold Path.normalize. rewrite Habs.
  change (String.eqb (String "/" rest) "") with false. cbv iota.
  cbn [negb]. destruct (String.eqb _ ""); [done|].
  destruct (Path.ends_with_slash _); apply isAbsolute_slash.
Qed.

Lemma join_absolute (a b : string) :
  Path.isAbsolute a = true → Path.isAbsolute (Path.join a b) = true.
Proof.
  intros Habs. destruct (isAbsolute_inv a Habs) as [rest ->].
  unfold Path.join. change (String.eqb (String "/" rest) "") with false. cbv iota.
  destruct (String.eqb b ""); apply normalize_absolute; [done|apply isAbsolute_slash].
Qed.

Lemma join3_absolute (a b c : string) :
  Path.isAbsolute a = true → Path.isAbsolute (Setup.join3 a b c) = true.
Proof.
  intros Habs. destruct (isAbsolute_inv a Habs) as [rest ->].
  unfold Setup.join3. rewrite filter_cons_True by done.
  apply normalize_absolute.
  destruct (filter _ [b; c]) as [|x xs]; apply isAbsolute_slash.
Qed.

Lemma resolve_absolute (cwd p : string) : Path.isAbsolute (Setup.resolve cwd p) = true.
Proof. apply isAbsolute_slash. Qed.

Lemma directories_absolute (cwd : string) n :
  Path.isAbsolute cwd = true →
  Path.isAbsolute (Setup.directories cwd n).1.1 = true
  ∧ Path.isAbsolute (Setup.directories cwd n).1.2 = true
  ∧ Path.isAbsolute (Setup.directories cwd n).2 = true.
Proof.
  intros Hcwd. unfold Setup.directories. cbn [fst snd].
  assert (Path.isAbsolute
            (if truthy (Setup.docsDir n)
             then Setup.resolve cwd (template (Setup.docsDir n))
             else Path.join cwd "docs") = true) as Hdocs.
  { destruct (truthy _); [apply resolve_absolute|by apply join_absolute]. }
  split; [done|]. split.
  - destruct (truthy (Setup.outputDir n)); [apply resolve_absolute|].
    by apply join3_absolute.
  - by destruct (truthy (Setup.watchDir n)); [apply resolve_absolute|].
Qed.

(** X16: whatever directories the user passes (relative, with ".." or
    none at all), the three directories the engine works with are absolute
    paths, after the constructor and after every [setOptions]. *)
Theorem setOptions_directories_absolute (cwd : string) this n :
  Path.isAbsolute cwd = true →
  (Path.isAbsolute (Setup.this_docsDir (Setup.setOptions cwd this (Some n))) = true
   ∧ Path.isAbsolute (Setup.this_outputDir (Setup.setOptions cwd this (Some n))) = true
   ∧ Path.isAbsolute (Setup.this_watchDir (Setup.setOptions cwd this (Some n))) = true)
  ∧ (Path.isAbsolute (Setup.this_docsDir (Setup.constructor cwd n)) = true
     ∧ Path.isAbsolute (Setup.this_outputDir (Setup.constructor cwd n)) = true
     ∧ Path.isAbsolute (Setup.this_watchDir (Setup.constructor cwd n)) = true).
Proof.
  intros Hcwd.
  assert (∀ this' n',
            Path.isAbsolute (Setup.this_docsDir (Setup.setOptions cwd this' (Some n'))) = true
            ∧ Path.isAbsolute (Setup.this_outputDir (Setup.setOptions cwd this' (Some n')))
              = true
            ∧ Path.isAbsolute (Setup.this_watchDir (Setup.setOptions cwd this' (Some n')))
              = true) as Hset.
  { intros this' n'. unfold Setup.setOptions. cbv zeta.
    match goal with
    | |- context [Setup.directories cwd ?o] =>
        pose proof (directories_absolute cwd o Hcwd) as Habs;
        destruct (Setup.directories cwd o) as [[docs output] watch]
    end.
    exact Habs. }
  split; [apply Hset|]. unfold Setup.constructor. apply Hset.
Qed.

(** X17: [setupPlugins] accumulate, the later ones first.  The
    constructor keeps the user's list; a later [setOptions] puts its list in
    front of what is there, and keeps what is there when it brings none; and
    passing the engine's own options back in doubles the list. *)
Theorem setOptions_accumulates_setupPlugins (cwd : string) this n :
  Setup.setupPlugins (Setup.this_options (Setup.constructor cwd n))
  = Some (default [] (Setup.setupPlugins n))
  ∧ Setup.setupPlugins (Setup.this_options (Setup.setOptions cwd this (Some n)))
    = Some (default [] (Setup.setupPlugins n)
            ++ default [] (Setup.setupPlugins (Setup.this_options this)))%list
  ∧ Setup.setupPlugins
      (Setup.this_options
         (Setup.setOptions cwd this (Some (Setup.this_options this))))
    = Some (default [] (Setup.setupPlugins (Setup.this_options this))
            ++ default [] (Setup.setupPlugins (Setup.this_options this)))%list.
Proof.
  assert (∀ this' n',
            Setup.setupPlugins (Setup.this_options (Setup.setOptions cwd this' (Some n')))
            = Some (default [] (Setup.setupPlugins n')
                    ++ default [] (Setup.setupPlugins (Setup.this_options this')))%list)
    as Hset.
  { intros this' n'. unfold Setup.setOptions. cbv zeta.
    by destruct (Setup.directories cwd _) as [[docs output] watch]. }
  split; [|split; apply Hset].
  unfold Setup.constructor. rewrite Hset. cbn.
  destruct (Setup.setupPlugins n) as [l|]; cbn; by rewrite ?app_nil_r.
Qed.

Lemma setOptions_directories (cwd : string) this n :
  (Setup.this_docsDir (Setup.setOptions cwd this (Some n)),
   Setup.this_outputDir (Setup.setOptions cwd this (Some n)),
   Setup.this_watchDir (Setup.setOptions cwd this (Some n)))
  = Setup.directories cwd (Setup.this_options (Setup.setOptions cwd this (Some n)))
  ∧ Setup.docsDir (Setup.this_options (Setup.setOptions cwd this (Some n)))
    = Setup.pick (Setup.docsDir (Setup.this_options this)) (Setup.docsDir n)
  ∧ Setup.outputDir (Setup.this_options (Setup.setOptions cwd this (Some n)))
    = Setup.pick (Setup.outputDir (Setup.this_options this)) (Setup.outputDir n)
  ∧ Setup.watchDir (Setup.this_options (Setup.setOptions cwd this (Some n)))
    = Setup.pick (Setup.watchDir (Setup.this_options this)) (Setup.watchDir n).
Proof.
  unfold Setup.setOptions. cbv zeta.
  by destruct (Setup.directories cwd _) as [[docs output] watch].
Qed.

Lemma directories_ext (cwd : string) (o o' : Setup.Options MP SP) :
  Setup.docsDir o = Setup.docsDir o' →
  Setup.outputDir o = Setup.outputDir o' →
  Setup.watchDir o = Setup.watchDir o' →
  Setup.directories cwd o = Setup.directories cwd o'.
Proof. intros Hd Ho Hw. unfold Setup.directories. by rewrite Hd, Ho, Hw. Qed.

(** X18: a falsy argument changes nothing, and a [setOptions] that names
    no directory keeps the directories of the [setOptions] before it. *)
Theorem setOptions_keeps_directories (cwd : string) this (first n : Setup.Options MP SP) :
  Setup.setOptions cwd this None = this
  ∧ (Setup.docsDir n = None → Setup.outputDir n = None → Setup.watchDir n = None →
     Setup.this_docsDir
       (Setup.setOptions cwd (Setup.setOptions cwd this (Some first)) (Some n))
     = Setup.this_docsDir (Setup.setOptions cwd this (Some first))
     ∧ Setup.this_outputDir
         (Setup.setOptions cwd (Setup.setOptions cwd this (Some first)) (Some n))
       = Setup.this_outputDir (Setup.setOptions cwd this (Some first))
     ∧ Setup.this_watchDir
         (Setup.setOptions cwd (Setup.setOptions cwd this (Some first)) (Some n))
       = Setup.this_watchDir (Setup.setOptions cwd this (Some first))).
Proof.
  split; [done|]. intros Hdocs Houtput Hwatch.
  pose proof (setOptions_directories cwd this first) as (Hdirs1 & Hd1 & Ho1 & Hw1).
  pose proof (setOptions_directories cwd (Setup.setOptions cwd this (Some first)) n)
    as (Hdirs2 & Hd2 & Ho2 & Hw2).
  rewrite Hdocs in Hd2. rewrite Houtput in Ho2. rewrite Hwatch in Hw2.
  cbn [Setup.pick] in Hd2, Ho2, Hw2.
  rewrite (directories_ext cwd _ _ Hd2 Ho2 Hw2), <- Hdirs1 in Hdirs2.
  by injection Hdirs2 as Ha Hb Hc.
Qed.

Local Arguments String.append !_ _ / : simpl nomatch.

Lemma normalize_step_tidy (res : list string) (seg : string) :
  Forall tidy res → has_slash seg = false →
  Forall tidy (Path.normalize_step false res seg).
Proof.
  intros Hres Hseg. unfold Path.normalize_step.
  destruct (String.eqb seg "") eqn:He; [done|].
  destruct (String.eqb seg ".") eqn:Hd; [done|]. cbn [orb].
  destruct (String.eqb seg "..") eqn:Hdd.
  - destruct res as [|l before]; [done|].
    destruct (String.eqb l ".."); [done|]. by inversion Hres.
  - constructor; [|done].
    apply String.eqb_neq in He, Hd, Hdd. by repeat split.
Qed.

Lemma resolveSegments_tidy (cwd p : string) : Forall tidy (Path.resolveSegments cwd p).
Proof.
  assert (∀ segs res, Forall tidy res → Forall (λ seg, has_slash seg = false) segs →
                      Forall tidy (foldl (Path.normalize_step false) res segs)) as Hfold.
  { induction segs as [|seg segs IH]; intros res Hres Hsegs; [done|].
    inversion Hsegs; subst. simpl. apply IH; [|done]. by apply normalize_step_tidy. }
  unfold Path.resolveSegments, Path.normalizeSegments.
  destruct (Path.isAbsolute p); apply Forall_reverse, Hfold; auto using split_no_slash.
Qed.

Lemma normalize_step_push (res : list string) (seg : string) :
  tidy seg → Path.normalize_step false res seg = seg :: res.
Proof.
  intros (He & Hd & Hdd & _). unfold Path.normalize_step.
  apply String.eqb_neq in He, Hd, Hdd. by rewrite He, Hd, Hdd.
Qed.

Lemma foldl_tidy (segs res : list string) :
  Forall tidy segs →
  foldl (Path.normalize_step false) res segs = (reverse segs ++ res)%list.
Proof.
  revert res. induction segs as [|seg segs IH]; intros res Hsegs; [done|].
  inversion Hsegs; subst. simpl. rewrite normalize_step_push, IH by done.
  by rewrite reverse_cons, <- app_assoc.
Qed.

Lemma split_segment (a b : string) :
  has_slash a = false → Path.split (a ++ String "/" b) = a :: Path.split b.
Proof.
  induction a as [|c a IH]; intros Hslash; [done|].
  simpl in Hslash. apply orb_false_elim in Hslash as [Hc Ha].
  simpl. rewrite Hc, IH by done. done.
Qed.

Lemma split_joined (segs : list string) (b : string) :
  Forall tidy segs → segs ≠ [] →
  Path.split (Path.join_segments segs ++ String "/" b) = (segs ++ Path.split b)%list.
Proof.
  induction segs as [|seg segs IH]; intros Hsegs Hne; [done|].
  inversion Hsegs as [|? ? (_ & _ & _ & Hslash) Hrest]; subst.
  destruct segs as [|seg' segs].
  - simpl. by apply split_segment.
  - change (Path.join_segments (seg :: seg' :: segs))
      with (seg ++ String "/" (Path.join_segments (seg' :: segs))).
    assert (∀ x y z : string, (x ++ y) ++ z = x ++ (y ++ z)) as Hassoc.
    { intros x y z. induction x as [|c x IHx]; simpl; [done|]. by rewrite IHx. }
    rewrite Hassoc. change (String "/" (Path.join_segments (seg' :: segs)) ++ String "/" b)
      with (String "/" (Path.join_segments (seg' :: segs) ++ String "/" b)).
    rewrite split_segment by done. by rewrite IH.
Qed.

Lemma rev_snoc (s : string) (c : ascii) :
  String.rev (s ++ String c "") = String c (String.rev s).
Proof.
  assert (∀ acc, String.rev_app (s ++ String c "") acc
                 = String c (String.rev_app s acc)) as Hacc; [|apply Hacc].
  induction s as [|x s IH]; intros acc; [reflexivity|].
  simpl. apply IH.
Qed.

Lemma join_segments_snoc_nonempty (segs : list string) :
  Path.join_segments (segs ++ ["_site-dev"]) ≠ "".
Proof.
  destruct segs as [|seg [|seg' segs]]; [done|..]; simpl; by destruct seg.
Qed.

(** The default output directory, from the segments of the docs
    directory. *)
Lemma join3_sibling (segs : list string) :
  Forall tidy segs →
  Setup.join3 ("/" ++ Path.join_segments segs) ".." "_site-dev"
  = "/" ++ Path.join_segments (take (length segs - 1) segs ++ ["_site-dev"]).
Proof.
  intros Hsegs. unfold Setup.join3.
  rewrite !filter_cons_True by (try done; simpl; discriminate).
  rewrite filter_nil.
  set (p := Path.join_segments ["/" ++ Path.join_segments segs; ".."; "_site-dev"]).
  assert (p = String "/" (Path.join_segments segs ++ String "/" "../_site-dev")) as Hp.
  { unfold p. simpl. f_equal. }
  assert (Path.ends_with_slash p = false) as Htrail.
  { rewrite Hp. unfold Path.ends_with_slash.
    assert (∀ x : string, String "/" (x ++ String "/" "../_site-dev")
                          = (String "/" (x ++ String "/" "../_site-de")) ++ String "v" "")
      as Hsnoc.
    { intros x. simpl. f_equal. induction x as [|c x IH]; simpl; [done|]. by rewrite IH. }
    by rewrite Hsnoc, rev_snoc. }
  assert (Path.normalizeSegments p false
          = (take (length segs - 1) segs ++ ["_site-dev"])%list) as Hnorm.
  { unfold Path.normalizeSegments. rewrite Hp.
    change (Path.split (String "/" (Path.join_segments segs ++ String "/" "../_site-dev")))
      with ("" :: Path.split (Path.join_segments segs ++ String "/" "../_site-dev")).
    destruct (decide (segs = [])) as [->|Hne]; [done|].
    rewrite split_joined by done.
    change (Path.split "../_site-dev") with [".."; "_site-dev"].
    cbn [foldl]. change (Path.normalize_step false [] "") with (@nil string).
    rewrite foldl_app, (foldl_tidy segs), app_nil_r by done.
    destruct (reverse segs) as [|leaf rparent] eqn:Hrev.
    { apply (f_equal reverse) in Hrev. rewrite reverse_involutive in Hrev. done. }
    assert (segs = (reverse rparent ++ [leaf])%list) as ->.
    { apply (f_equal reverse) in Hrev.
      by rewrite reverse_involutive, reverse_cons in Hrev. }
    apply Forall_app in Hsegs as [_ Hleaf]. inversion Hleaf as [|? ? (_ & _ & Hdd & _) _].
    subst. cbn [foldl].
    change (Path.normalize_step false (leaf :: rparent) "..")
      with (if String.eqb leaf ".." then leaf :: rparent else rparent).
    apply String.eqb_neq in Hdd. rewrite Hdd.
    change (Path.normalize_step false rparent "_site-dev") with ("_site-dev" :: rparent).
    rewrite reverse_cons.
    rewrite length_app. cbn [length].
    replace (length (reverse rparent) + 1 - 1)%nat with (length (reverse rparent)) by lia.
    by rewrite take_app_length. }
  unfold Path.normalize.
  assert (String.eqb p "" = false) as -> by (by rewrite Hp).
  assert (Path.isAbsolute p = true) as -> by (rewrite Hp; apply isAbsolute_slash).
  rewrite Htrail. cbn [negb]. unfold Path.normalizeString. rewrite Hnorm.
  destruct (String.eqb _ "") eqn:Hempty; [|done].
  apply String.eqb_eq in Hempty. by apply join_segments_snoc_nonempty in Hempty.
Qed.

(** X19: when the user gives a docs directory and no output directory,
    the output directory is "_site-dev" next to the docs directory: the
    resolved docs directory with its last segment replaced (and
    "/_site-dev" when the docs directory is the root). *)
Theorem setOptions_default_outputDir_is_sibling (cwd : string) this n (docs : string) :
  Setup.pick (Setup.docsDir (Setup.this_options this)) (Setup.docsDir n) = Some docs →
  docs ≠ "" →
  truthy (Setup.pick (Setup.outputDir (Setup.this_options this)) (Setup.outputDir n))
  = false →
  Setup.this_docsDir (Setup.setOptions cwd this (Some n))
  = "/" ++ Path.join_segments (Path.resolveSegments cwd docs)
  ∧ Setup.this_outputDir (Setup.setOptions cwd this (Some n))
    = "/" ++ Path.join_segments
               (take (length (Path.resolveSegments cwd docs) - 1)
                  (Path.resolveSegments cwd docs)
                ++ ["_site-dev"]).
Proof.
  intros Hdocs Hne Houtput.
  unfold Setup.setOptions, Setup.directories, Setup.spread. cbn.
  rewrite Hdocs, Houtput. cbn.
  apply String.eqb_neq in Hne. rewrite Hne. cbn.
  split; [done|]. apply join3_sibling, resolveSegments_tidy.
Qed.

End SetupMore.

(** ** Where the output files lie *)

Section OutputPaths.
Context `{Collaborators}.

Local Arguments String.append !_ _ / : simpl nomatch.

Lemma string_append_assoc (x y z : string) : (x ++ y) ++ z = x ++ (y ++ z).
Proof. induction x as [|c x IH]; simpl; [done|]. by rewrite IH. Qed.

Lemma split_plain (a : string) : has_slash a = false → Path.split a = [a].
Proof.
  induction a as [|c a IH]; intros Hslash; [done|].
  simpl in Hslash. apply orb_false_elim in Hslash as [Hc Ha].
  simpl. by rewrite Hc, IH.
Qed.

Lemma split_join (segs : list string) :
  Forall tidy segs → segs ≠ [] → Path.split (Path.join_segments segs) = segs.
Proof.
  induction segs as [|seg segs IH]; intros Hsegs Hne; [done|].
  inversion Hsegs as [|? ? (_ & _ & _ & Hslash) Hrest]; subst.
  destruct segs as [|seg' segs]; [by apply split_plain|].
  change (Path.join_segments (seg :: seg' :: segs))
    with (seg ++ String "/" (Path.join_segments (seg' :: segs))).
  rewrite split_segment by done. by rewrite IH.
Qed.

Lemma join_segments_app (xs ys : list string) :
  xs ≠ [] → ys ≠ [] →
  Path.join_segments (xs ++ ys)
  = Path.join_segments xs ++ String "/" (Path.join_segments ys).
Proof.
  intros Hxs Hys. induction xs as [|x xs IH]; [done|].
  destruct xs as [|x' xs].
  - destruct ys as [|y ys]; [done|]. reflexivity.
  - change (Path.join_segments ((x :: x' :: xs) ++ ys))
      with (x ++ String "/" (Path.join_segments ((x' :: xs) ++ ys))).
    rewrite IH by done.
    change (Path.join_segments (x :: x' :: xs))
      with (x ++ String "/" (Path.join_segments (x' :: xs))).
    by rewrite string_append_assoc.
Qed.

Lemma string_snoc (s : string) :
  s ≠ "" → ∃ s' c, s = s' ++ String c "".
Proof.
  induction s as [|x s IH]; [done|]. intros _.
  destruct s as [|y s]; [by exists "", x|].
  destruct IH as (s' & c & Hs); [done|].
  exists (String x s'), c. simpl. by rewrite <- Hs.
Qed.

Lemma has_slash_app (a b : string) :
  has_slash (a ++ b) = has_slash a || has_slash b.
Proof.
  induction a as [|c a IH]; simpl; [done|]. by rewrite IH, orb_assoc.
Qed.

Lemma join_segments_last (segs : list string) :
  Forall tidy segs → segs ≠ [] →
  ∃ s c, Path.join_segments segs = s ++ String c "" ∧ Path.is_slash c = false.
Proof.
  induction segs as [|seg segs IH]; intros Hsegs Hne; [done|].
  inversion Hsegs as [|? ? (Hempty & _ & _ & Hslash) Hrest]; subst.
  destruct segs as [|seg' segs].
  - destruct (string_snoc seg Hempty) as (s & c & ->). exists s, c. split; [done|].
    rewrite has_slash_app in Hslash. apply orb_false_elim in Hslash as [_ Hc].
    simpl in Hc. by rewrite orb_false_r in Hc.
  - destruct IH as (s & c & Hs & Hc); [done..|].
    exists (seg ++ String "/" s), c. split; [|done].
    change (Path.join_segments (seg :: seg' :: segs))
      with (seg ++ String "/" (Path.join_segments (seg' :: segs))).
    rewrite Hs. by rewrite string_append_assoc.
Qed.

Lemma prefix_append (a b : string) : String.prefix a (a ++ b) = true.
Proof.
  induction a as [|c a IH]; [apply prefix_empty|].
  simpl. cbn [String.prefix]. by destruct (Ascii.ascii_dec c c).
Qed.

(** [path.join] of a resolved directory and a relative path made of
    names only appends the path. *)
Lemma join_below (dsegs segs : list string) :
  Forall tidy dsegs → Forall tidy segs → dsegs ≠ [] → segs ≠ [] →
  Path.join (String "/" (Path.join_segments dsegs)) (Path.join_segments segs)
  = String "/" (Path.join_segments dsegs) ++ String "/" (Path.join_segments segs).
Proof.
  intros Hdsegs Hsegs Hdne Hne. unfold Path.join.
  change (String.eqb (String "/" (Path.join_segments dsegs)) "") with false. cbv iota.
  destruct (join_segments_last segs Hsegs Hne) as (s & c & Hs & Hc).
  assert (String.eqb (Path.join_segments segs) "" = false) as ->.
  { rewrite Hs. apply String.eqb_neq. by destruct s. }
  set (p := String "/" (Path.join_segments dsegs) ++ "/" ++ Path.join_segments segs).
  assert (p = String "/" (Path.join_segments dsegs ++ String "/" (Path.join_segments segs)))
    as Hp by done.
  assert (Path.ends_with_slash p = false) as Htrail.
  { rewrite Hp, Hs. unfold Path.ends_with_slash.
    replace (String "/" (Path.join_segments dsegs ++ String "/" (s ++ String c "")))
      with ((String "/" (Path.join_segments dsegs ++ String "/" s)) ++ String c "").
    - by rewrite rev_snoc.
    - simpl. f_equal. rewrite string_append_assoc. done. }
  assert (Path.normalizeSegments p false = (dsegs ++ segs)%list) as Hnorm.
  { unfold Path.normalizeSegments. rewrite Hp.
    change (Path.split (String "/" (Path.join_segments dsegs
                                    ++ String "/" (Path.join_segments segs))))
      with ("" :: Path.split (Path.join_segments dsegs
                              ++ String "/" (Path.join_segments segs))).
    rewrite split_joined, split_join by done.
    cbn [foldl]. change (Path.normalize_step false [] "") with (@nil string).
    rewrite foldl_tidy by (by apply Forall_app_2).
    by rewrite app_nil_r, reverse_involutive. }
  unfold Path.normalize.
  assert (String.eqb p "" = false) as -> by (by rewrite Hp).
  assert (Path.isAbsolute p = true) as -> by (rewrite Hp; apply isAbsolute_slash).
  rewrite Htrail. cbn [negb]. unfold Path.normalizeString. rewrite Hnorm.
  rewrite join_segments_app by done.
  destruct (String.eqb _ "") eqn:Hempty; [|done].
  apply String.eqb_eq in Hempty.
  destruct (Path.join_segments dsegs); discriminate.
Qed.

(** A resolved path resolves to its own segments. *)
Lemma resolveSegments_canonical (cwd : string) (segs : list string) :
  Forall tidy segs →
  Path.resolveSegments cwd (String "/" (Path.join_segments segs)) = segs.
Proof.
  intros Hsegs. unfold Path.resolveSegments. rewrite isAbsolute_slash.
  unfold Path.normalizeSegments.
  change (Path.split (String "/" (Path.join_segments segs)))
    with ("" :: Path.split (Path.join_segments segs)).
  destruct (decide (segs = [])) as [->|Hne]; [done|].
  rewrite split_join by done. cbn [foldl].
  change (Path.normalize_step false [] "") with (@nil string).
  by rewrite foldl_tidy, app_nil_r, reverse_involutive.
Qed.

(** Resolving twice is resolving once. *)
Lemma resolve_idempotent (cwd p : string) :
  Path.resolveSegments cwd (Path.resolve cwd p) = Path.resolveSegments cwd p.
Proof. apply resolveSegments_canonical, resolveSegments_tidy. Qed.

Lemma starts_with_app (pre rest : list string) : Fs.starts_with pre (pre ++ rest) = true.
Proof.
  induction pre as [|x pre IH]; [done|]. simpl. by rewrite String.eqb_refl, IH.
Qed.

(** A path lies within itself, however it is written. *)
Lemma within_resolve (cwd p : string) : Fs.within cwd p (Path.resolve cwd p) = true.
Proof.
  unfold Fs.within. rewrite resolve_idempotent.
  rewrite <- (app_nil_r (Path.resolveSegments cwd p)) at 2. apply starts_with_app.
Qed.

(** *** [path.join] after [path.relative] *)



















(** X20: the output file of a page lies below the output directory.
    When the output directory is a resolved path ("/" and names) and the
    path converter answers with a relative path made of names only,
    [getOutputFilePath] is the output directory, "/", and that path; so
    [deleteOutputOf] and the existence test of [serve] never reach outside
    the output directory. *)
Theorem getOutputFilePath_below_outputDir (e : Engine) (sourceFilePath : string)
    (dsegs segs : list string) :
  outputDir e = String "/" (Path.join_segments dsegs) →
  sourceRelativeFilePathToOutputRelativeFilePath
    (Path.relative process_cwd (docsDir e) sourceFilePath)
  = Path.join_segments segs →
  Forall tidy dsegs → Forall tidy segs → dsegs ≠ [] → segs ≠ [] →
  getOutputFilePath e sourceFilePath
  = outputDir e ++ String "/" (Path.join_segments segs)
  ∧ Fs.below process_cwd (outputDir e) (getOutputFilePath e sourceFilePath) = true.
Proof.
  intros Hout Hrel Hdsegs Hsegs Hdne Hne.
  assert (getOutputFilePath e sourceFilePath
          = outputDir e ++ String "/" (Path.join_segments segs)) as Hpath.
  { unfold getOutputFilePath. rewrite Hrel, Hout. by apply join_below. }
  split; [done|]. rewrite Hpath, Hout. unfold Fs.below, Fs.within.
  replace (String "/" (Path.join_segments dsegs) ++ String "/" (Path.join_segments segs))
    with (String "/" (Path.join_segments (dsegs ++ segs)))
    by (by rewrite join_segments_app).
  rewrite !resolveSegments_canonical by (try apply Forall_app_2; done).
  rewrite starts_with_app, length_app. cbn [andb].
  apply Nat.ltb_lt. destruct segs; [done|]. simpl. lia.
Qed.

End OutputPaths.

(** ** Deleted pages *)

Section DeletedPages.
Context (cwd : string)
  (mkdir : string → gset string → Outcome (gset string) unit)
  (copy : string → string → gset string → Outcome (gset string) unit)
  (toOutput : string → string)
  (toSource : string → string → gset string → option string)
  (gather : string → gset string → Outcome (gset string) (list string))
  (header : string → string → gset string → Outcome (gset string) unit)
  (render : RenderRequest → gset string → Outcome (gset string) RenderResult)
  (MP : Type)
  (apply : EngineOptions MP → list MP → EngineOptions MP).
Local Open Scope list_scope.

(** The engine with the page tree of the specification; every other
    collaborator is arbitrary. *)
Local Notation "'Site'" :=
  (Sample.with_page_tree cwd mkdir copy toOutput toSource gather header render MP apply)
  (only parsing).


End DeletedPages.

(** ** More on [prepare] and [build] *)

Section BuildMore.
Context `{Collaborators}.
Local Open Scope list_scope.
Local Open Scope nat_scope.

Implicit Types (w : World) (e : Engine) (evs : list Event).

Lemma rm_recursive_keeps_outside (cwd dir : string) (d : gset string) :
  keeps_outside cwd dir d (Fs.rm_recursive_force cwd dir d).
Proof. intros q Hq Hout. unfold Fs.rm_recursive_force. by apply elem_of_filter. Qed.

(** X11: [prepare] never removes a path outside the output directory.
    Whatever the options and the plugins, and whether it completes or
    throws, its only call of [rm] is the recursive one on the output
    directory; so, as long as [mkdir] and [fse.copy] remove nothing, every
    path that is neither the output directory nor below it is still there
    afterwards. *)
Theorem prepare_never_deletes_outside_output (clear : bool) w :
  Forall (prepare_call (outputDir (engine w))) (events_of (prepare clear) w)
  ∧ ((∀ p d q, q ∈ d → q ∈ left_by (fsPromises_mkdir p d)) →
     (∀ src dst d q, q ∈ d → q ∈ left_by (fsExtra_copy src dst d)) →
     ∀ q, q ∈ disk w →
          Fs.within process_cwd (outputDir (engine w)) q = false →
          q ∈ disk (state_of (prepare clear w))).
Proof.
  split.
  - eapply framed_events, prepare_calls.
  - intros Hmkdir Hcopy.
    destruct (prepare_framed (λ _, True)
                (keeps_outside process_cwd (outputDir (engine w))) clear w)
      as (_ & _ & _ & _ & Hkeep); try done.
    + intros p d q Hq _. by apply Hmkdir.
    + intros src dst d q Hq _. by apply Hcopy.
    + intros _ _. split; [done|]. intros d. apply rm_recursive_keeps_outside.
Qed.

(** X12: [prepare] removes something only when the output directory
    exists and [clearOutputDir] is set.  With [clearOutputDir: false], or
    when the output directory does not exist yet, it calls no [rm], whether
    it completes or throws; so, as long as [mkdir] and [fse.copy] remove
    nothing, every path on the disk stays. *)
Theorem prepare_without_clearing_keeps_everything (clear : bool) w :
  clear = false
  ∨ Fs.existsSync process_cwd (outputDir (engine w)) (disk w) = false →
  Forall (λ ev, is_rm ev = false) (events_of (prepare clear) w)
  ∧ ((∀ p d, d ⊆ left_by (fsPromises_mkdir p d)) →
     (∀ src dst d, d ⊆ left_by (fsExtra_copy src dst d)) →
     disk w ⊆ disk (state_of (prepare clear w))).
Proof.
  intros Hcase.
  assert (clear = true →
          Fs.existsSync process_cwd (outputDir (engine w)) (disk w) = true → False)
    as Hnever.
  { intros -> Hpresent. destruct Hcase; congruence. }
  split.
  - eapply framed_events.
    apply (prepare_framed (λ ev, is_rm ev = false) any_disk); try done.
    intros Hclear Hpresent. destruct (Hnever Hclear Hpresent).
  - intros Hmkdir Hcopy.
    destruct (prepare_framed (λ _, True) (⊆) clear w) as (_ & _ & _ & _ & Hkeep);
      try done.
    intros Hclear Hpresent. destruct (Hnever Hclear Hpresent).
Qed.


(** [prepare] neither reads nor writes the page tree. *)
Lemma blind_bind {A B} (t : PageTree TreeModel) (m : M A) (k : A → M B) w :
  m (set_pageTree t w) = outcome_map (set_pageTree t) (m w) →
  (∀ a w1, m w = Ok a w1 →
           k a (set_pageTree t w1) = outcome_map (set_pageTree t) (k a w1)) →
  bind m k (set_pageTree t w) = outcome_map (set_pageTree t) (bind m k w).
Proof.
  intros Hm Hk. rewrite !bind_run, Hm.
  destruct (m w) as [a w1|err w1]; cbn [outcome_map]; [by apply Hk|done].
Qed.

Lemma blind_get {B} (t : PageTree TreeModel) (k : World → M B) w :
  k (set_pageTree t w) (set_pageTree t w) = outcome_map (set_pageTree t) (k w w) →
  bind get k (set_pageTree t w) = outcome_map (set_pageTree t) (bind get k w).
Proof. by rewrite !bind_run. Qed.

Lemma blind_call {A} (t : PageTree TreeModel) (ev : Event)
    (f : gset string → Outcome (gset string) A) w :
  bind (emit ev) (λ _, on_disk f) (set_pageTree t w)
  = outcome_map (set_pageTree t) (bind (emit ev) (λ _, on_disk f) w).
Proof.
  rewrite !bind_run. unfold emit, on_disk. cbn [disk set_trace set_pageTree].
  by destruct (f (disk w)) as [a d|err d].
Qed.

Lemma prepare_plugin_set_pageTree (plugin : Plugin) (t : PageTree TreeModel) w :
  prepare_plugin plugin (set_pageTree t w)
  = outcome_map (set_pageTree t) (prepare_plugin plugin w).
Proof.
  unfold prepare_plugin. apply blind_get. cbn [disk engine set_pageTree].
  destruct (truthy _ && _); [apply blind_call|done].
Qed.

Lemma prepare_plugins_set_pageTree (ps : list Plugin) (t : PageTree TreeModel) w :
  for_of ps prepare_plugin (set_pageTree t w)
  = outcome_map (set_pageTree t) (for_of ps prepare_plugin w).
Proof.
  revert w. induction ps as [|plugin ps IH]; intros w; cbn [for_of]; [done|].
  apply blind_bind; [apply prepare_plugin_set_pageTree|]. intros [] w1 _. apply IH.
Qed.

Lemma prepare_set_pageTree (clear : bool) (t : PageTree TreeModel) w :
  prepare clear (set_pageTree t w) = outcome_map (set_pageTree t) (prepare clear w).
Proof.
  unfold prepare. apply blind_get. cbn [engine set_pageTree].
  apply blind_bind; [done|]. intros [] w1 _.
  apply blind_bind; [done|]. intros [] w2 _.
  apply blind_bind; [done|]. intros present w3 _.
  apply blind_bind.
  { destruct (negb present); [apply blind_call|]. by destruct clear. }
  intros [] w4 _.
  apply blind_bind; [done|]. intros present' w5 _.
  apply blind_bind.
  { destruct present'; [apply blind_call|done]. }
  intros [] w6 _. apply blind_get. cbn [engine set_pageTree].
  destruct (plugins _) as [ps|]; [apply prepare_plugins_set_pageTree|done].
Qed.

(** X14: a build starts from a new, empty page tree.  The page tree
    object that is in scope when [build] is called has no influence on the
    calls the build makes, on the disk it leaves, or on whether it
    completes; and once [prepare] is through, the build ends in the very
    same state.  When [prepare] throws, the build throws the same error
    before it has made its page tree, and the two runs differ in nothing
    but the page tree object they started with. *)
Theorem build_ignores_current_tree (t : PageTree TreeModel) w :
  events_of build (set_pageTree t w) = events_of build w
  ∧ completes (build (set_pageTree t w)) = completes (build w)
  ∧ disk (state_of (build (set_pageTree t w))) = disk (state_of (build w))
  ∧ (completes (prepare true w) = true → build (set_pageTree t w) = build w)
  ∧ (completes (prepare true w) = false →
     build (set_pageTree t w) = outcome_map (set_pageTree t) (build w)).
Proof.
  unfold events_of, build. rewrite !bind_run, prepare_set_pageTree.
  by destruct (prepare true w) as [[] w1|err w1].
Qed.

(** The steps of [build] before [stop] do not call [cleanupWorker]. *)
Lemma build_file_framed (f : string) w :
  ∃ evs, trace (state_of (build_file f w)) = trace w ++ evs
         ∧ Forall (λ ev, ev ≠ EvCleanupWorker) evs.
Proof.
  unfold build_file. erewrite bind_ok; [|reflexivity].
  unfold bind. rewrite call_updateRocketHeader_run.
  destruct (updateRocketHeader _ _ _) as [[] d1|err d1]; simpl.
  2:{ exists [EvUpdateRocketHeader f]. by repeat constructor. }
  rewrite renderFile_run. simpl.
  destruct (renderViaWorker _ _) as [r d2|err d2]; simpl.
  2:{ exists [EvUpdateRocketHeader f; EvRenderViaWorker f].
      split; [by rewrite <- app_assoc|]. by repeat constructor. }
  rewrite pageTree_add_run. simpl.
  exists [EvUpdateRocketHeader f; EvRenderViaWorker f;
          EvPageTreeAdd (sourceRelativeFilePath r)].
  destruct (PageTree_add _ _) as [[] [t d3]|err [t d3]]; simpl;
    (split; [by rewrite <- !app_assoc|by repeat constructor]).
Qed.

Lemma for_of_appends {A} (P : Event → Prop) (body : A → M unit) (xs : list A) :
  (∀ x w, ∃ evs, trace (state_of (body x w)) = trace w ++ evs ∧ Forall P evs) →
  ∀ w, ∃ evs, trace (state_of (for_of xs body w)) = trace w ++ evs ∧ Forall P evs.
Proof.
  intros Hbody. induction xs as [|x xs IH]; intros w; cbn [for_of].
  - exists []. by rewrite app_nil_r.
  - destruct (Hbody x w) as (evs1 & Htr1 & HP1).
    destruct (body x w) as [[] w1|err w1] eqn:Hrun; cbn [state_of] in Htr1.
    + erewrite bind_ok; [|exact Hrun].
      destruct (IH w1) as (evs2 & Htr2 & HP2).
      exists (evs1 ++ evs2). rewrite Htr2, Htr1, <- app_assoc.
      split; [done|]. by apply Forall_app_2.
    + erewrite bind_throw; [|exact Hrun]. by exists evs1.
Qed.

Lemma build_passes_appends (files : list string) w :
  ∃ evs, trace (state_of (build_passes files w)) = trace w ++ evs
         ∧ Forall (λ ev, ev ≠ EvCleanupWorker) evs.
Proof.
  unfold build_passes.
  destruct (for_of_appends (λ ev, ev ≠ EvCleanupWorker) build_file files
              build_file_framed w) as (evs1 & Htr1 & HP1).
  destruct (for_of files build_file w) as [[] w1|err w1] eqn:Hloop1; cbn [state_of] in *.
  2:{ erewrite bind_throw; [|exact Hloop1]. by exists evs1. }
  erewrite bind_ok; [|exact Hloop1].
  pose proof (pageTree_save_trace w1) as Htr2.
  destruct (pageTree_save w1) as [[] w2|err w2] eqn:Hsave; cbn [state_of] in *.
  2:{ erewrite bind_throw; [|exact Hsave]. cbn [state_of].
      exists (evs1 ++ [EvPageTreeSave]). rewrite Htr2, Htr1, <- app_assoc.
      split; [done|]. apply Forall_app_2; [done|]. by repeat constructor. }
  erewrite bind_ok; [|exact Hsave].
  erewrite bind_ok; [|reflexivity].
  destruct (pageTreeChangedOnSave (pageTree w2)).
  - destruct (for_of_appends (λ ev, ev ≠ EvCleanupWorker)
                (λ f, bind (renderFile f) (λ _, ret tt)) files) with (w := w2)
      as (evs3 & Htr3 & HP3).
    { intros f w0. exists [EvRenderViaWorker f].
      split; [apply render_turn_run|]. by repeat constructor. }
    exists (evs1 ++ [EvPageTreeSave] ++ evs3). rewrite Htr3, Htr2, Htr1, <- !app_assoc.
    split; [done|]. apply Forall_app_2; [done|]. by constructor.
  - exists (evs1 ++ [EvPageTreeSave]). cbn [state_of ret].
    rewrite Htr2, Htr1, <- app_assoc.
    split; [done|]. apply Forall_app_2; [done|]. by repeat constructor.
Qed.

(** X15: [build] calls [cleanupWorker] exactly when it completes, and
    then as its last call.  A build that throws (because preparing,
    gathering, a header update, a render or a page tree method threw) never
    reaches [stop], so the render worker is not cleaned up. *)
Theorem build_cleans_up_iff_completes w :
  (completes (build w) = true →
   ∃ evs, events_of build w = evs ++ [EvCleanupWorker] ∧ EvCleanupWorker ∉ evs)
  ∧ (completes (build w) = false → EvCleanupWorker ∉ events_of build w).
Proof.
  destruct (prepare_calls true w) as (evs0 & Htr0 & HP0 & _).
  assert (Forall (λ ev, ev ≠ EvCleanupWorker) evs0) as HP0'.
  { eapply Forall_impl; [exact HP0|]. by intros []. }
  clear HP0.
  assert (∀ evs, Forall (λ ev, ev ≠ EvCleanupWorker) evs → EvCleanupWorker ∉ evs)
    as Hnotin.
  { intros evs Hall Hin.
    by apply (Forall_forall (λ ev, ev ≠ EvCleanupWorker) evs) in Hin. }
  unfold events_of, build. rewrite bind_run.
  destruct (prepare true w) as [[] w1|err w1]; cbn [state_of] in Htr0.
  2:{ split; [discriminate|]. intros _. cbn [state_of].
      rewrite Htr0, drop_app_length. by apply Hnotin. }
  erewrite bind_ok; [|reflexivity].
  erewrite bind_ok; [|reflexivity].
  set (dir := docsDir (engine w1)).
  set (w2 := set_trace (trace w1 ++ [EvGatherFiles dir])
               (set_pageTree (PageTree_new dir (outputDir (engine w1))) w1)).
  set (rest := λ sourceFiles : list string,
         bind (if Nat.ltb 0 (length sourceFiles) then build_passes sourceFiles else ret tt)
              (λ _, stop)).
  rewrite bind_run.
  assert (call_gatherFiles dir
            (set_pageTree (PageTree_new dir (outputDir (engine w1))) w1)
          = match gatherFiles dir (disk w1) with
            | Ok files d => Ok files (set_disk d w2)
            | Throw err d => Throw err (set_disk d w2)
            end) as ->.
  { unfold call_gatherFiles, bind, emit, on_disk. simpl.
    by destruct (gatherFiles dir (disk w1)). }
  assert (∀ P : Event → Prop, P (EvGatherFiles dir) → Forall P evs0 →
            Forall P (evs0 ++ [EvGatherFiles dir])) as Hhead.
  { intros P HP Hall. apply Forall_app_2; [done|]. by repeat constructor. }
  destruct (gatherFiles dir (disk w1)) as [files d|err d].
  2:{ split; [discriminate|]. intros _. cbn [state_of]. simpl. rewrite Htr0.
      rewrite <- app_assoc, drop_app_length. by apply Hnotin, Hhead. }
  assert (∃ evs, trace (state_of ((if Nat.ltb 0 (length files)
                                   then build_passes files else ret tt) (set_disk d w2)))
                 = trace w ++ evs
                 ∧ Forall (λ ev, ev ≠ EvCleanupWorker) evs) as (evs & Htr & HP).
  { destruct (Nat.ltb 0 (length files)).
    - destruct (build_passes_appends files (set_disk d w2)) as (evs & Htr & HP).
      exists ((evs0 ++ [EvGatherFiles dir]) ++ evs). rewrite Htr. simpl. rewrite Htr0.
      split; [by rewrite <- !app_assoc|]. apply Forall_app_2; [|done]. by apply Hhead.
    - exists (evs0 ++ [EvGatherFiles dir]). simpl. rewrite Htr0.
      split; [by rewrite <- !app_assoc|]. by apply Hhead. }
  unfold rest. rewrite !bind_run.
  destruct ((if Nat.ltb 0 (length files) then build_passes files else ret tt)
              (set_disk d w2)) as [[] w3|err w3] eqn:Hbody; cbn [state_of] in Htr.
  - assert (∃ evs4, trace (state_of (stop w3)) = trace w3 ++ evs4 ++ [EvCleanupWorker]
                    ∧ Forall (λ ev, ev ≠ EvCleanupWorker) evs4
                    ∧ completes (stop w3) = true) as (evs4 & Htr4 & HP4 & Hstop).
    { unfold stop. erewrite bind_ok; [|reflexivity]. unfold bind, emit, ret.
      destruct (watcher (engine w3)), (devServer (engine w3)); simpl;
        [exists [EvWatcherCleanup; EvDevServerStop] | exists [EvWatcherCleanup]
        | exists [EvDevServerStop] | exists []];
        rewrite <- ?app_assoc; by repeat constructor. }
    split; [|by rewrite Hstop].
    intros _. exists (evs ++ evs4).
    rewrite Htr4, Htr, <- !app_assoc, drop_app_length.
    split; [done|]. by apply Hnotin, Forall_app_2.
  - split; [discriminate|]. intros _.
    cbn [state_of]. rewrite Htr, drop_app_length. by apply Hnotin.
Qed.

(** Plugins whose folder is not copied leave the disk alone, and the loop
    over them completes. *)
Lemma prepare_plugins_without_copy (ps : list Plugin) w :
  ∃ evs,
    trace (state_of (for_of ps prepare_plugin w)) = trace w ++ evs
    ∧ (Forall (λ ev, is_copy ev = false) evs →
       completes (for_of ps prepare_plugin w) = true
       ∧ disk (state_of (for_of ps prepare_plugin w)) = disk w).
Proof.
  revert w. induction ps as [|plugin ps IH]; intros w; cbn [for_of].
  - exists []. by rewrite app_nil_r.
  - rewrite bind_run, prepare_plugin_run.
    destruct (truthy _ && _).
    + rewrite fse_copy_run.
      destruct (fsExtra_copy _ _ _) as [[] d|err d].
      * match goal with
        | |- context [for_of ps prepare_plugin ?w0] =>
            destruct (IH w0) as (evs & Htr & _)
        end.
        eexists (_ :: evs). rewrite Htr. cbn [trace set_disk set_trace].
        split; [by rewrite <- app_assoc|].
        intros Hall. inversion Hall. discriminate.
      * eexists [_]. split; [reflexivity|].
        intros Hall. inversion Hall. discriminate.
    + match goal with
      | |- context [for_of ps prepare_plugin ?w0] =>
          destruct (IH w0) as (evs & Htr & Hdisk)
      end.
      eexists (_ :: evs). rewrite Htr. cbn [trace reached].
      split; [by rewrite <- app_assoc|].
      intros Hall. inversion Hall; subst. by apply Hdisk.
Qed.

(** X21: clearing removes the output directory itself.  When the output
    directory exists, [prepare] with [clearOutputDir] removes it with
    everything below it, and unless a public folder is copied afterwards
    that is the disk it leaves: [prepare] completes, the output directory
    does not exist any more, and it is not created again. *)
Theorem prepare_clears_output_directory w :
  Fs.existsSync process_cwd (outputDir (engine w)) (disk w) = true →
  Forall (λ ev, is_copy ev = false) (events_of (prepare true) w) →
  ∃ w',
    prepare true w = Ok tt w'
    ∧ disk w' = Fs.rm_recursive_force process_cwd (outputDir (engine w)) (disk w)
    ∧ Fs.existsSync process_cwd (outputDir (engine w)) (disk w') = false
    ∧ (∀ p, Fs.within process_cwd (outputDir (engine w)) p = true → p ∉ disk w').
Proof.
  intros Hpresent Hnocopy.
  set (out := outputDir (engine w)) in *.
  set (publicDir := Path.join (docsDir (engine w)) "__public").
  set (w1 := set_options
               (applyPlugins (options (engine w))
                  (default [] (defaultPlugins (options (engine w)))))
               (set_trace (trace w ++ [EvApplyPlugins]) w)).
  set (w2 := set_disk (Fs.rm_recursive_force process_cwd out (disk w))
               (set_trace (trace w ++ [EvApplyPlugins; EvRm out true]) w1)).
  set (copy_public := if Fs.existsSync process_cwd publicDir (disk w2)
                      then fse_copy publicDir out else ret tt).
  set (copy_plugins := λ w3 : World,
         match plugins (options (engine w3)) with
         | Some ps => for_of ps prepare_plugin
         | None => ret tt
         end w3).
  assert (prepare true w = bind copy_public (λ _, copy_plugins) w2) as Hrun.
  { unfold prepare.
    erewrite bind_ok; [|reflexivity].
    erewrite bind_ok; [|reflexivity].
    erewrite bind_ok; [|reflexivity].
    erewrite bind_ok; [|reflexivity].
    fold w1. fold out. cbn [disk set_options set_trace]. rewrite Hpresent. cbn [negb].
    erewrite bind_ok; [|reflexivity].
    erewrite bind_ok; [|reflexivity].
    fold publicDir.
    match goal with
    | |- bind ?m _ ?w0 = _ =>
        replace w0 with w2 by (unfold w2, set_disk, set_trace; simpl;
                               by rewrite <- app_assoc)
    end.
    rewrite !bind_run. fold copy_public.
    destruct (copy_public w2) as [[] w3|err w3]; [|done].
    by rewrite bind_run. }
  assert (∃ evs3, trace (state_of (copy_public w2)) = trace w2 ++ evs3
                  ∧ engine (state_of (copy_public w2)) = engine w2
                  ∧ (Forall (λ ev, is_copy ev = false) evs3 →
                     copy_public w2 = Ok tt w2)) as (evs3 & Htr3 & He3 & Hsame3).
  { unfold copy_public. destruct (Fs.existsSync process_cwd publicDir (disk w2)).
    - rewrite fse_copy_run. eexists [_].
      destruct (fsExtra_copy _ _ _) as [[] d|err d];
        (split; [reflexivity|]); (split; [done|]);
        intros Hall; inversion Hall; discriminate.
    - exists []. by rewrite app_nil_r. }
  assert (∃ evs, events_of (prepare true) w
                 = [EvApplyPlugins; EvRm out true] ++ evs3 ++ evs
                 ∧ (copy_public w2 = Ok tt w2 →
                    ∃ evs4, evs = evs4
                            ∧ (Forall (λ ev, is_copy ev = false) evs4 →
                               completes (copy_plugins w2) = true
                               ∧ disk (state_of (copy_plugins w2)) = disk w2)))
    as (evs & Hevents & Hplugins).
  { destruct (copy_public w2) as [[] w3|err w3] eqn:Hcopy; cbn [state_of] in *.
    - destruct (prepare_plugins_without_copy
                  (default [] (plugins (options (engine w3)))) w3)
        as (evs4 & Htr4 & Hdisk4).
      assert (copy_plugins w3 = for_of (default [] (plugins (options (engine w3))))
                                  prepare_plugin w3) as Hloop.
      { unfold copy_plugins. by destruct (plugins _). }
      exists evs4. split.
      + apply events_of_append. rewrite Hrun, bind_run, Hcopy, Hloop, Htr4, Htr3.
        unfold w2. simpl. by rewrite <- !app_assoc.
      + intros [= <-]. exists evs4. split; [done|]. by rewrite Hloop.
    - exists []. split; [|discriminate].
      apply events_of_append. rewrite Hrun, bind_run, Hcopy. cbn [state_of].
      rewrite Htr3, app_nil_r. unfold w2. simpl. by rewrite <- !app_assoc. }
  rewrite Hevents in Hnocopy.
  apply Forall_app in Hnocopy as [_ [Hno3 Hno4]%Forall_app].
  specialize (Hsame3 Hno3).
  destruct (Hplugins Hsame3) as (evs4 & -> & Hdone).
  destruct (Hdone Hno4) as [Hcompletes Hdisk].
  rewrite bind_run, Hsame3 in Hrun.
  assert (prepare true w = Ok tt (state_of (copy_plugins w2))) as Hok.
  { rewrite Hrun. by destruct (copy_plugins w2) as [[] w4|err w4]. }
  exists (state_of (copy_plugins w2)). split; [done|]. rewrite Hdisk.
  cbn [w2 disk set_disk].
  split; [done|]. unfold Fs.rm_recursive_force. split.
  - unfold Fs.existsSync. apply bool_decide_eq_false.
    intros [Hout _]%elem_of_filter. by rewrite within_resolve in Hout.
  - intros p Hwithin [Hout _]%elem_of_filter. congruence.
Qed.

End BuildMore.
(** ** More runs on concrete inputs *)

Section RunsMore.
Local Open Scope list_scope.

Lemma serve_body_only_for_register_tab_witness :
  serve {| path := "/ws-register-tab.js" |} Sample.dev_world
  = Ok (Some register_tab_module) Sample.dev_world.
Proof.
  exact (proj1 (serve_body_only_for_register_tab {| path := "/ws-register-tab.js" |}
                  Sample.dev_world) eq_refl).
Defined.

Lemma watch_event_render_failure_skips_tree_witness :
  ∃ w', onPageSavedOrOpenedTabAndServerDependencyChanged "/docs/a.md"
          (Faulty.stale_world [])
        = Ok tt w'
        ∧ pageTree w' = pageTree (Faulty.stale_world []).
Proof.
  edestruct (watch_event_render_failure_skips_tree "/docs/a.md" (Faulty.stale_world []))
    as (w' & Hrun & Htree & _); [reflexivity | reflexivity |].
  exists w'. split; [exact Hrun|exact Htree].
Defined.

Lemma watch_event_second_render_failure_keeps_flag_witness :
  ∃ w', onPageSavedOrOpenedTabAndServerDependencyChanged "/docs/a.md"
          (Faulty.dev_world [])
        = Ok tt w'
        ∧ needsAnotherRenderingPass (pageTree w') = true
        ∧ renders_of "/docs/b.md"
            (events_of (onPageSavedOrOpenedTabAndServerDependencyChanged "/docs/a.md")
               (Faulty.dev_world [])) = 0.
Proof.
  edestruct (watch_event_second_render_failure_keeps_flag "/docs/a.md"
               (Faulty.dev_world []))
    as (w' & Hrun & Hflag & _ & Hothers);
    [reflexivity | reflexivity | reflexivity | reflexivity | reflexivity | reflexivity |].
  exists w'. split; [exact Hrun|]. split; [exact Hflag|].
  apply Hothers. discriminate.
Defined.

Lemma sweep_without_delete_removes_nothing_witness :
  renderAllOpenedFiles false "/docs/b.md" Sample.dev_world = Ok tt Sample.dev_world.
Proof.
  apply (sweep_without_delete_removes_nothing "/docs/b.md" Sample.dev_world).
  intros f page [[= -> ->]|[[= -> ->]|[]%elem_of_nil]%elem_of_cons]%elem_of_cons Htrig;
    [reflexivity|discriminate].
Defined.

Lemma header_errors_propagate_witness :
  ∃ err w', onPageServerDependencySaved "/docs/a.md" (Faulty.stale_world ["/docs/a.md"])
            = Throw err w'
            ∧ disk w' = disk (Faulty.stale_world ["/docs/a.md"]).
Proof.
  edestruct (header_errors_propagate "/docs/a.md" (Faulty.stale_world ["/docs/a.md"]))
    as (w' & _ & Hrun & Hdisk & _); [reflexivity|].
  eexists. exists w'. split; [exact Hrun|exact Hdisk].
Defined.


Lemma request_after_invalidation_renders_witness :
  Fs.existsSync "/work" "/site/a.html"
    (disk (state_of (onPageServerDependencySaved "/docs/a.md" Sample.rendered_world)))
  = false
  ∧ completes
      (serve {| path := "/a.html" |}
         (state_of (onPageServerDependencySaved "/docs/a.md" Sample.rendered_world)))
    = true
  ∧ EvRenderViaWorker "/docs/a.md"
    ∈ events_of (serve {| path := "/a.html" |})
        (state_of (onPageServerDependencySaved "/docs/a.md" Sample.rendered_world)).
Proof.
  destruct (request_after_invalidation_renders "/docs/a.md" {| path := "/a.html" |}
              Sample.rendered_world
              (state_of (onPageServerDependencySaved "/docs/a.md" Sample.rendered_world)))
    as (Hmissing & Hok & _).
  - apply completes_unit. by vm_compute.
  - discriminate.
  - by vm_compute.
  - discriminate.
  - edestruct Hok as (Hcompletes & evs & Hevents); [reflexivity|].
    split; [exact Hmissing|]. split; [exact Hcompletes|].
    rewrite Hevents. apply list_elem_of_further, list_elem_of_further, list_elem_of_here.
Defined.

Lemma page_deleted_twice_witness :
  disk (state_of (onPageDeleted "/docs/b.md" Sample.dev_world)) = disk Sample.dev_world.
Proof.
  apply (proj1 (page_deleted_twice "/docs/b.md" Sample.dev_world)).
  by vm_compute.
Defined.

(** The sample [mkdir] and [fse.copy] remove nothing. *)
Lemma sample_mkdir_keeps (p : string) (d : gset string) : d ⊆ left_by (Sample.mkdir p d).
Proof.
  unfold Sample.mkdir. destruct (existsb _ _); cbn [left_by]; [done|].
  apply union_subseteq_r.
Qed.

Lemma sample_copy_keeps (src dst : string) (d : gset string) :
  d ⊆ left_by (Sample.copy src dst d).
Proof.
  unfold Sample.copy.
  destruct (String.eqb _ _); [done|]. destruct (Fs.below _ _ _); [done|].
  cbn [left_by]. intros q Hq. rewrite !elem_of_union. tauto.
Qed.

Lemma prepare_never_deletes_outside_output_witness :
  "/docs/a.md" ∈ disk (state_of (prepare true Sample.rendered_world)).
Proof.
  apply (proj2 (prepare_never_deletes_outside_output true Sample.rendered_world)).
  - intros p d q Hq. by apply sample_mkdir_keeps.
  - intros src dst d q Hq. by apply sample_copy_keeps.
  - apply (bool_decide_unpack _). by vm_compute.
  - by vm_compute.
Defined.

Lemma prepare_without_clearing_keeps_everything_witness :
  Forall (λ ev, is_rm ev = false) (events_of (prepare false) Sample.rendered_world)
  ∧ disk Sample.rendered_world ⊆ disk (state_of (prepare false Sample.rendered_world)).
Proof.
  destruct (prepare_without_clearing_keeps_everything false Sample.rendered_world)
    as [Hrm Hkeep]; [by left|].
  split; [exact Hrm|]. apply Hkeep.
  - apply sample_mkdir_keeps.
  - apply sample_copy_keeps.
Defined.


Lemma build_cleans_up_iff_completes_witness :
  (∃ evs, events_of build Sample.build_world = evs ++ [EvCleanupWorker]
          ∧ EvCleanupWorker ∉ evs)
  ∧ EvCleanupWorker ∉ events_of build Sample.broken_build_world.
Proof.
  split.
  - apply (build_cleans_up_iff_completes Sample.build_world). by vm_compute.
  - apply (build_cleans_up_iff_completes Sample.broken_build_world). by vm_compute.
Defined.

Lemma setOptions_directories_absolute_witness :
  Path.isAbsolute
    (Setup.this_outputDir
       (Setup.constructor (MP := unit) (SP := unit) "/work"
          {| Setup.defaultPlugins := None; Setup.setupPlugins := None;
             Setup.renderMode := None; Setup.open := None;
             Setup.docsDir := Some "../manual"; Setup.outputDir := Some "out/site";
             Setup.watchDir := None |})) = true.
Proof.
  apply (setOptions_directories_absolute (MP := unit) (SP := unit) "/work"
           (Setup.initial "/work")).
  reflexivity.
Defined.

Lemma setOptions_keeps_directories_witness :
  Setup.this_docsDir
    (Setup.setOptions (MP := unit) (SP := unit) "/work"
       (Setup.setOptions "/work" (Setup.initial "/work")
          (Some {| Setup.defaultPlugins := None; Setup.setupPlugins := None;
                   Setup.renderMode := None; Setup.open := None;
                   Setup.docsDir := Some "manual"; Setup.outputDir := None;
                   Setup.watchDir := None |}))
       (Some {| Setup.defaultPlugins := None; Setup.setupPlugins := Some [tt];
                Setup.renderMode := Some "production"; Setup.open := None;
                Setup.docsDir := None; Setup.outputDir := None;
                Setup.watchDir := None |}))
  = "/work/manual".
Proof.
  rewrite (proj1 (proj2 (setOptions_keeps_directories (MP := unit) (SP := unit) "/work"
                           (Setup.initial "/work")
                           {| Setup.defaultPlugins := None; Setup.setupPlugins := None;
                              Setup.renderMode := None; Setup.open := None;
                              Setup.docsDir := Some "manual"; Setup.outputDir := None;
                              Setup.watchDir := None |}
                           {| Setup.defaultPlugins := None; Setup.setupPlugins := Some [tt];
                              Setup.renderMode := Some "production"; Setup.open := None;
                              Setup.docsDir := None; Setup.outputDir := None;
                              Setup.watchDir := None |})
                    eq_refl eq_refl eq_refl)).
  reflexivity.
Defined.

Lemma setOptions_default_outputDir_is_sibling_witness :
  Setup.this_outputDir
    (Setup.setOptions (MP := unit) (SP := unit) "/work/site" (Setup.initial "/work/site")
       (Some {| Setup.defaultPlugins := None; Setup.setupPlugins := None;
                Setup.renderMode := None; Setup.open := None;
                Setup.docsDir := Some "../manual/docs"; Setup.outputDir := None;
                Setup.watchDir := None |}))
  = "/work/manual/_site-dev".
Proof.
  rewrite (proj2 (setOptions_default_outputDir_is_sibling (MP := unit) (SP := unit)
                    "/work/site" (Setup.initial "/work/site")
                    {| Setup.defaultPlugins := None; Setup.setupPlugins := None;
                       Setup.renderMode := None; Setup.open := None;
                       Setup.docsDir := Some "../manual/docs"; Setup.outputDir := None;
                       Setup.watchDir := None |}
                    "../manual/docs" eq_refl ltac:(discriminate) eq_refl)).
  reflexivity.
Defined.

Lemma getOutputFilePath_below_outputDir_witness :
  getOutputFilePath (engine Sample.dev_world) "/docs/guides/intro.md"
  = "/site/guides/intro.html"
  ∧ Fs.below "/work" "/site"
      (getOutputFilePath (engine Sample.dev_world) "/docs/guides/intro.md")
    = true.
Proof.
  exact (getOutputFilePath_below_outputDir (engine Sample.dev_world)
           "/docs/guides/intro.md" ["site"] ["guides"; "intro.html"]
           eq_refl eq_refl
           ltac:(repeat constructor; discriminate)
           ltac:(repeat constructor; discriminate)
           ltac:(discriminate) ltac:(discriminate)).
Defined.

Lemma prepare_clears_output_directory_witness :
  ∃ w', prepare true Sample.rendered_world = Ok tt w'
        ∧ Fs.existsSync "/work" "/site" (disk w') = false
        ∧ ("/site/a.html" ∉ disk w').
Proof.
  destruct (prepare_clears_output_directory Sample.rendered_world)
    as (w' & Hrun & _ & Hroot & Hbelow).
  - by vm_compute.
  - apply (bool_decide_unpack _). by vm_compute.
  - exists w'. split; [exact Hrun|]. split; [exact Hroot|].
    apply Hbelow. by vm_compute.
Defined.

End RunsMore.
